(** * Work Time Calculator: the time arithmetic of [work_time_calculator.py]

    A shallow embedding of the parsing layer ([TimeParser]), the domain
    model ([TimeInterval], [DaySchedule]) and the computing part of the
    controller ([IntervalRow.get_interval_or_error],
    [GuiController._collect_schedule], [_ceil_to_next_hour],
    [_set_milestone_message], [recalculate]), followed by the properties
    of the specification proved about them.

    Conventions of the embedding.
    - A Python [int] is a [Z]; [//] and [%] with a positive divisor are
      [Z.div] and [Z.modulo].
    - A Python [str] is a [string].  The model follows CPython on ASCII
      text: a character above 127 is an ordinary character here (neither
      white space nor a digit).  CPython's configurable cap on the number
      of digits of an [int]/[str] conversion is left out.
    - A function that raises [ValueError] returns a [result], the error
      carrying the message of the exception; [int(str)], whose message the
      program never uses, returns an [option].
    - [time] and [datetime] values carry whole seconds: every value the
      program builds has [microsecond = 0] ([parse_time] calls
      [time(hour, minute, second)], and each clock reading is
      [datetime.now().replace(microsecond=0)]).  A [date] is its
      proleptic Gregorian ordinal ([date.toordinal()]); the bound of
      year 9999 is left out.
    - The widget side of the controller (Tk variables, labels, progress
      bar) is reduced to the values written to the Tk variables. *)

From Stdlib Require Import ZArith List String Ascii Bool Lia.
From Stdlib Require Import Permutation Sorted.
Import ListNotations.

Open Scope string_scope.
Open Scope Z_scope.

(** ** Python's [str] and [int] primitives used by the program *)

Module Str.

Definition code (c : ascii) : N := N_of_ascii c.

(** [str.isspace] on one ASCII character; the set used by [str.strip()]
    and by [\s] in a [str] pattern. *)
Definition is_space (c : ascii) : bool :=
  let n := code c in
  ((9 <=? n) && (n <=? 13) || (28 <=? n) && (n <=? 32))%N.

(** The white space skipped by [int(str)]: only tab, line feed,
    vertical tab, form feed, carriage return and space. *)
Definition is_int_space (c : ascii) : bool :=
  let n := code c in
  ((9 <=? n) && (n <=? 13) || (n =? 32))%N.

Definition is_empty (s : string) : bool :=
  match s with EmptyString => true | String _ _ => false end.

Fixpoint all_chars (p : ascii -> bool) (s : string) : bool :=
  match s with
  | EmptyString => true
  | String c s' => p c && all_chars p s'
  end.

Fixpoint lstrip_with (p : ascii -> bool) (s : string) : string :=
  match s with
  | EmptyString => EmptyString
  | String c s' => if p c then lstrip_with p s' else s
  end.

Fixpoint rstrip_with (p : ascii -> bool) (s : string) : string :=
  match s with
  | EmptyString => EmptyString
  | String c s' =>
      let r := rstrip_with p s' in
      if p c && is_empty r then EmptyString else String c r
  end.

(** [s.strip()] *)
Definition strip (s : string) : string :=
  rstrip_with is_space (lstrip_with is_space s).

(** [s.split(sep)] for a one-character separator: never an empty list. *)
Fixpoint split (sep : ascii) (s : string) : list string :=
  match s with
  | EmptyString => [EmptyString]
  | String c s' =>
      if Ascii.eqb c sep then EmptyString :: split sep s'
      else match split sep s' with
           | p :: ps => String c p :: ps
           | [] => [String c EmptyString]
           end
  end.

(** [c.lower()] on ASCII letters. *)
Definition lower (c : ascii) : ascii :=
  let n := code c in
  if ((65 <=? n) && (n <=? 90))%N then ascii_of_N (n + 32) else c.

Definition digit_of (c : ascii) : option Z :=
  let n := code c in
  if ((48 <=? n) && (n <=? 57))%N then Some (Z.of_N n - 48) else None.

(** The digits of an [int] literal read by [int(str)]: at least one
    digit, and single underscores only between two digits.  [prev] tells
    whether the previous character was a digit. *)
Fixpoint int_digits (s : string) (acc : Z) (prev : bool) : option Z :=
  match s with
  | EmptyString => if prev then Some acc else None
  | String c s' =>
      if Ascii.eqb c "_" then
        if prev then int_digits s' acc false else None
      else match digit_of c with
           | Some d => int_digits s' (10 * acc + d) true
           | None => None
           end
  end.

(** [int(s)] in base 10; [None] is [ValueError]. *)
Definition int (s : string) : option Z :=
  let t := rstrip_with is_int_space (lstrip_with is_int_space s) in
  match t with
  | EmptyString => None
  | String c r =>
      if Ascii.eqb c "-" then option_map Z.opp (int_digits r 0 false)
      else if Ascii.eqb c "+" then int_digits r 0 false
      else int_digits t 0 false
  end.

Definition digit_char (d : Z) : ascii := ascii_of_N (Z.to_N (48 + d)).

(** The decimal digits of a non-negative [n], most significant first,
    written in front of [acc]. *)
Fixpoint digits_from (fuel : nat) (n : Z) (acc : string) : string :=
  match fuel with
  | O => acc
  | S fuel' =>
      let acc' := String (digit_char (n mod 10)) acc in
      if n <? 10 then acc' else digits_from fuel' (n / 10) acc'
  end.

(** [str(n)] for [n >= 0]; a number below [2^k] has at most [k] digits. *)
Definition decimal (n : Z) : string :=
  digits_from (S (Z.to_nat (Z.log2 n))) n EmptyString.

Fixpoint zeros (k : nat) : string :=
  match k with O => EmptyString | S k' => String "0" (zeros k') end.

(** [f"{n:02d}"]: sign-aware zero padding to a width of two. *)
Definition format_02d (n : Z) : string :=
  if n <? 0 then
    let d := decimal (- n) in
    String "-" (zeros (1 - String.length d) ++ d)
  else
    let d := decimal n in
    zeros (2 - String.length d) ++ d.

(** [sep.join(parts)] *)
Fixpoint join (sep : string) (parts : list string) : string :=
  match parts with
  | [] => EmptyString
  | [p] => p
  | p :: ps => p ++ sep ++ join sep ps
  end.

End Str.

(** ** Results of functions that may raise *)

Inductive result (A : Type) : Type :=
| Ok : A -> result A
| ValueError : string -> result A.

Arguments Ok {A} _.
Arguments ValueError {A} _.

Definition is_ok {A : Type} (r : result A) : bool :=
  match r with Ok _ => true | ValueError _ => false end.

(** ** Utilities and parsing: [class TimeParser] *)

(** [datetime.time], without [microsecond] and [tzinfo]. *)
Record time : Type := mkTime { hour : Z; minute : Z; second : Z }.

(** [n in range(lo, hi)] *)
Definition in_range (n lo hi : Z) : bool := (lo <=? n) && (n <? hi).

Module TimeParser.

Inductive ampm : Type := AM | PM.

(** The two letters of group 1 of [_am_pm_re], lowered. *)
Definition marker_of (c1 c2 : ascii) : option ampm :=
  if Ascii.eqb (Str.lower c2) "m" then
    if Ascii.eqb (Str.lower c1) "a" then Some AM
    else if Ascii.eqb (Str.lower c1) "p" then Some PM
    else None
  else None.

(** [_am_pm_re.match] at the start of [s], for
    [_am_pm_re = re.compile(r"\s*(am|pm)\s*$", re.IGNORECASE)]:
    white space, the two letters, then only white space up to the end
    (a final line feed, which [$] tolerates, is white space too). *)
Definition am_pm_match_here (s : string) : option ampm :=
  match Str.lstrip_with Str.is_space s with
  | String c1 (String c2 rest) =>
      if Str.all_chars Str.is_space rest then marker_of c1 c2 else None
  | _ => None
  end.

(** [_am_pm_re.search(s)]: the leftmost position where the pattern
    matches.  A match runs to the end of [s], so the result is the text
    before the match (what [_am_pm_re.sub("", s)] leaves) and group 1. *)
Fixpoint am_pm_search (s : string) : option (string * ampm) :=
  match am_pm_match_here s with
  | Some g => Some (EmptyString, g)
  | None =>
      match s with
      | EmptyString => None
      | String c s' =>
          match am_pm_search s' with
          | Some (pre, g) => Some (String c pre, g)
          | None => None
          end
      end
  end.

(** The [try] block of [parse_time]: the three components, an empty
    minute or second component counting as 0. *)
Definition time_components (parts : list string) : option (Z * Z * Z) :=
  match Str.int (nth 0 parts EmptyString) with
  | None => None
  | Some hh =>
      match (if (2 <=? List.length parts)%nat
                && negb (Str.is_empty (nth 1 parts EmptyString))
             then Str.int (nth 1 parts EmptyString) else Some 0) with
      | None => None
      | Some mm =>
          match (if (List.length parts =? 3)%nat
                    && negb (Str.is_empty (nth 2 parts EmptyString))
                 then Str.int (nth 2 parts EmptyString) else Some 0) with
          | None => None
          | Some ss => Some (hh, mm, ss)
          end
      end
  end.

(** [parse_time] from [parts = s.split(":")] on, [ampm] being the marker
    found in the text, if any. *)
Definition time_of_parts (ampm : option ampm) (parts : list string)
  : result time :=
  if (3 <? List.length parts)%nat then ValueError "Too many ':' in time"
  else
    match time_components parts with
    | None => ValueError "Non-numeric time component"
    | Some (hh, mm, ss) =>
        if negb (in_range mm 0 60) || negb (in_range ss 0 60)
        then ValueError "Minutes/seconds out of range"
        else
          match ampm with
          | Some g =>
              if negb (in_range hh 1 13)
              then ValueError "Hour out of range for 12-hour time"
              else
                let hh :=
                  match g with
                  | AM => if hh =? 12 then 0 else hh
                  | PM => if hh =? 12 then 12 else hh + 12
                  end in
                Ok (mkTime hh mm ss)
          | None =>
              if negb (in_range hh 0 24)
              then ValueError "Hour out of range for 24-hour time"
              else Ok (mkTime hh mm ss)
          end
    end.

Definition parse_time (text : string) : result time :=
  let s := Str.strip text in
  if Str.is_empty s then ValueError "Empty time"
  else
    let '(ampm, s) :=
      match am_pm_search s with
      | Some (pre, g) => (Some g, Str.strip pre)
      | None => (None, s)
      end in
    let parts := Str.split ":" s in
    time_of_parts ampm parts.

(** The [try] block of [parse_duration]: every component present is
    read with [int]. *)
Definition duration_components (parts : list string) : option (Z * Z * Z) :=
  match parts with
  | [p0] =>
      match Str.int p0 with Some h => Some (h, 0, 0) | None => None end
  | [p0; p1] =>
      match Str.int p0, Str.int p1 with
      | Some h, Some m => Some (h, m, 0)
      | _, _ => None
      end
  | p0 :: p1 :: p2 :: _ =>
      match Str.int p0, Str.int p1, Str.int p2 with
      | Some h, Some m, Some sec => Some (h, m, sec)
      | _, _, _ => None
      end
  | [] => None
  end.

Definition parse_duration (text : string) : result Z :=
  let s := Str.strip text in
  if Str.is_empty s then ValueError "Empty duration"
  else
    let parts := Str.split ":" s in
    if (3 <? List.length parts)%nat then ValueError "Too many ':' in duration"
    else
      match duration_components parts with
      | None => ValueError "Non-numeric duration component"
      | Some (h, m, sec) =>
          if (h <? 0) || negb (in_range m 0 60) || negb (in_range sec 0 60)
          then ValueError "Invalid duration values"
          else Ok (h * 3600 + m * 60 + sec)
      end.

Definition format_hms (seconds : Z) : string :=
  let sign := if seconds <? 0 then "-" else "" in
  let s := Z.abs seconds in
  let h := s / 3600 in
  let m := (s mod 3600) / 60 in
  let sec := s mod 60 in
  sign ++ Str.format_02d h ++ ":" ++ Str.format_02d m ++ ":"
       ++ Str.format_02d sec.

End TimeParser.

(** ** [datetime.date], [datetime.datetime] and [datetime.timedelta] *)

(** A date is its ordinal; a [timedelta] is its number of seconds. *)
Definition date : Type := Z.
Definition timedelta : Type := Z.

Record datetime : Type := mkDatetime { dt_date : date; dt_time : time }.

Module Datetime.

(** [datetime.combine(d, t)] *)
Definition combine (d : date) (t : time) : datetime := mkDatetime d t.

(** Python orders [time] and [datetime] values field by field. *)
Definition time_compare (a b : time) : comparison :=
  match hour a ?= hour b with
  | Eq => match minute a ?= minute b with
          | Eq => second a ?= second b
          | c => c
          end
  | c => c
  end.

Definition compare (a b : datetime) : comparison :=
  match dt_date a ?= dt_date b with
  | Eq => time_compare (dt_time a) (dt_time b)
  | c => c
  end.

Definition time_ltb (a b : time) : bool :=
  match time_compare a b with Lt => true | _ => false end.

Definition ltb (a b : datetime) : bool :=
  match compare a b with Lt => true | _ => false end.

Definition leb (a b : datetime) : bool :=
  match compare a b with Gt => false | _ => true end.

Definition seconds_of_day (t : time) : Z :=
  hour t * 3600 + minute t * 60 + second t.

Definition time_of_seconds (s : Z) : time :=
  mkTime (s / 3600) ((s mod 3600) / 60) (s mod 60).

(** [a - b] on two datetimes *)
Definition sub (a b : datetime) : timedelta :=
  (dt_date a - dt_date b) * 86400
  + (seconds_of_day (dt_time a) - seconds_of_day (dt_time b)).

(** [dt + td] *)
Definition add (dt : datetime) (td : timedelta) : datetime :=
  let total := seconds_of_day (dt_time dt) + td in
  mkDatetime (dt_date dt + total / 86400)
             (time_of_seconds (total mod 86400)).

(** [td.total_seconds()] followed by [int(...)]: exact on whole seconds. *)
Definition total_seconds (td : timedelta) : Z := td.

(** [dt.strftime('%H:%M:%S')] *)
Definition strftime_HMS (dt : datetime) : string :=
  Str.format_02d (hour (dt_time dt)) ++ ":"
  ++ Str.format_02d (minute (dt_time dt)) ++ ":"
  ++ Str.format_02d (second (dt_time dt)).

(** [date(1970, 1, 1).toordinal()] *)
Definition epoch_ordinal : date := 719163.

(** [datetime.fromtimestamp(ts)]: the naive local time at POSIX time
    [ts], where [utcoffset ts] is the offset of the machine's time zone
    from UTC, in seconds, at that instant. *)
Definition fromtimestamp (utcoffset : Z -> Z) (ts : Z) : datetime :=
  add (mkDatetime epoch_ordinal (mkTime 0 0 0)) (ts + utcoffset ts).

Definition time_wf (t : time) : Prop :=
  0 <= hour t < 24 /\ 0 <= minute t < 60 /\ 0 <= second t < 60.

Definition wf (dt : datetime) : Prop := time_wf (dt_time dt).

End Datetime.

(** ** Domain model *)

(** [@dataclass class TimeInterval]; [end_ = None] is an open interval. *)
Record TimeInterval : Type :=
  mkTimeInterval { start : time; end_ : option time }.

Definition is_open (self : TimeInterval) : bool :=
  match end_ self with None => true | Some _ => false end.

Definition msg_end_after_start : string :=
  "End must be after Start within the same day (no cross-midnight).".

(** The two moments [start_dt] and [end_dt] that [duration_seconds] and
    [validate] both build for an interval. *)
Definition start_dt (self : TimeInterval) (on_date : date) : datetime :=
  Datetime.combine on_date (start self).

Definition end_dt (self : TimeInterval) (on_date : date) (now_dt : datetime)
  : datetime :=
  match end_ self with
  | None => now_dt
  | Some e => Datetime.combine on_date e
  end.

Definition duration_seconds (self : TimeInterval) (on_date : date)
    (now_dt : datetime) : result Z :=
  let start_dt := start_dt self on_date in
  let end_dt := end_dt self on_date now_dt in
  if Datetime.leb end_dt start_dt then ValueError msg_end_after_start
  else Ok (Datetime.total_seconds (Datetime.sub end_dt start_dt)).

(** [sorted(l, key=key)]: Python's sort is stable and compares keys with
    [<] only, which fixes its result; a stable insertion sort computes it. *)
Section Sorted.
Context {A K : Type} (key : A -> K) (ltb : K -> K -> bool).

Fixpoint insert_by (x : A) (l : list A) : list A :=
  match l with
  | [] => [x]
  | y :: l' => if ltb (key y) (key x) then y :: insert_by x l' else x :: l
  end.

Definition sorted (l : list A) : list A := fold_right insert_by [] l.
End Sorted.

Record DaySchedule : Type :=
  mkDaySchedule {
    on_date : date;
    intervals : list TimeInterval;
    target_seconds : Z
  }.

Module Schedule.

(** [DaySchedule(on_date)], with the default target of 08:30:00 *)
Definition new (on_date : date) : DaySchedule :=
  mkDaySchedule on_date [] (8 * 3600 + 30 * 60).

Definition set_intervals (self : DaySchedule) (l : list TimeInterval)
  : DaySchedule :=
  mkDaySchedule (on_date self) l (target_seconds self).

Definition set_target_seconds (self : DaySchedule) (t : Z) : DaySchedule :=
  mkDaySchedule (on_date self) (intervals self) t.

Definition sorted_intervals (self : DaySchedule) : list TimeInterval :=
  sorted start Datetime.time_ltb (intervals self).

Definition msg_one_open : string := "Only one open interval is allowed.".
Definition msg_overlap : string := "Intervals overlap after sorting.".

(** [sum(1 for it in self.intervals if it.is_open())] *)
Definition open_count (self : DaySchedule) : nat :=
  List.length (filter is_open (intervals self)).

(** The first loop of [validate], started from the messages collected so
    far and an empty [effective] list. *)
Fixpoint build_effective (on_date : date) (now_dt : datetime)
    (its : list TimeInterval) (msgs : list string)
    (effective : list (datetime * datetime))
  : list string * list (datetime * datetime) :=
  match its with
  | [] => (msgs, effective)
  | it :: its' =>
      let s := start_dt it on_date in
      let e := end_dt it on_date now_dt in
      let msgs := if Datetime.leb e s then (msgs ++ [msg_end_after_start])%list
                  else msgs in
      build_effective on_date now_dt its' msgs (effective ++ [(s, e)])%list
  end.

(** The second loop of [validate], [for i in range(1, len(effective))],
    entered with [prev = effective[i - 1]] and [rest = effective[i:]];
    it stops at the first overlap. *)
Fixpoint overlap_loop (prev : datetime * datetime)
    (rest : list (datetime * datetime)) (msgs : list string) : list string :=
  match rest with
  | [] => msgs
  | this :: rest' =>
      let prev_end := snd prev in
      let this_start := fst this in
      if Datetime.ltb this_start prev_end then (msgs ++ [msg_overlap])%list
      else overlap_loop this rest' msgs
  end.

(** The list [effective] as the overlap check sees it. *)
Definition effective (self : DaySchedule) (now_dt : datetime)
  : list (datetime * datetime) :=
  sorted fst Datetime.ltb
    (snd (build_effective (on_date self) now_dt (sorted_intervals self) [] [])).

Definition validate (self : DaySchedule) (now_dt : datetime) : list string :=
  let msgs := [] in
  let msgs := if (1 <? open_count self)%nat then (msgs ++ [msg_one_open])%list
              else msgs in
  let '(msgs, effective) :=
    build_effective (on_date self) now_dt (sorted_intervals self) msgs [] in
  let effective := sorted fst Datetime.ltb effective in
  match effective with
  | [] => msgs
  | first :: rest => overlap_loop first rest msgs
  end.

Definition total_worked_seconds (self : DaySchedule) (now_dt : datetime)
  : result Z :=
  fold_left
    (fun total it =>
       match total with
       | ValueError m => ValueError m
       | Ok t =>
           match duration_seconds it (on_date self) now_dt with
           | Ok d => Ok (t + d)
           | ValueError m => ValueError m
           end
       end)
    (intervals self) (Ok 0).

Definition remaining_seconds (self : DaySchedule) (now_dt : datetime)
  : result Z :=
  match total_worked_seconds self now_dt with
  | Ok w => Ok (target_seconds self - w)
  | ValueError m => ValueError m
  end.

End Schedule.

(** ** The controller *)

(** The text of one row: the Tk variables [var_start] and [var_end]. *)
Record IntervalRow : Type :=
  mkIntervalRow { var_start : string; var_end : string }.

(** Truth value of an [err] that is [None] or a [str]. *)
Definition truthy (err : option string) : bool :=
  match err with
  | None => false
  | Some e => negb (Str.is_empty e)
  end.

(** [IntervalRow.get_interval_or_error]; [today] is [date.today()]. *)
Definition get_interval_or_error (self : IntervalRow) (today : date)
  : option TimeInterval * option string :=
  let start_txt := Str.strip (var_start self) in
  let end_txt := Str.strip (var_end self) in
  if Str.is_empty start_txt && Str.is_empty end_txt then (None, None)
  else if Str.is_empty start_txt then (None, Some "Start required")
  else
    match TimeParser.parse_time start_txt with
    | ValueError e => (None, Some ("Start invalid: " ++ e))
    | Ok start_t =>
        if Str.is_empty end_txt then (Some (mkTimeInterval start_t None), None)
        else
          match TimeParser.parse_time end_txt with
          | ValueError e => (None, Some ("End invalid: " ++ e))
          | Ok end_t =>
              if Datetime.leb (Datetime.combine today end_t)
                              (Datetime.combine today start_t)
              then (None, Some "End must be after Start (no cross-midnight)")
              else (Some (mkTimeInterval start_t (Some end_t)), None)
          end
    end.

(** What [recalculate] leaves behind: its locals [worked], [target],
    [remaining] and [overtime], and the Tk variables it sets.  The
    progress bar, a floating-point ratio, is not part of the model. *)
Record Recalculated : Type :=
  mkRecalculated {
    worked : Z;
    target : Z;
    remaining : Z;
    overtime : Z;
    var_status : string;
    var_worked : string;
    var_remaining : string;
    var_overtime : string;
    var_milestone_1 : string;
    var_milestone_2 : string
  }.

(** [list(dict.fromkeys(l))]: the first occurrence of each element. *)
Fixpoint fromkeys (l : list string) (seen : list string) : list string :=
  match l with
  | [] => []
  | x :: l' =>
      if existsb (String.eqb x) seen then fromkeys l' seen
      else x :: fromkeys l' (x :: seen)
  end.

Module GuiController.

(** The loop of [_collect_schedule] over [self.rows] (the notes written
    to the rows are widget state and left out). *)
Fixpoint collect_rows (rows : list IntervalRow) (today : date)
    (intervals : list TimeInterval) (any_errors : bool)
  : list TimeInterval * bool :=
  match rows with
  | [] => (intervals, any_errors)
  | row :: rows' =>
      let '(it, err) := get_interval_or_error row today in
      if truthy err then collect_rows rows' today intervals true
      else
        match it with
        | None => collect_rows rows' today intervals any_errors
        | Some it => collect_rows rows' today (intervals ++ [it])%list any_errors
        end
  end.

(** [_collect_schedule]; [now_dt] is its own reading of the clock and
    [today] is [date.today()]. *)
Definition _collect_schedule (rows : list IntervalRow) (now_dt : datetime)
    (today : date) : DaySchedule * list string :=
  let schedule := Schedule.new today in
  let '(intervals, any_errors) := collect_rows rows today [] false in
  let schedule := Schedule.set_intervals schedule intervals in
  let val_msgs := Schedule.validate schedule now_dt in
  let val_msgs :=
    if any_errors && Nat.eqb (List.length val_msgs) 0
    then ["Fix invalid rows."] else val_msgs in
  (schedule, val_msgs).

Definition _ceil_to_next_hour (seconds : Z) : Z :=
  if seconds <=? 0 then 0
  else
    let rem := seconds mod 3600 in
    if rem =? 0 then 0 else 3600 - rem.

Section LocalTime.
(** The UTC offset of the machine's time zone at a POSIX time, which
    [datetime.fromtimestamp] consults. *)
Variable utcoffset : Z -> Z.

Definition _seconds_to_timedelta (seconds : Z) : timedelta :=
  Datetime.sub (Datetime.fromtimestamp utcoffset 0)
               (Datetime.fromtimestamp utcoffset 0)
  + Datetime.sub (Datetime.fromtimestamp utcoffset seconds)
                 (Datetime.fromtimestamp utcoffset 0).

(** [_set_milestone_message]: the values given to [var_milestone_1]
    and [var_milestone_2]. *)
Definition _set_milestone_message (worked target : Z) (now_dt : datetime)
  : string * string :=
  if target <=? 0 then ("Target is 00:00:00 (or invalid).", "")
  else if worked <? target then
    let remaining := target - worked in
    let hit_time :=
      Datetime.add (Datetime.add now_dt (Datetime.sub now_dt now_dt))
                   (Datetime.sub now_dt now_dt) in
    let hit_time := Datetime.add now_dt (_seconds_to_timedelta remaining) in
    (TimeParser.format_hms remaining ++ " left to reach target "
       ++ TimeParser.format_hms target ++ ".",
     "If you keep working, you’ll reach the target at: "
       ++ Datetime.strftime_HMS hit_time)
  else
    let overtime := worked - target in
    let to_next := _ceil_to_next_hour overtime in
    let overtime_hms := TimeParser.format_hms overtime in
    if to_next =? 0 then
      let next_time := Datetime.add now_dt (_seconds_to_timedelta 3600) in
      ("Overtime: " ++ overtime_hms
         ++ ". You are already at a whole extra hour.",
       "Next overtime whole-hour milestone (+01:00:00) at: "
         ++ Datetime.strftime_HMS next_time)
    else
      let next_whole_overtime := overtime + to_next in
      let when := Datetime.add now_dt (_seconds_to_timedelta to_next) in
      ("Overtime: " ++ overtime_hms ++ ". "
         ++ TimeParser.format_hms to_next ++ " more to reach extra "
         ++ TimeParser.format_hms next_whole_overtime ++ ".",
       "If you keep working, you’ll reach that at: "
         ++ Datetime.strftime_HMS when).

(** [recalculate]: [now_dt] is its reading of the clock,
    [now_collect] the later reading made inside [_collect_schedule]. *)
Definition recalculate (rows : list IntervalRow) (var_target : string)
    (now_dt now_collect : datetime) (today : date) : Recalculated :=
  let '(schedule, val_msgs) := _collect_schedule rows now_collect today in
  let schedule :=
    match TimeParser.parse_duration var_target with
    | Ok t => Schedule.set_target_seconds schedule t
    | ValueError e =>
        (* the status "Target invalid: ..." set here is overwritten by
           the next statement *)
        Schedule.set_target_seconds schedule (8 * 3600 + 30 * 60)
    end in
  let var_status :=
    if negb (Nat.eqb (List.length val_msgs) 0)
    then Str.join " ; " (fromkeys val_msgs [])
    else "OK." in
  let '(worked, var_status) :=
    if Nat.eqb (List.length val_msgs) 0 then
      match Schedule.total_worked_seconds schedule now_dt with
      | Ok w => (w, var_status)
      | ValueError e => (0, "Error computing totals: " ++ e)
      end
    else (0, var_status) in
  let target := target_seconds schedule in
  let remaining := Z.max 0 (target - worked) in
  let overtime := Z.max 0 (worked - target) in
  let '(m1, m2) := _set_milestone_message worked target now_dt in
  mkRecalculated worked target remaining overtime var_status
    (TimeParser.format_hms worked) (TimeParser.format_hms remaining)
    (TimeParser.format_hms overtime) m1 m2.

End LocalTime.

(** The offsets of two time zones in 1970: UTC, and US Eastern time,
    which was on daylight time from 1970-04-26 07:00 UTC to
    1970-10-25 06:00 UTC. *)
Definition utc (ts : Z) : Z := 0.

Definition us_eastern_1970 (ts : Z) : Z :=
  if (9961200 <=? ts) && (ts <? 25682400) then -14400 else -18000.

End GuiController.

(** ** The row actions of the controller *)

(** A row with its check box: the Tk variables [var_start], [var_end]
    and [var_select]. *)
Record SelectableRow : Type :=
  mkSelectableRow { row_text : IntervalRow; var_select : bool }.

Module GuiActions.

(** [keyf] of [sort_by_start]: the parsed start, or 23:59:59 for a row
    whose start is blank or does not parse. *)
Definition keyf (r : IntervalRow) : time :=
  let txt := Str.strip (var_start r) in
  if Str.is_empty txt then mkTime 23 59 59
  else
    match TimeParser.parse_time txt with
    | Ok t => t
    | ValueError _ => mkTime 23 59 59
    end.

(** [sort_by_start]: the rows rebuilt from the sorted snapshot (the
    recalculation that follows is [GuiController.recalculate]). *)
Definition sort_by_start (rows : list SelectableRow) : list SelectableRow :=
  sorted (fun r => keyf (row_text r)) Datetime.time_ltb rows.

(** [end_now_for_selected]: [now_dt] is the reading of the clock; a
    selected row with a start and a blank end gets the time of day as
    its end. *)
Definition end_now_for_selected (rows : list SelectableRow)
    (now_dt : datetime) : list SelectableRow :=
  let now_str := Datetime.strftime_HMS now_dt in
  map
    (fun r =>
       if var_select r then
         if negb (Str.is_empty (Str.strip (var_start (row_text r))))
            && Str.is_empty (Str.strip (var_end (row_text r)))
         then mkSelectableRow
                (mkIntervalRow (var_start (row_text r)) now_str)
                (var_select r)
         else r
       else r)
    rows.

End GuiActions.

(** ** The summary for the clipboard *)

Module GuiSummary.

(** The loop of [copy_summary] over the rows: one line for each row with
    a start or an end. *)
Definition interval_lines (rows : list IntervalRow) : list string :=
  flat_map
    (fun row =>
       let s := Str.strip (var_start row) in
       let e := if Str.is_empty (Str.strip (var_end row)) then "(open)"
                else Str.strip (var_end row) in
       if negb (Str.is_empty s)
          || (negb (Str.is_empty e) && negb (String.eqb e "(open)"))
       then ["  - " ++ s ++ " → " ++ e]
       else [])
    rows.

Section Isoformat.
(** [date.isoformat()], which the model of dates as ordinals leaves to
    the calendar. *)
Variable isoformat : date -> string.

(** The lines of [copy_summary]: [var_milestone_1] and [var_milestone_2]
    are the Tk variables left by the last [recalculate], [now_dt] is the
    reading of the clock and [now_collect] the one made inside
    [_collect_schedule]. *)
Definition copy_summary_lines (rows : list IntervalRow) (var_target : string)
    (var_milestone_1 var_milestone_2 : string)
    (now_dt now_collect : datetime) (today : date) : list string :=
  let '(schedule, val_msgs) :=
    GuiController._collect_schedule rows now_collect today in
  let schedule :=
    match TimeParser.parse_duration var_target with
    | Ok t => Schedule.set_target_seconds schedule t
    | ValueError _ => Schedule.set_target_seconds schedule (8 * 3600 + 30 * 60)
    end in
  let worked :=
    if Nat.eqb (List.length val_msgs) 0 then
      match Schedule.total_worked_seconds schedule now_dt with
      | Ok w => w
      | ValueError _ => 0
      end
    else 0 in
  let target := target_seconds schedule in
  let remaining := Z.max 0 (target - worked) in
  let overtime := Z.max 0 (worked - target) in
  let header :=
    ["Date: " ++ isoformat (on_date schedule);
     "Now: " ++ Datetime.strftime_HMS now_dt;
     "Target: " ++ TimeParser.format_hms target;
     "Intervals:"] in
  let validation :=
    if negb (Nat.eqb (List.length val_msgs) 0)
    then ["Validation: " ++ Str.join " ; " (fromkeys val_msgs [])]
    else [] in
  let totals :=
    ["Worked: " ++ TimeParser.format_hms worked;
     "Remaining: " ++ TimeParser.format_hms remaining;
     "Overtime: " ++ TimeParser.format_hms overtime] in
  let second_line :=
    if negb (Str.is_empty var_milestone_2) then ["  " ++ var_milestone_2]
    else [] in
  let milestone :=
    if negb (Str.is_empty var_milestone_1)
    then ("Milestone:" :: ("  " ++ var_milestone_1) :: second_line)
    else [] in
  (header ++ interval_lines rows ++ validation ++ totals ++ milestone)%list.

(** [copy_summary]: the text put on the clipboard. *)
Definition copy_summary (rows : list IntervalRow) (var_target : string)
    (var_milestone_1 var_milestone_2 : string)
    (now_dt now_collect : datetime) (today : date) : string :=
  Str.join (String (ascii_of_nat 10) "")
    (copy_summary_lines rows var_target var_milestone_1 var_milestone_2
       now_dt now_collect today).

End Isoformat.

End GuiSummary.

(** ** Vocabulary of the specification *)

(** [resolve(interval, date, now)]: the effective start and end. *)
Definition resolve (on_date : date) (now_dt : datetime) (it : TimeInterval)
  : datetime * datetime :=
  (Datetime.combine on_date (start it),
   match end_ it with
   | None => now_dt
   | Some e => Datetime.combine on_date e
   end).

(** Some adjacent pair of [eff] has the later start strictly before the
    earlier end. *)
Definition adjacent_overlap (eff : list (datetime * datetime)) : Prop :=
  exists (i : nat) (a b : datetime * datetime),
    nth_error eff i = Some a /\ nth_error eff (S i) = Some b
    /\ Datetime.ltb (fst b) (snd a) = true.

Fixpoint overlapping (eff : list (datetime * datetime)) : bool :=
  match eff with
  | a :: (b :: _) as rest => Datetime.ltb (fst b) (snd a) || overlapping rest
  | _ => false
  end.

(** The list is in the order of the starts. *)
Definition by_start (a b : datetime * datetime) : Prop :=
  Datetime.ltb (fst b) (fst a) = false.

(** The sum over the intervals of [effective_end - effective_start]. *)
Fixpoint sum_of_durations (on_date : date) (now_dt : datetime)
    (its : list TimeInterval) : Z :=
  match its with
  | [] => 0
  | it :: its' =>
      Datetime.sub (snd (resolve on_date now_dt it))
                   (fst (resolve on_date now_dt it))
      + sum_of_durations on_date now_dt its'
  end.

(** The messages of the first loop of [validate] for a list of intervals. *)
Definition end_msgs (on_date : date) (now_dt : datetime)
    (its : list TimeInterval) : list string :=
  flat_map
    (fun it =>
       if Datetime.leb (snd (resolve on_date now_dt it))
                       (fst (resolve on_date now_dt it))
       then [msg_end_after_start] else [])
    its.

(** A character that [int] reads as a digit. *)
Definition is_digit (c : ascii) : bool :=
  match Str.digit_of c with Some _ => true | None => false end.

Definition not_colon (c : ascii) : bool := negb (Ascii.eqb c ":").

(** A component of a time text: a string without [':']. *)
Definition no_colon (s : string) : Prop := Str.all_chars not_colon s = true.

(** A number below 100 on two digits, a larger one on all its digits. *)
Definition two_digits (n : Z) : string :=
  if n <? 10 then String "0" (Str.decimal n) else Str.decimal n.

(** The canonical zero-padded [HH:MM:SS] text of a duration. *)
Definition canonical_hms (h m s : Z) : string :=
  two_digits h ++ ":" ++ two_digits m ++ ":" ++ two_digits s.

(** The spellings of a trailing marker. *)
Definition marker_text (mk : string) : option TimeParser.ampm :=
  if existsb (String.eqb mk) ["am"; "aM"; "Am"; "AM"] then Some TimeParser.AM
  else if existsb (String.eqb mk) ["pm"; "pM"; "Pm"; "PM"]
       then Some TimeParser.PM
       else None.

(** The hour of a 12-hour time on the 24-hour clock. *)
Definition hour_of_12 (g : TimeParser.ampm) (hh : Z) : Z :=
  match g with
  | TimeParser.AM => if hh =? 12 then 0 else hh
  | TimeParser.PM => if hh =? 12 then 12 else hh + 12
  end.

(** The number of occurrences of a character in a text. *)
Fixpoint count_char (c : ascii) (s : string) : nat :=
  match s with
  | EmptyString => O
  | String a s' => (if Ascii.eqb a c then 1 else 0) + count_char c s'
  end.

(** An interval that does not end after its start, at a given moment. *)
Definition not_after_start (on_date : date) (now_dt : datetime)
    (it : TimeInterval) : bool :=
  Datetime.leb (snd (resolve on_date now_dt it))
               (fst (resolve on_date now_dt it)).

(** An interval made of times of day. *)
Definition interval_wf (it : TimeInterval) : Prop :=
  Datetime.time_wf (start it)
  /\ match end_ it with
     | None => True
     | Some e => Datetime.time_wf e
     end.

(** The order of the starts, which [sorted_intervals] establishes. *)
Definition by_start_time (a b : TimeInterval) : Prop :=
  Datetime.time_ltb (start b) (start a) = false.

(** The order of the sort keys, which [sort_by_start] establishes. *)
Definition by_key (a b : SelectableRow) : Prop :=
  Datetime.time_ltb (GuiActions.keyf (row_text b)) (GuiActions.keyf (row_text a))
  = false.

(** The interval that [_collect_schedule] takes from a row, if any. *)
Definition row_interval (today : date) (row : IntervalRow)
  : option TimeInterval :=
  let '(it, err) := get_interval_or_error row today in
  if truthy err then None else it.

Definition collected (today : date) (rows : list IntervalRow)
  : list TimeInterval :=
  flat_map
    (fun row =>
       match row_interval today row with Some it => [it] | None => [] end)
    rows.

(** A minute or second component of a time text: nothing stands for 0,
    anything else is read as a number. *)
Definition component_value (p : string) : option Z :=
  if Str.is_empty p then Some 0 else Str.int p.

(** The time of day that the components of a time text denote: at most
    three components, the hour a number, minute and second below 60; with
    a marker the hour is from 1 to 12 on the 12-hour clock, without one it
    is from 0 to 23.  A component that is missing is [nth]'s default, the
    empty text. *)
Definition denotes (ampm : option TimeParser.ampm) (parts : list string)
    (t : time) : Prop :=
  (List.length parts <= 3)%nat
  /\ exists hh mm ss : Z,
       Str.int (nth 0 parts "") = Some hh
       /\ component_value (nth 1 parts "") = Some mm
       /\ component_value (nth 2 parts "") = Some ss
       /\ 0 <= mm < 60 /\ 0 <= ss < 60
       /\ match ampm with
          | Some g => 1 <= hh <= 12 /\ t = mkTime (hour_of_12 g hh) mm ss
          | None => 0 <= hh < 24 /\ t = mkTime hh mm ss
          end.

(** The last two characters of a text, with the text before them. *)
Fixpoint last_two (s : string) : option (string * string) :=
  match s with
  | EmptyString => None
  | String c s' =>
      match last_two s' with
      | Some (pre, mk) => Some (String c pre, mk)
      | None =>
          match s' with
          | String _ EmptyString => Some (EmptyString, s)
          | _ => None
          end
      end
  end.

(** A time text taken apart: the marker that ends it, if its last two
    characters other than white space are one, and the text of the
    components, without the marker and the white space around. *)
Definition marker_split (text : string) : option TimeParser.ampm * string :=
  let s := Str.strip text in
  match last_two s with
  | Some (pre, mk) =>
      match marker_text mk with
      | Some g => (Some g, Str.strip pre)
      | None => (None, s)
      end
  | None => (None, s)
  end.

(** The components of a time text, as [marker_split] delimits them. *)
Definition time_text_parts (text : string) : list string :=
  Str.split ":" (snd (marker_split text)).

(** Components of which the minute or the second is there and empty. *)
Definition empty_component (parts : list string) : Prop :=
  (2 <= List.length parts)%nat /\ nth 1 parts "" = ""
  \/ (3 <= List.length parts)%nat /\ nth 2 parts "" = "".

(** * Properties *)

(** ** The milestone projector *)

Section Milestone.
Variable utcoffset : Z -> Z.

Lemma ceil_to_next_hour_eq (seconds : Z) :
  0 <= seconds ->
  GuiController._ceil_to_next_hour seconds
  = if seconds mod 3600 =? 0 then 0 else 3600 - seconds mod 3600.
Proof.
  intros Hs. unfold GuiController._ceil_to_next_hour.
  destruct (seconds <=? 0) eqn:E; [|reflexivity].
  apply Z.leb_le in E. replace seconds with 0 by lia. reflexivity.
Qed.

Lemma ceil_to_next_hour_range (seconds : Z) :
  0 <= GuiController._ceil_to_next_hour seconds < 3600.
Proof.
  unfold GuiController._ceil_to_next_hour.
  destruct (seconds <=? 0); [lia|].
  pose proof (Z.mod_pos_bound seconds 3600 ltac:(lia)).
  destruct (seconds mod 3600 =? 0) eqn:E; [lia|].
  apply Z.eqb_neq in E. lia.
Qed.

(** C1.  At or above a positive target the projector works with
    [overtime = worked - target] and
    [to_next = 0 if overtime mod 3600 == 0 else 3600 - overtime mod 3600],
    and its two lines are built from exactly these values; overtime 0
    and 3600 give 0, 3599 gives 1 and 3601 gives 3599. *)
Theorem milestone_overtime_to_next_whole_hour
    (worked target : Z) (now_dt : datetime) :
  0 < target -> target <= worked ->
  let overtime := worked - target in
  let to_next :=
    if overtime mod 3600 =? 0 then 0 else 3600 - overtime mod 3600 in
  GuiController._ceil_to_next_hour overtime = to_next
  /\ GuiController._set_milestone_message utcoffset worked target now_dt
     = (if to_next =? 0 then
          ("Overtime: " ++ TimeParser.format_hms overtime
             ++ ". You are already at a whole extra hour.",
           "Next overtime whole-hour milestone (+01:00:00) at: "
             ++ Datetime.strftime_HMS
                  (Datetime.add now_dt
                     (GuiController._seconds_to_timedelta utcoffset 3600)))
        else
          ("Overtime: " ++ TimeParser.format_hms overtime ++ ". "
             ++ TimeParser.format_hms to_next ++ " more to reach extra "
             ++ TimeParser.format_hms (overtime + to_next) ++ ".",
           "If you keep working, you’ll reach that at: "
             ++ Datetime.strftime_HMS
                  (Datetime.add now_dt
                     (GuiController._seconds_to_timedelta utcoffset to_next))))
  /\ GuiController._ceil_to_next_hour 0 = 0
  /\ GuiController._ceil_to_next_hour 3600 = 0
  /\ GuiController._ceil_to_next_hour 3599 = 1
  /\ GuiController._ceil_to_next_hour 3601 = 3599.
Proof.
  intros Ht Hw overtime to_next.
  assert (Hc : GuiController._ceil_to_next_hour overtime = to_next)
    by (apply ceil_to_next_hour_eq; subst overtime; lia).
  split; [exact Hc|]. split; [|repeat split; reflexivity].
  unfold GuiController._set_milestone_message.
  replace (target <=? 0) with false by (symmetry; apply Z.leb_gt; lia).
  replace (worked <? target) with false by (symmetry; apply Z.ltb_ge; lia).
  fold overtime. rewrite Hc. reflexivity.
Qed.

End Milestone.

Lemma milestone_overtime_to_next_whole_hour_witness :
  GuiController._ceil_to_next_hour (34201 - 30600) = 3599.
Proof.
  exact (proj1 (milestone_overtime_to_next_whole_hour GuiController.utc
                  34201 30600 (mkDatetime 739621 (mkTime 18 0 1))
                  ltac:(lia) ltac:(lia))).
Defined.

(** ** Moments and differences *)

Lemma seconds_of_day_of_seconds (s : Z) :
  Datetime.seconds_of_day (Datetime.time_of_seconds s) = s.
Proof.
  unfold Datetime.seconds_of_day, Datetime.time_of_seconds; simpl.
  pose proof (Z.div_mod s 3600 ltac:(lia)) as H1.
  pose proof (Z.div_mod (s mod 3600) 60 ltac:(lia)) as H2.
  assert (H3 : (s mod 3600) mod 60 = s mod 60).
  { apply Z.mod_mod_divide. exists 60. reflexivity. }
  lia.
Qed.

Lemma sub_add_add (base : datetime) (x y : Z) :
  Datetime.sub (Datetime.add base x) (Datetime.add base y) = x - y.
Proof.
  unfold Datetime.sub, Datetime.add; simpl.
  rewrite !seconds_of_day_of_seconds.
  set (b := Datetime.seconds_of_day (dt_time base)).
  pose proof (Z.div_mod (b + x) 86400 ltac:(lia)).
  pose proof (Z.div_mod (b + y) 86400 ltac:(lia)).
  lia.
Qed.

(** What the helper returns: [seconds], shifted by the change of the
    local UTC offset between POSIX time 0 and POSIX time [seconds]. *)
Lemma seconds_to_timedelta_eq (utcoffset : Z -> Z) (seconds : Z) :
  GuiController._seconds_to_timedelta utcoffset seconds
  = seconds + (utcoffset seconds - utcoffset 0).
Proof.
  unfold GuiController._seconds_to_timedelta, Datetime.fromtimestamp.
  rewrite !sub_add_add. lia.
Qed.

(** Below the target, in a time zone whose offset at POSIX time
    [remaining] is the one it had at POSIX time 0, the projector reports
    [remaining = target - worked] and the clock time [now + remaining]. *)
Lemma milestone_below_target_same_offset
    (utcoffset : Z -> Z) (worked target : Z) (now_dt : datetime) :
  worked < target -> 0 < target ->
  utcoffset (target - worked) = utcoffset 0 ->
  GuiController._set_milestone_message utcoffset worked target now_dt
  = (TimeParser.format_hms (target - worked) ++ " left to reach target "
       ++ TimeParser.format_hms target ++ ".",
     "If you keep working, you’ll reach the target at: "
       ++ Datetime.strftime_HMS (Datetime.add now_dt (target - worked))).
Proof.
  intros Hw Ht Hoff. unfold GuiController._set_milestone_message.
  replace (target <=? 0) with false by (symmetry; apply Z.leb_gt; lia).
  replace (worked <? target) with true by (symmetry; apply Z.ltb_lt; lia).
  rewrite seconds_to_timedelta_eq, Hoff.
  replace (target - worked + (utcoffset 0 - utcoffset 0))
    with (target - worked) by lia.
  reflexivity.
Qed.

(** The scenario of the specification: at 14:00:00 with 04:00:00 worked
    of 08:30:00, the remaining time is 04:30:00 and the target is reached
    at 18:30:00. *)
Lemma milestone_scenario_utc :
  GuiController._set_milestone_message GuiController.utc 14400 30600
    (mkDatetime 739621 (mkTime 14 0 0))
  = ("04:30:00 left to reach target 08:30:00.",
     "If you keep working, you’ll reach the target at: 18:30:00").
Proof. vm_compute. reflexivity. Qed.

(** C2, at the input where the code departs from it.  On US Eastern time,
    with the row 09:00-10:00 and a target of 2801:00:00 at 14:00:00, one
    hour is worked and 2800:00:00 remain, so that [now + remaining] falls
    on 06:00:00; the helper turns the remaining seconds into a difference
    one hour longer, and the projector announces 07:00:00. *)
Theorem milestone_eta_us_eastern :
  let now_dt := mkDatetime 739621 (mkTime 14 0 0) in
  let r := GuiController.recalculate GuiController.us_eastern_1970
             [mkIntervalRow "09:00" "10:00"] "2801:00:00"
             now_dt now_dt 739621 in
  worked r = 3600 /\ target r = 10083600 /\ remaining r = 10080000
  /\ var_milestone_1 r = "2800:00:00 left to reach target 2801:00:00."
  /\ var_milestone_2 r
     = "If you keep working, you’ll reach the target at: 07:00:00"
  /\ GuiController._seconds_to_timedelta GuiController.us_eastern_1970
       (remaining r)
     = remaining r + 3600
  /\ Datetime.strftime_HMS (Datetime.add now_dt (remaining r)) = "06:00:00".
Proof. vm_compute. repeat split; reflexivity. Qed.

(** ** Interval resolution *)

Lemma time_compare_refl (t : time) : Datetime.time_compare t t = Eq.
Proof.
  unfold Datetime.time_compare. now rewrite !Z.compare_refl.
Qed.

Lemma compare_refl (d : datetime) : Datetime.compare d d = Eq.
Proof.
  unfold Datetime.compare. now rewrite Z.compare_refl, time_compare_refl.
Qed.

(** On well-formed times the field-wise order is the order of the
    seconds since midnight. *)
Lemma time_compare_seconds (a b : time) :
  Datetime.time_wf a -> Datetime.time_wf b ->
  Datetime.time_compare a b
  = (Datetime.seconds_of_day a ?= Datetime.seconds_of_day b).
Proof.
  unfold Datetime.time_wf, Datetime.time_compare, Datetime.seconds_of_day.
  intros (Ha1 & Ha2 & Ha3) (Hb1 & Hb2 & Hb3). symmetry.
  destruct (hour a ?= hour b) eqn:Eh;
    [apply Z.compare_eq in Eh | rewrite Z.compare_lt_iff in Eh
     | rewrite Z.compare_gt_iff in Eh].
  - destruct (minute a ?= minute b) eqn:Em;
      [apply Z.compare_eq in Em | rewrite Z.compare_lt_iff in Em
       | rewrite Z.compare_gt_iff in Em].
    + destruct (second a ?= second b) eqn:Es;
        [apply Z.compare_eq in Es; apply Z.compare_eq_iff
        | rewrite Z.compare_lt_iff in Es; apply Z.compare_lt_iff
        | rewrite Z.compare_gt_iff in Es; apply Z.compare_gt_iff]; lia.
    + apply Z.compare_lt_iff; lia.
    + apply Z.compare_gt_iff; lia.
  - apply Z.compare_lt_iff; lia.
  - apply Z.compare_gt_iff; lia.
Qed.

(** For two moments of well-formed times, [a <= b] is [a - b <= 0]. *)
Lemma leb_sub (a b : datetime) :
  Datetime.wf a -> Datetime.wf b ->
  Datetime.leb a b = (Datetime.sub a b <=? 0).
Proof.
  intros Ha Hb. unfold Datetime.leb, Datetime.compare, Datetime.sub.
  rewrite (time_compare_seconds _ _ Ha Hb).
  destruct Ha as (Ha1 & Ha2 & Ha3), Hb as (Hb1 & Hb2 & Hb3).
  unfold Datetime.seconds_of_day.
  symmetry.
  destruct (dt_date a ?= dt_date b) eqn:Ed;
    [apply Z.compare_eq in Ed | rewrite Z.compare_lt_iff in Ed
     | rewrite Z.compare_gt_iff in Ed].
  - rewrite Ed.
    destruct (_ ?= _) eqn:Es;
      [apply Z.compare_eq in Es | rewrite Z.compare_lt_iff in Es
       | rewrite Z.compare_gt_iff in Es];
      [apply Z.leb_le | apply Z.leb_le | apply Z.leb_gt]; lia.
  - apply Z.leb_le; lia.
  - apply Z.leb_gt; lia.
Qed.

(** C3.  [duration_seconds] raises exactly when the effective end is at
    or before the effective start, an open interval ending at [now_dt];
    an interval with [start == end] raises; otherwise the result is the
    difference of the two moments in seconds.  Between moments of
    well-formed times, "at or before" is a difference of at most 0. *)
Theorem duration_seconds_fails_iff_end_le_start
    (it : TimeInterval) (on_date : date) (now_dt : datetime) :
  let effective_start := Datetime.combine on_date (start it) in
  let effective_end :=
    match end_ it with
    | None => now_dt
    | Some e => Datetime.combine on_date e
    end in
  (is_ok (duration_seconds it on_date now_dt) = false
   <-> Datetime.leb effective_end effective_start = true)
  /\ (Datetime.leb effective_end effective_start = true ->
      duration_seconds it on_date now_dt = ValueError msg_end_after_start)
  /\ (Datetime.leb effective_end effective_start = false ->
      duration_seconds it on_date now_dt
      = Ok (Datetime.sub effective_end effective_start))
  /\ (forall t : time,
        duration_seconds (mkTimeInterval t (Some t)) on_date now_dt
        = ValueError msg_end_after_start)
  /\ (Datetime.wf effective_start -> Datetime.wf effective_end ->
      (Datetime.leb effective_end effective_start = true
       <-> Datetime.sub effective_end effective_start <= 0)).
Proof.
  intros effective_start effective_end.
  assert (Hd : duration_seconds it on_date now_dt
               = if Datetime.leb effective_end effective_start
                 then ValueError msg_end_after_start
                 else Ok (Datetime.sub effective_end effective_start))
    by reflexivity.
  split; [split|split; [|split; [|split; [|intros Hstart Hend; split]]]].
  - rewrite Hd. destruct (Datetime.leb _ _); [reflexivity | discriminate].
  - rewrite Hd. intros ->. reflexivity.
  - intros H. rewrite Hd, H. reflexivity.
  - intros H. rewrite Hd, H. reflexivity.
  - intros t. unfold duration_seconds, start_dt, end_dt, Datetime.leb; simpl.
    rewrite compare_refl. reflexivity.
  - intros Hle. rewrite (leb_sub _ _ Hend Hstart) in Hle.
    now apply Z.leb_le.
  - intros Hle. rewrite (leb_sub _ _ Hend Hstart). now apply Z.leb_le.
Qed.

Lemma duration_seconds_fails_iff_end_le_start_witness :
  duration_seconds (mkTimeInterval (mkTime 9 0 0) (Some (mkTime 12 0 0)))
    739621 (mkDatetime 739621 (mkTime 14 0 0))
  = Ok 10800.
Proof.
  exact (proj1 (proj2 (proj2 (duration_seconds_fails_iff_end_le_start
           (mkTimeInterval (mkTime 9 0 0) (Some (mkTime 12 0 0)))
           739621 (mkDatetime 739621 (mkTime 14 0 0))))) eq_refl).
Defined.

(** ** Sorting *)

Section SortedFacts.
Context {A K : Type} (key : A -> K) (ltb : K -> K -> bool).
Hypothesis ltb_asym : forall x y, ltb x y = true -> ltb y x = false.

Let R (a b : A) : Prop := ltb (key b) (key a) = false.

Lemma insert_by_perm (x : A) (l : list A) :
  Permutation (insert_by key ltb x l) (x :: l).
Proof.
  induction l as [|y l IH]; simpl; [reflexivity|].
  destruct (ltb (key y) (key x)); [|reflexivity].
  rewrite IH. apply perm_swap.
Qed.

Lemma sorted_perm (l : list A) : Permutation (sorted key ltb l) l.
Proof.
  induction l as [|x l IH]; simpl; [reflexivity|].
  rewrite insert_by_perm. now constructor.
Qed.

Lemma insert_by_HdRel (a x : A) (l : list A) :
  R a x -> HdRel R a l -> HdRel R a (insert_by key ltb x l).
Proof.
  intros Hax Hal. destruct l as [|y l]; simpl; [now constructor|].
  destruct (ltb (key y) (key x)); constructor; trivial.
  now inversion Hal.
Qed.

Lemma insert_by_Sorted (x : A) (l : list A) :
  Sorted R l -> Sorted R (insert_by key ltb x l).
Proof.
  induction 1 as [|y l Hs IH Hhd]; simpl.
  - repeat constructor.
  - destruct (ltb (key y) (key x)) eqn:E.
    + constructor; [exact IH|].
      apply insert_by_HdRel; [|exact Hhd].
      unfold R. now apply ltb_asym.
    + constructor; [now constructor|]. constructor. exact E.
Qed.

Lemma sorted_Sorted (l : list A) : Sorted R (sorted key ltb l).
Proof.
  induction l as [|x l IH]; simpl; [constructor|].
  now apply insert_by_Sorted.
Qed.
End SortedFacts.

Lemma time_compare_antisym (a b : time) :
  Datetime.time_compare b a = CompOpp (Datetime.time_compare a b).
Proof.
  unfold Datetime.time_compare.
  rewrite (Z.compare_antisym (hour a) (hour b)).
  rewrite (Z.compare_antisym (minute a) (minute b)).
  rewrite (Z.compare_antisym (second a) (second b)).
  destruct (hour a ?= hour b), (minute a ?= minute b); reflexivity.
Qed.

Lemma compare_antisym (a b : datetime) :
  Datetime.compare b a = CompOpp (Datetime.compare a b).
Proof.
  unfold Datetime.compare.
  rewrite (Z.compare_antisym (dt_date a) (dt_date b)).
  rewrite (time_compare_antisym (dt_time a) (dt_time b)).
  destruct (dt_date a ?= dt_date b); reflexivity.
Qed.

Lemma time_ltb_asym (a b : time) :
  Datetime.time_ltb a b = true -> Datetime.time_ltb b a = false.
Proof.
  unfold Datetime.time_ltb. rewrite (time_compare_antisym a b).
  destruct (Datetime.time_compare a b); simpl; congruence.
Qed.

Lemma ltb_asym (a b : datetime) :
  Datetime.ltb a b = true -> Datetime.ltb b a = false.
Proof.
  unfold Datetime.ltb. rewrite (compare_antisym a b).
  destruct (Datetime.compare a b); simpl; congruence.
Qed.

(** ** The validator *)

Lemma build_effective_eq (d : date) (now_dt : datetime)
    (its : list TimeInterval) :
  forall msgs eff,
    Schedule.build_effective d now_dt its msgs eff
    = ((msgs ++ end_msgs d now_dt its)%list,
       (eff ++ map (resolve d now_dt) its)%list).
Proof.
  induction its as [|it its IH]; intros msgs eff; simpl.
  - now rewrite !app_nil_r.
  - rewrite IH. unfold resolve at 1 2, start_dt, end_dt; simpl.
    destruct (Datetime.leb _ _); rewrite <- !app_assoc; reflexivity.
Qed.

Lemma overlap_loop_eq (rest : list (datetime * datetime)) :
  forall prev msgs,
    Schedule.overlap_loop prev rest msgs
    = (msgs ++ if overlapping (prev :: rest)
               then [Schedule.msg_overlap] else [])%list.
Proof.
  induction rest as [|this rest IH]; intros prev msgs.
  - simpl. now rewrite app_nil_r.
  - cbn [Schedule.overlap_loop overlapping].
    destruct (Datetime.ltb (fst this) (snd prev)); simpl; [reflexivity|].
    apply IH.
Qed.

Lemma effective_eq (self : DaySchedule) (now_dt : datetime) :
  Schedule.effective self now_dt
  = sorted fst Datetime.ltb
      (map (resolve (on_date self) now_dt) (Schedule.sorted_intervals self)).
Proof.
  unfold Schedule.effective. now rewrite build_effective_eq.
Qed.

(** The messages of [validate], in order: the open-interval rule, one
    message per interval that does not end after its start, the overlap. *)
Lemma validate_eq (self : DaySchedule) (now_dt : datetime) :
  Schedule.validate self now_dt
  = ((if (1 <? Schedule.open_count self)%nat
      then [Schedule.msg_one_open] else [])
     ++ end_msgs (on_date self) now_dt (Schedule.sorted_intervals self)
     ++ (if overlapping (Schedule.effective self now_dt)
         then [Schedule.msg_overlap] else []))%list.
Proof.
  rewrite effective_eq. unfold Schedule.validate.
  rewrite build_effective_eq. simpl app at 2.
  destruct (sorted fst Datetime.ltb _) as [|first rest] eqn:E.
  - simpl. now rewrite app_nil_r.
  - rewrite overlap_loop_eq. now rewrite <- app_assoc.
Qed.

Lemma overlapping_iff (eff : list (datetime * datetime)) :
  overlapping eff = true <-> adjacent_overlap eff.
Proof.
  unfold adjacent_overlap. induction eff as [|a eff IH]; simpl.
  - split; [discriminate|]. intros (i & x & y & H & _). now destruct i.
  - destruct eff as [|b eff].
    + split; [discriminate|]. intros (i & x & y & _ & H & _).
      destruct i as [|[|i]]; discriminate.
    + rewrite orb_true_iff, IH. split.
      * intros [H|(i & x & y & H1 & H2 & H3)].
        -- exists 0%nat, a, b. auto.
        -- exists (S i), x, y. auto.
      * intros ([|i] & x & y & H1 & H2 & H3).
        -- left. simpl in H1, H2. congruence.
        -- right. exists i, x, y. auto.
Qed.

Lemma in_end_msgs (d : date) (now_dt : datetime) (its : list TimeInterval)
    (m : string) :
  In m (end_msgs d now_dt its) -> m = msg_end_after_start.
Proof.
  unfold end_msgs. rewrite in_flat_map. intros (it & _ & H).
  destruct (Datetime.leb _ _); simpl in H; intuition.
Qed.

Lemma msg_one_open_not_in_rest (self : DaySchedule) (now_dt : datetime) :
  ~ In Schedule.msg_one_open
      (end_msgs (on_date self) now_dt (Schedule.sorted_intervals self)
       ++ (if overlapping (Schedule.effective self now_dt)
           then [Schedule.msg_overlap] else []))%list.
Proof.
  rewrite in_app_iff. intros [H|H].
  - apply in_end_msgs in H. discriminate H.
  - destruct (overlapping _); simpl in H; [|contradiction].
    destruct H as [H|[]]. discriminate H.
Qed.

(** C7.  [validate] reports "Only one open interval is allowed." exactly
    for the schedules that hold two or more open intervals, whatever
    their start times and whatever the moment of evaluation. *)
Theorem validate_multiple_open_iff (self : DaySchedule) (now_dt : datetime) :
  ((2 <= List.length (filter is_open (intervals self)))%nat
   <-> In Schedule.msg_one_open (Schedule.validate self now_dt))
  /\ (forall (d : date) (t : Z) (s1 s2 : time),
        In Schedule.msg_one_open
          (Schedule.validate
             (mkDaySchedule d [mkTimeInterval s1 None; mkTimeInterval s2 None] t)
             now_dt)).
Proof.
  assert (Hiff : forall sch,
             (2 <= Schedule.open_count sch)%nat
             <-> In Schedule.msg_one_open (Schedule.validate sch now_dt)).
  { intros sch. rewrite validate_eq, in_app_iff.
    destruct (1 <? Schedule.open_count sch)%nat eqn:E.
    - apply Nat.ltb_lt in E. split; [intros _; left; now left | lia].
    - apply Nat.ltb_ge in E. split; [lia|]. intros [[]|H].
      now apply msg_one_open_not_in_rest in H. }
  split.
  - apply Hiff.
  - intros d t s1 s2. apply Hiff. unfold Schedule.open_count; simpl. lia.
Qed.

Lemma leb_same_date (d : date) (a b : time) :
  Datetime.leb (mkDatetime d a) (mkDatetime d b)
  = match Datetime.time_compare a b with Gt => false | _ => true end.
Proof.
  unfold Datetime.leb, Datetime.compare; simpl. now rewrite Z.compare_refl.
Qed.

Lemma ltb_same_date (d : date) (a b : time) :
  Datetime.ltb (mkDatetime d a) (mkDatetime d b) = Datetime.time_ltb a b.
Proof.
  unfold Datetime.ltb, Datetime.compare; simpl. now rewrite Z.compare_refl.
Qed.

Lemma msg_overlap_not_in_front (self : DaySchedule) (now_dt : datetime) :
  ~ In Schedule.msg_overlap
      ((if (1 <? Schedule.open_count self)%nat
        then [Schedule.msg_one_open] else [])
       ++ end_msgs (on_date self) now_dt (Schedule.sorted_intervals self))%list.
Proof.
  rewrite in_app_iff. intros [H|H].
  - destruct (1 <? _)%nat; simpl in H; [|contradiction].
    destruct H as [H|[]]. discriminate H.
  - apply in_end_msgs in H. discriminate H.
Qed.

Lemma effective_perm (self : DaySchedule) (now_dt : datetime) :
  Permutation (Schedule.effective self now_dt)
              (map (resolve (on_date self) now_dt) (intervals self)).
Proof.
  rewrite effective_eq, sorted_perm. apply Permutation_map.
  apply sorted_perm.
Qed.

(** C4.  The list the overlap check walks is the resolved intervals in
    the order of their starts; [validate] reports "Intervals overlap
    after sorting." exactly when an adjacent pair of it has the later
    start strictly before the earlier end, and never more than once;
    09:00-12:00 with 12:00-13:00 passes, 09:00-12:30 with 12:00-13:00
    does not. *)
Theorem validate_overlap_iff_adjacent (self : DaySchedule) (now_dt : datetime) :
  let eff := Schedule.effective self now_dt in
  Permutation eff (map (resolve (on_date self) now_dt) (intervals self))
  /\ Sorted by_start eff
  /\ (In Schedule.msg_overlap (Schedule.validate self now_dt)
      <-> adjacent_overlap eff)
  /\ (count_occ string_dec (Schedule.validate self now_dt) Schedule.msg_overlap
      <= 1)%nat
  /\ (forall (d : date) (t : Z),
        Schedule.validate
          (mkDaySchedule d
             [mkTimeInterval (mkTime 9 0 0) (Some (mkTime 12 0 0));
              mkTimeInterval (mkTime 12 0 0) (Some (mkTime 13 0 0))] t)
          now_dt = []
        /\ Schedule.validate
             (mkDaySchedule d
                [mkTimeInterval (mkTime 9 0 0) (Some (mkTime 12 30 0));
                 mkTimeInterval (mkTime 12 0 0) (Some (mkTime 13 0 0))] t)
             now_dt = [Schedule.msg_overlap]).
Proof.
  intros eff. split; [apply effective_perm|].
  split; [apply (sorted_Sorted fst Datetime.ltb ltb_asym)|].
  pose proof (msg_overlap_not_in_front self now_dt) as Hfront.
  split; [|split].
  - rewrite validate_eq, app_assoc, in_app_iff, <- overlapping_iff.
    fold eff. destruct (overlapping eff); simpl.
    + split; auto.
    + split; [intros [H|[]]; contradiction | discriminate].
  - rewrite validate_eq, app_assoc, count_occ_app.
    rewrite (proj1 (count_occ_not_In string_dec _ _) Hfront).
    destruct (overlapping _); simpl; auto.
  - intros d t. unfold Schedule.validate, Schedule.open_count; simpl.
    unfold start_dt, end_dt, Datetime.combine; simpl.
    rewrite ?leb_same_date, ?ltb_same_date; simpl.
    rewrite ?leb_same_date, ?ltb_same_date; simpl.
    split; reflexivity.
Qed.

(** ** The aggregator *)

Lemma duration_seconds_resolve (it : TimeInterval) (d : date)
    (now_dt : datetime) :
  duration_seconds it d now_dt
  = if Datetime.leb (snd (resolve d now_dt it)) (fst (resolve d now_dt it))
    then ValueError msg_end_after_start
    else Ok (Datetime.sub (snd (resolve d now_dt it))
                          (fst (resolve d now_dt it))).
Proof. reflexivity. Qed.

Lemma fold_durations_ok (d : date) (now_dt : datetime)
    (its : list TimeInterval) :
  (forall it, In it its ->
     Datetime.leb (snd (resolve d now_dt it)) (fst (resolve d now_dt it))
     = false) ->
  forall acc,
    fold_left
      (fun total it =>
         match total with
         | ValueError m => ValueError m
         | Ok t =>
             match duration_seconds it d now_dt with
             | Ok x => Ok (t + x)
             | ValueError m => ValueError m
             end
         end) its (Ok acc)
    = Ok (acc + sum_of_durations d now_dt its).
Proof.
  induction its as [|it its IH]; intros Hall acc;
    cbn [sum_of_durations fold_left].
  - f_equal. lia.
  - rewrite duration_seconds_resolve, (Hall it (or_introl eq_refl)).
    rewrite IH by (intros; apply Hall; now right).
    f_equal. lia.
Qed.

Lemma end_msgs_nil (d : date) (now_dt : datetime) (its : list TimeInterval) :
  end_msgs d now_dt its = [] ->
  forall it, In it its ->
    Datetime.leb (snd (resolve d now_dt it)) (fst (resolve d now_dt it))
    = false.
Proof.
  induction its as [|x its IH]; simpl; [contradiction|].
  intros H it [<-|Hin].
  - destruct (Datetime.leb _ _); [discriminate H | reflexivity].
  - apply IH; [|exact Hin]. now apply app_eq_nil in H.
Qed.

(** A schedule that [validate] accepts has only intervals that end after
    their start, and its total is the sum of their durations. *)
Lemma total_worked_seconds_valid (self : DaySchedule) (now_dt : datetime) :
  Schedule.validate self now_dt = [] ->
  Schedule.total_worked_seconds self now_dt
  = Ok (sum_of_durations (on_date self) now_dt (intervals self)).
Proof.
  rewrite validate_eq. intros H.
  apply app_eq_nil in H as [_ H]. apply app_eq_nil in H as [H _].
  unfold Schedule.total_worked_seconds.
  rewrite fold_durations_ok; [f_equal; lia|].
  intros it Hin. apply (end_msgs_nil _ _ _ H).
  apply (Permutation_in it
           (Permutation_sym (sorted_perm start Datetime.time_ltb _))).
  exact Hin.
Qed.

Lemma total_worked_seconds_set_target (self : DaySchedule) (t : Z)
    (now_dt : datetime) :
  Schedule.total_worked_seconds (Schedule.set_target_seconds self t) now_dt
  = Schedule.total_worked_seconds self now_dt.
Proof. reflexivity. Qed.

Lemma parse_duration_nonneg (text : string) (t : Z) :
  TimeParser.parse_duration text = Ok t -> 0 <= t.
Proof.
  unfold TimeParser.parse_duration.
  destruct (Str.is_empty _); [discriminate|].
  destruct (3 <? _)%nat; [discriminate|].
  destruct (TimeParser.duration_components _) as [[[h m] sec]|];
    [|discriminate].
  destruct ((h <? 0) || _ || _) eqn:E; [discriminate|].
  intros [= <-].
  apply orb_false_iff in E as [E E3]. apply orb_false_iff in E as [E1 E2].
  apply negb_false_iff in E2, E3. unfold in_range in E2, E3.
  apply andb_true_iff in E2 as [E2 _], E3 as [E3 _].
  apply Z.ltb_ge in E1. apply Z.leb_le in E2, E3. lia.
Qed.

(** The target [recalculate] works with: the parsed text, or 08:30:00. *)
Lemma recalculate_target_nonneg (text : string) :
  0 <= match TimeParser.parse_duration text with
       | Ok t => t
       | ValueError _ => 8 * 3600 + 30 * 60
       end.
Proof.
  destruct (TimeParser.parse_duration text) eqn:E; [|lia].
  now apply parse_duration_nonneg in E.
Qed.

(** [recalculate], field by field. *)
Lemma recalculate_fields (utcoffset : Z -> Z) (rows : list IntervalRow)
    (var_target : string) (now_dt now_collect : datetime) (today : date) :
  let sm := GuiController._collect_schedule rows now_collect today in
  let tgt := match TimeParser.parse_duration var_target with
             | Ok t => t
             | ValueError _ => 8 * 3600 + 30 * 60
             end in
  let w := if Nat.eqb (List.length (snd sm)) 0 then
             match Schedule.total_worked_seconds (fst sm) now_dt with
             | Ok w => w
             | ValueError _ => 0
             end
           else 0 in
  let r := GuiController.recalculate utcoffset rows var_target
             now_dt now_collect today in
  worked r = w /\ target r = tgt
  /\ remaining r = Z.max 0 (target r - worked r)
  /\ overtime r = Z.max 0 (worked r - target r)
  /\ var_worked r = TimeParser.format_hms (worked r)
  /\ var_remaining r = TimeParser.format_hms (remaining r)
  /\ var_overtime r = TimeParser.format_hms (overtime r)
  /\ (var_milestone_1 r, var_milestone_2 r)
     = GuiController._set_milestone_message utcoffset w tgt now_dt.
Proof.
  intros sm tgt w r. subst r. unfold GuiController.recalculate.
  fold sm. destruct sm as [schedule val_msgs] eqn:Esm.
  subst w tgt. cbn [fst snd].
  destruct (TimeParser.parse_duration var_target) as [t|e];
    rewrite total_worked_seconds_set_target;
    destruct (Nat.eqb (List.length val_msgs) 0);
    try destruct (Schedule.total_worked_seconds schedule now_dt);
    cbn [negb target_seconds Schedule.set_target_seconds];
    destruct (GuiController._set_milestone_message _ _ _ _);
    cbn; repeat split; reflexivity.
Qed.

Lemma collect_schedule_eq (rows : list IntervalRow) (now_dt : datetime)
    (today : date) :
  let its := fst (GuiController.collect_rows rows today [] false) in
  let any_errors := snd (GuiController.collect_rows rows today [] false) in
  let sch := mkDaySchedule today its (8 * 3600 + 30 * 60) in
  GuiController._collect_schedule rows now_dt today
  = (sch,
     if any_errors && Nat.eqb (List.length (Schedule.validate sch now_dt)) 0
     then ["Fix invalid rows."] else Schedule.validate sch now_dt).
Proof.
  unfold GuiController._collect_schedule.
  destruct (GuiController.collect_rows rows today [] false); reflexivity.
Qed.

Lemma collect_schedule_no_msgs (rows : list IntervalRow) (now_dt : datetime)
    (today : date) :
  snd (GuiController._collect_schedule rows now_dt today) = [] ->
  Schedule.validate (fst (GuiController._collect_schedule rows now_dt today))
    now_dt = []
  /\ on_date (fst (GuiController._collect_schedule rows now_dt today)) = today.
Proof.
  rewrite collect_schedule_eq. cbn [fst snd on_date].
  destruct (_ && _); [discriminate | auto].
Qed.

Lemma collect_schedule_msgs (rows : list IntervalRow) (now_dt : datetime)
    (today : date) :
  Schedule.validate (fst (GuiController._collect_schedule rows now_dt today))
    now_dt <> [] ->
  snd (GuiController._collect_schedule rows now_dt today) <> [].
Proof.
  rewrite collect_schedule_eq. cbn [fst snd].
  destruct (_ && _); [discriminate | auto].
Qed.

(** C5, with the figures of its example set right.  The total of a
    schedule that [validate] accepts is the sum over its intervals of
    [effective_end - effective_start]; when the rows yield such a
    schedule, [recalculate] (both readings of the clock being the moment
    of evaluation) reports that sum as worked, [max(0, target - worked)]
    as remaining and [max(0, worked - target)] as overtime; 09:00-12:00
    and 13:00-17:30 against 08:30:00 give worked 07:30:00, remaining
    01:00:00 and overtime 00:00:00. *)
Theorem recalculate_totals_of_valid_schedule
    (utcoffset : Z -> Z) (rows : list IntervalRow) (var_target : string)
    (now_dt : datetime) (today : date) :
  let sch := fst (GuiController._collect_schedule rows now_dt today) in
  let r := GuiController.recalculate utcoffset rows var_target
             now_dt now_dt today in
  (forall self : DaySchedule,
      Schedule.validate self now_dt = [] ->
      Schedule.total_worked_seconds self now_dt
      = Ok (sum_of_durations (on_date self) now_dt (intervals self)))
  /\
  (snd (GuiController._collect_schedule rows now_dt today) = [] ->
   Schedule.total_worked_seconds sch now_dt
   = Ok (sum_of_durations today now_dt (intervals sch))
   /\ worked r = sum_of_durations today now_dt (intervals sch)
   /\ remaining r = Z.max 0 (target r - worked r)
   /\ overtime r = Z.max 0 (worked r - target r)
   /\ var_worked r = TimeParser.format_hms (worked r)
   /\ var_remaining r = TimeParser.format_hms (remaining r)
   /\ var_overtime r = TimeParser.format_hms (overtime r))
  /\ (let r' := GuiController.recalculate utcoffset
                  [mkIntervalRow "09:00" "12:00"; mkIntervalRow "13:00" "17:30"]
                  "08:30:00" now_dt now_dt today in
      var_worked r' = "07:30:00" /\ var_remaining r' = "01:00:00"
      /\ var_overtime r' = "00:00:00").
Proof.
  intros sch r. split; [|split].
  - intros self. apply total_worked_seconds_valid.
  - intros Hmsgs.
    destruct (collect_schedule_no_msgs rows now_dt today Hmsgs) as [Hv Hd].
    fold sch in Hv, Hd.
    pose proof (total_worked_seconds_valid sch now_dt Hv) as Ht.
    rewrite Hd in Ht.
    pose proof (recalculate_fields utcoffset rows var_target now_dt now_dt today)
      as (Hw & _ & Hr & Ho & Hvw & Hvr & Hvo & _).
    fold sch r in Hw, Hr, Ho, Hvw, Hvr, Hvo.
    rewrite Hmsgs, Ht in Hw. cbn in Hw.
    repeat split; auto.
  - intros r'.
    pose proof (recalculate_fields utcoffset
                  [mkIntervalRow "09:00" "12:00"; mkIntervalRow "13:00" "17:30"]
                  "08:30:00" now_dt now_dt today)
      as (Hw & Htg & Hr & Ho & Hvw & Hvr & Hvo & _).
    fold r' in Hw, Htg, Hr, Ho, Hvw, Hvr, Hvo.
    assert (Hcol : GuiController._collect_schedule
                     [mkIntervalRow "09:00" "12:00";
                      mkIntervalRow "13:00" "17:30"] now_dt today
                   = (mkDaySchedule today
                        [mkTimeInterval (mkTime 9 0 0) (Some (mkTime 12 0 0));
                         mkTimeInterval (mkTime 13 0 0) (Some (mkTime 17 30 0))]
                        30600, [])).
    { rewrite collect_schedule_eq.
      assert (Hrows : GuiController.collect_rows
                [mkIntervalRow "09:00" "12:00"; mkIntervalRow "13:00" "17:30"]
                today [] false
              = ([mkTimeInterval (mkTime 9 0 0) (Some (mkTime 12 0 0));
                  mkTimeInterval (mkTime 13 0 0) (Some (mkTime 17 30 0))],
                 false)).
      { cbn [GuiController.collect_rows].
        replace (get_interval_or_error (mkIntervalRow "09:00" "12:00") today)
          with (Some (mkTimeInterval (mkTime 9 0 0) (Some (mkTime 12 0 0))),
                @None string).
        2:{ unfold get_interval_or_error.
            replace (TimeParser.parse_time (Str.strip (var_start _)))
              with (Ok (mkTime 9 0 0)) by (vm_compute; reflexivity).
            replace (TimeParser.parse_time (Str.strip (var_end _)))
              with (Ok (mkTime 12 0 0)) by (vm_compute; reflexivity).
            unfold Datetime.combine. rewrite leb_same_date. reflexivity. }
        replace (get_interval_or_error (mkIntervalRow "13:00" "17:30") today)
          with (Some (mkTimeInterval (mkTime 13 0 0) (Some (mkTime 17 30 0))),
                @None string).
        2:{ unfold get_interval_or_error.
            replace (TimeParser.parse_time (Str.strip (var_start _)))
              with (Ok (mkTime 13 0 0)) by (vm_compute; reflexivity).
            replace (TimeParser.parse_time (Str.strip (var_end _)))
              with (Ok (mkTime 17 30 0)) by (vm_compute; reflexivity).
            unfold Datetime.combine. rewrite leb_same_date. reflexivity. }
        reflexivity. }
      rewrite Hrows. cbn [fst snd andb].
      f_equal. unfold Schedule.validate, Schedule.open_count; simpl.
      unfold start_dt, end_dt, Datetime.combine; simpl.
      rewrite ?leb_same_date, ?ltb_same_date; simpl.
      rewrite ?leb_same_date, ?ltb_same_date; simpl.
      reflexivity. }
    rewrite Hcol in Hw. cbn [fst snd List.length Nat.eqb] in Hw.
    assert (Hsum : Schedule.total_worked_seconds
                     (mkDaySchedule today
                        [mkTimeInterval (mkTime 9 0 0) (Some (mkTime 12 0 0));
                         mkTimeInterval (mkTime 13 0 0) (Some (mkTime 17 30 0))]
                        30600) now_dt = Ok 27000).
    { unfold Schedule.total_worked_seconds; simpl.
      unfold duration_seconds, start_dt, end_dt, Datetime.combine; simpl.
      rewrite !leb_same_date; simpl.
      unfold Datetime.sub, Datetime.total_seconds; simpl. f_equal. lia. }
    rewrite Hsum in Hw.
    assert (Htgt : target r' = 30600) by (rewrite Htg; vm_compute; reflexivity).
    rewrite Hw, Htgt in Hr, Ho. rewrite Hw in Hvw.
    rewrite Hr in Hvr. rewrite Ho in Hvo.
    rewrite Hvw, Hvr, Hvo. vm_compute. repeat split; reflexivity.
Qed.

Lemma recalculate_totals_of_valid_schedule_witness :
  worked (GuiController.recalculate GuiController.utc
            [mkIntervalRow "09:00" "12:00"; mkIntervalRow "13:00" ""]
            "08:30:00" (mkDatetime 739621 (mkTime 14 0 0))
            (mkDatetime 739621 (mkTime 14 0 0)) 739621)
  = sum_of_durations 739621 (mkDatetime 739621 (mkTime 14 0 0))
      [mkTimeInterval (mkTime 9 0 0) (Some (mkTime 12 0 0));
       mkTimeInterval (mkTime 13 0 0) None].
Proof.
  exact (proj1 (proj2 (proj1 (proj2 (recalculate_totals_of_valid_schedule
           GuiController.utc
           [mkIntervalRow "09:00" "12:00"; mkIntervalRow "13:00" ""]
           "08:30:00" (mkDatetime 739621 (mkTime 14 0 0)) 739621)) eq_refl))).
Defined.

(** The figures C5 gives for its example are not the ones computed:
    09:00-12:00 and 13:00-17:30 add up to 07:30:00, one hour short of the
    target of 08:30:00. *)
Lemma recalculate_example_not_full_day :
  let r := GuiController.recalculate GuiController.utc
             [mkIntervalRow "09:00" "12:00"; mkIntervalRow "13:00" "17:30"]
             "08:30:00" (mkDatetime 739621 (mkTime 18 0 0))
             (mkDatetime 739621 (mkTime 18 0 0)) 739621 in
  ~ (var_worked r = "08:30:00" /\ var_remaining r = "00:00:00"
     /\ var_overtime r = "00:00:00").
Proof.
  vm_compute. intros [H _]. discriminate H.
Qed.

(** C6.  When [validate] returns an issue for the collected schedule,
    [recalculate] reports a worked total of 0, hence a remaining time of
    [max(0, target)], which is the target, and no overtime. *)
Theorem recalculate_invalid_schedule_zero
    (utcoffset : Z -> Z) (rows : list IntervalRow) (var_target : string)
    (now_dt now_collect : datetime) (today : date) :
  Schedule.validate
    (fst (GuiController._collect_schedule rows now_collect today)) now_collect
  <> [] ->
  let r := GuiController.recalculate utcoffset rows var_target
             now_dt now_collect today in
  worked r = 0
  /\ remaining r = Z.max 0 (target r) /\ remaining r = target r
  /\ overtime r = 0
  /\ var_worked r = "00:00:00"
  /\ var_remaining r = TimeParser.format_hms (target r)
  /\ var_overtime r = "00:00:00".
Proof.
  intros Hv r. apply collect_schedule_msgs in Hv.
  pose proof (recalculate_fields utcoffset rows var_target now_dt now_collect
                today) as (Hw & Htg & Hr & Ho & Hvw & Hvr & Hvo & _).
  fold r in Hw, Htg, Hr, Ho, Hvw, Hvr, Hvo.
  destruct (snd (GuiController._collect_schedule rows now_collect today))
    as [|m msgs] eqn:E; [contradiction|].
  cbn in Hw.
  pose proof (recalculate_target_nonneg var_target) as Hpos.
  rewrite <- Htg in Hpos.
  rewrite Hw in Hr, Ho.
  assert (Hr' : remaining r = target r) by lia.
  assert (Ho' : overtime r = 0) by lia.
  rewrite Hw in Hvw. rewrite Hr' in Hvr. rewrite Ho' in Hvo.
  repeat split; auto; lia.
Qed.

Lemma recalculate_invalid_schedule_zero_witness :
  var_worked
    (GuiController.recalculate GuiController.utc
       [mkIntervalRow "09:00" "12:30"; mkIntervalRow "12:00" "13:00"]
       "08:30:00" (mkDatetime 739621 (mkTime 14 0 0))
       (mkDatetime 739621 (mkTime 14 0 0)) 739621)
  = "00:00:00".
Proof.
  refine (proj1 (proj2 (proj2 (proj2 (proj2
           (recalculate_invalid_schedule_zero GuiController.utc
              [mkIntervalRow "09:00" "12:30"; mkIntervalRow "12:00" "13:00"]
              "08:30:00" (mkDatetime 739621 (mkTime 14 0 0))
              (mkDatetime 739621 (mkTime 14 0 0)) 739621 _)))))).
  vm_compute. discriminate.
Defined.

(** ** Strings *)

Lemma append_nil_r (s : string) : s ++ "" = s.
Proof. induction s as [|c s IH]; simpl; congruence. Qed.

Lemma append_assoc (s t u : string) : (s ++ t) ++ u = s ++ (t ++ u).
Proof. induction s as [|c s IH]; simpl; congruence. Qed.

Lemma all_chars_app (p : ascii -> bool) (s t : string) :
  Str.all_chars p (s ++ t) = Str.all_chars p s && Str.all_chars p t.
Proof.
  induction s as [|c s IH]; simpl; [reflexivity|].
  now rewrite IH, andb_assoc.
Qed.

Lemma all_chars_impl (p q : ascii -> bool) (s : string) :
  (forall c, p c = true -> q c = true) ->
  Str.all_chars p s = true -> Str.all_chars q s = true.
Proof.
  intros Hpq. induction s as [|c s IH]; simpl; [reflexivity|].
  rewrite !andb_true_iff. intros [Hc Hs]. auto.
Qed.

Lemma lstrip_with_none (p : ascii -> bool) (s : string) :
  Str.all_chars (fun c => negb (p c)) s = true -> Str.lstrip_with p s = s.
Proof.
  destruct s as [|c s]; simpl; [reflexivity|].
  rewrite andb_true_iff, negb_true_iff. now intros [-> _].
Qed.

Lemma rstrip_with_none (p : ascii -> bool) (s : string) :
  Str.all_chars (fun c => negb (p c)) s = true -> Str.rstrip_with p s = s.
Proof.
  induction s as [|c s IH]; simpl; [reflexivity|].
  rewrite andb_true_iff, negb_true_iff. intros [-> Hs].
  now rewrite IH.
Qed.

Lemma is_digit_plain (c : ascii) :
  is_digit c = true ->
  Str.is_space c = false /\ Str.is_int_space c = false
  /\ Ascii.eqb c ":" = false /\ Ascii.eqb c "_" = false
  /\ Ascii.eqb c "+" = false /\ Ascii.eqb c "-" = false.
Proof.
  destruct c as [[|] [|] [|] [|] [|] [|] [|] [|]];
    intros H; try discriminate H; repeat split.
Qed.

Lemma digit_char_digit (d : Z) :
  0 <= d < 10 -> Str.digit_of (Str.digit_char d) = Some d.
Proof.
  intros H.
  assert (Hd : d = 0 \/ d = 1 \/ d = 2 \/ d = 3 \/ d = 4 \/ d = 5 \/ d = 6
               \/ d = 7 \/ d = 8 \/ d = 9) by lia.
  repeat (destruct Hd as [->|Hd]; [reflexivity|]). subst d. reflexivity.
Qed.

Lemma digit_char_is_digit (d : Z) :
  0 <= d < 10 -> is_digit (Str.digit_char d) = true.
Proof.
  intros H. unfold is_digit. now rewrite digit_char_digit.
Qed.

(** ** Decimal numerals *)

Lemma int_digits_digit (d : Z) (s : string) (a : Z) (b : bool) :
  0 <= d < 10 ->
  Str.int_digits (String (Str.digit_char d) s) a b
  = Str.int_digits s (10 * a + d) true.
Proof.
  intros H. cbn [Str.int_digits].
  destruct (is_digit_plain _ (digit_char_is_digit d H)) as (_ & _ & _ & -> & _).
  now rewrite digit_char_digit.
Qed.

(** Reading back the digits written by [digits_from]: with enough fuel,
    the [k] digits of [n] shift the accumulator by [10^k] and add [n]. *)
Lemma int_digits_digits_from (fuel : nat) :
  forall (n : Z) (acc : string),
    0 <= n < 2 ^ Z.of_nat fuel -> (1 <= fuel)%nat ->
    exists k : Z,
      0 <= k /\
      forall (a : Z) (b : bool),
        Str.int_digits (Str.digits_from fuel n acc) a b
        = Str.int_digits acc (a * 10 ^ k + n) true.
Proof.
  induction fuel as [|fuel IH]; intros n acc Hn Hf; [lia|].
  cbn [Str.digits_from].
  pose proof (Z.mod_pos_bound n 10 ltac:(lia)) as Hmod.
  destruct (n <? 10) eqn:E.
  - apply Z.ltb_lt in E. exists 1. split; [lia|]. intros a b.
    rewrite Z.mod_small by lia. rewrite int_digits_digit by lia.
    f_equal. lia.
  - apply Z.ltb_ge in E.
    assert (Hfuel : (1 <= fuel)%nat).
    { destruct fuel; [|lia]. simpl in Hn. lia. }
    assert (Hdiv : 0 <= n / 10 < 2 ^ Z.of_nat fuel).
    { split; [apply Z.div_pos; lia|].
      apply Z.div_lt_upper_bound; [lia|].
      rewrite Nat2Z.inj_succ, Z.pow_succ_r in Hn by lia. lia. }
    destruct (IH (n / 10) (String (Str.digit_char (n mod 10)) acc) Hdiv Hfuel)
      as (k & Hk & Hread).
    exists (k + 1). split; [lia|]. intros a b.
    rewrite Hread, int_digits_digit by lia. f_equal.
    rewrite Z.pow_add_r by lia.
    pose proof (Z.div_mod n 10 ltac:(lia)). lia.
Qed.

Lemma decimal_fuel (n : Z) :
  0 <= n -> 0 <= n < 2 ^ Z.of_nat (S (Z.to_nat (Z.log2 n))).
Proof.
  intros Hn. split; [exact Hn|].
  rewrite Nat2Z.inj_succ, Z2Nat.id by apply Z.log2_nonneg.
  destruct (Z.eq_dec n 0) as [->|Hz]; [reflexivity|].
  apply Z.log2_spec. lia.
Qed.

Lemma int_digits_decimal (n a : Z) (b : bool) :
  0 <= n ->
  exists k : Z,
    0 <= k /\ Str.int_digits (Str.decimal n) a b = Some (a * 10 ^ k + n).
Proof.
  intros Hn. unfold Str.decimal.
  destruct (int_digits_digits_from _ n EmptyString (decimal_fuel n Hn)
              ltac:(lia)) as (k & Hk & Hread).
  exists k. split; [exact Hk|]. now rewrite Hread.
Qed.

Lemma digits_from_all_digits (fuel : nat) :
  forall (n : Z) (acc : string),
    0 <= n -> Str.all_chars is_digit acc = true ->
    Str.all_chars is_digit (Str.digits_from fuel n acc) = true.
Proof.
  induction fuel as [|fuel IH]; intros n acc Hn Hacc; [exact Hacc|].
  cbn [Str.digits_from].
  pose proof (Z.mod_pos_bound n 10 ltac:(lia)) as Hmod.
  assert (Hnew : Str.all_chars is_digit
                   (String (Str.digit_char (n mod 10)) acc) = true)
    by (simpl; rewrite digit_char_is_digit by lia; exact Hacc).
  destruct (n <? 10); [exact Hnew|].
  apply IH; [apply Z.div_pos; lia | exact Hnew].
Qed.

Lemma digits_from_length (fuel : nat) :
  forall (n : Z) (acc : string),
    (String.length acc <= String.length (Str.digits_from fuel n acc))%nat.
Proof.
  induction fuel as [|fuel IH]; intros n acc; cbn [Str.digits_from]; [lia|].
  destruct (n <? 10); [simpl; lia|].
  etransitivity; [|apply IH]. simpl. lia.
Qed.

Lemma decimal_all_digits (n : Z) :
  0 <= n -> Str.all_chars is_digit (Str.decimal n) = true.
Proof.
  intros Hn. now apply digits_from_all_digits.
Qed.

Lemma decimal_length_small (n : Z) :
  0 <= n < 10 -> String.length (Str.decimal n) = 1%nat.
Proof.
  intros Hn. unfold Str.decimal. cbn [Str.digits_from].
  replace (n <? 10) with true by (symmetry; apply Z.ltb_lt; lia).
  reflexivity.
Qed.

Lemma decimal_length_large (n : Z) :
  10 <= n -> (2 <= String.length (Str.decimal n))%nat.
Proof.
  intros Hn. unfold Str.decimal. cbn [Str.digits_from].
  replace (n <? 10) with false by (symmetry; apply Z.ltb_ge; lia).
  assert (Hlog : 3 <= Z.log2 n).
  { apply Z.log2_le_pow2; [lia|]. simpl. lia. }
  destruct (Z.to_nat (Z.log2 n)) as [|fuel] eqn:E; [lia|].
  cbn [Str.digits_from].
  destruct (n / 10 <? 10); [simpl; lia|].
  etransitivity; [|apply digits_from_length]. simpl. lia.
Qed.

Lemma format_02d_two_digits (n : Z) :
  0 <= n -> Str.format_02d n = two_digits n.
Proof.
  intros Hn. unfold Str.format_02d, two_digits.
  replace (n <? 0) with false by (symmetry; apply Z.ltb_ge; lia).
  destruct (n <? 10) eqn:E.
  - apply Z.ltb_lt in E. rewrite decimal_length_small by lia. reflexivity.
  - apply Z.ltb_ge in E. pose proof (decimal_length_large n E) as Hl.
    replace (2 - String.length (Str.decimal n))%nat with 0%nat by lia.
    reflexivity.
Qed.

Lemma two_digits_all_digits (n : Z) :
  0 <= n -> Str.all_chars is_digit (two_digits n) = true.
Proof.
  intros Hn. unfold two_digits.
  destruct (n <? 10); simpl; now rewrite ?decimal_all_digits.
Qed.

Lemma two_digits_nonempty (n : Z) : Str.is_empty (two_digits n) = false.
Proof.
  unfold two_digits, Str.decimal. cbn [Str.digits_from].
  destruct (n <? 10); [reflexivity|].
  destruct (Z.to_nat (Z.log2 n)) as [|fuel]; [reflexivity|].
  pose proof (digits_from_length (S fuel) (n / 10)
                (String (Str.digit_char (n mod 10)) "")) as Hl.
  destruct (Str.digits_from _ _ _); [simpl in Hl; lia | reflexivity].
Qed.

(** ** Splitting and reading components *)

Lemma split_no_sep (sep : ascii) (s : string) :
  Str.all_chars (fun c => negb (Ascii.eqb c sep)) s = true ->
  Str.split sep s = [s].
Proof.
  induction s as [|c s IH]; simpl; [reflexivity|].
  rewrite andb_true_iff, negb_true_iff. intros [-> Hs].
  now rewrite IH.
Qed.

Lemma split_app_sep (sep : ascii) (a t : string) :
  Str.all_chars (fun c => negb (Ascii.eqb c sep)) a = true ->
  Str.split sep (a ++ String sep t) = a :: Str.split sep t.
Proof.
  induction a as [|c a IH]; simpl.
  - intros _. now rewrite Ascii.eqb_refl.
  - rewrite andb_true_iff, negb_true_iff. intros [-> Ha].
    now rewrite IH.
Qed.

Lemma digits_no_colon (s : string) :
  Str.all_chars is_digit s = true -> no_colon s.
Proof.
  apply all_chars_impl. intros c Hc. unfold not_colon.
  now destruct (is_digit_plain c Hc) as (_ & _ & -> & _).
Qed.

Lemma int_of_digits (s : string) :
  Str.all_chars is_digit s = true ->
  Str.int s = match s with
              | EmptyString => None
              | String _ _ => Str.int_digits s 0 false
              end.
Proof.
  intros Hs. unfold Str.int.
  assert (Hplain : Str.all_chars (fun c => negb (Str.is_int_space c)) s = true).
  { revert Hs. apply all_chars_impl. intros c Hc.
    now destruct (is_digit_plain c Hc) as (_ & -> & _). }
  rewrite (lstrip_with_none _ _ Hplain), (rstrip_with_none _ _ Hplain).
  destruct s as [|c r]; [reflexivity|].
  simpl in Hs. apply andb_true_iff in Hs as [Hc _].
  now destruct (is_digit_plain c Hc) as (_ & _ & _ & _ & -> & ->).
Qed.

Lemma int_decimal (n : Z) : 0 <= n -> Str.int (Str.decimal n) = Some n.
Proof.
  intros Hn. rewrite int_of_digits by now apply decimal_all_digits.
  destruct (int_digits_decimal n 0 false Hn) as (k & _ & Hk).
  destruct (Str.decimal n) eqn:E; [discriminate Hk|].
  rewrite Hk. f_equal; lia.
Qed.

Lemma int_two_digits (n : Z) : 0 <= n -> Str.int (two_digits n) = Some n.
Proof.
  intros Hn. rewrite int_of_digits by now apply two_digits_all_digits.
  unfold two_digits. destruct (n <? 10).
  - change (String "0" (Str.decimal n))
      with (String (Str.digit_char 0) (Str.decimal n)).
    rewrite int_digits_digit by lia.
    destruct (int_digits_decimal n (10 * 0 + 0) true Hn) as (k & _ & ->).
    f_equal; lia.
  - fold (match Str.decimal n with
          | EmptyString => None
          | String _ _ => Str.int_digits (Str.decimal n) 0 false
          end).
    rewrite <- int_of_digits by now apply decimal_all_digits.
    now apply int_decimal.
Qed.

Lemma strip_plain (s : string) :
  Str.all_chars (fun c => negb (Str.is_space c)) s = true -> Str.strip s = s.
Proof.
  intros Hs. unfold Str.strip.
  now rewrite (lstrip_with_none _ _ Hs), (rstrip_with_none _ _ Hs).
Qed.

Lemma is_empty_app (s t : string) :
  Str.is_empty (s ++ t) = Str.is_empty s && Str.is_empty t.
Proof. now destruct s. Qed.

(** ** Durations as text *)

Lemma canonical_hms_plain (h m s : Z) :
  0 <= h -> 0 <= m -> 0 <= s ->
  Str.all_chars (fun c => negb (Str.is_space c)) (canonical_hms h m s) = true.
Proof.
  intros Hh Hm Hs. unfold canonical_hms.
  assert (Hd : forall n, 0 <= n ->
             Str.all_chars (fun c => negb (Str.is_space c)) (two_digits n)
             = true).
  { intros n Hn. apply (all_chars_impl is_digit); [|now apply two_digits_all_digits].
    intros c Hc. now destruct (is_digit_plain c Hc) as (-> & _). }
  rewrite !all_chars_app, !Hd by assumption. reflexivity.
Qed.

Lemma split_canonical_hms (h m s : Z) :
  0 <= h -> 0 <= m -> 0 <= s ->
  Str.split ":" (canonical_hms h m s)
  = [two_digits h; two_digits m; two_digits s].
Proof.
  intros Hh Hm Hs. unfold canonical_hms.
  pose proof (digits_no_colon _ (two_digits_all_digits h Hh)) as Nh.
  pose proof (digits_no_colon _ (two_digits_all_digits m Hm)) as Nm.
  pose proof (digits_no_colon _ (two_digits_all_digits s Hs)) as Ns.
  change (":" ++ two_digits m ++ ":" ++ two_digits s)
    with (String ":" (two_digits m ++ String ":" (two_digits s))).
  rewrite (split_app_sep ":" _ _ Nh), (split_app_sep ":" _ _ Nm).
  now rewrite (split_no_sep ":" _ Ns).
Qed.

Lemma parse_duration_canonical (h m s : Z) :
  0 <= h -> 0 <= m < 60 -> 0 <= s < 60 ->
  TimeParser.parse_duration (canonical_hms h m s)
  = Ok (h * 3600 + m * 60 + s).
Proof.
  intros Hh Hm Hs. unfold TimeParser.parse_duration.
  rewrite (strip_plain _ (canonical_hms_plain h m s Hh (proj1 Hm) (proj1 Hs))).
  rewrite split_canonical_hms by lia.
  unfold canonical_hms at 1. rewrite is_empty_app, two_digits_nonempty.
  cbn [andb List.length Nat.ltb Nat.leb TimeParser.duration_components].
  rewrite !int_two_digits by lia.
  unfold in_range.
  replace (h <? 0) with false by (symmetry; apply Z.ltb_ge; lia).
  replace (0 <=? m) with true by (symmetry; apply Z.leb_le; lia).
  replace (m <? 60) with true by (symmetry; apply Z.ltb_lt; lia).
  replace (0 <=? s) with true by (symmetry; apply Z.leb_le; lia).
  replace (s <? 60) with true by (symmetry; apply Z.ltb_lt; lia).
  reflexivity.
Qed.

Lemma format_hms_canonical (h m s : Z) :
  0 <= h -> 0 <= m < 60 -> 0 <= s < 60 ->
  TimeParser.format_hms (h * 3600 + m * 60 + s) = canonical_hms h m s.
Proof.
  intros Hh Hm Hs. unfold TimeParser.format_hms, canonical_hms.
  set (n := h * 3600 + m * 60 + s).
  replace (n <? 0) with false by (symmetry; apply Z.ltb_ge; lia).
  rewrite Z.abs_eq by lia.
  assert (H1 : n / 3600 = h)
    by (symmetry; apply (Z.div_unique n 3600 h (m * 60 + s)); lia).
  assert (H2 : n mod 3600 = m * 60 + s)
    by (symmetry; apply (Z.mod_unique n 3600 h (m * 60 + s)); lia).
  assert (H3 : (m * 60 + s) / 60 = m)
    by (symmetry; apply (Z.div_unique (m * 60 + s) 60 m s); lia).
  assert (H4 : n mod 60 = s)
    by (symmetry; apply (Z.mod_unique n 60 (h * 60 + m) s); lia).
  rewrite H1, H2, H3, H4, !format_02d_two_digits by lia.
  reflexivity.
Qed.

(** C9.  A duration of [h] hours, [m] minutes and [s] seconds written as
    canonical zero-padded [HH:MM:SS] text is parsed by [parse_duration],
    and [format_hms] of the result is the text again; in particular for
    "08:30:00". *)
Theorem format_hms_parse_duration_canonical (h m s : Z) :
  0 <= h -> 0 <= m < 60 -> 0 <= s < 60 ->
  (exists d : Z,
      TimeParser.parse_duration (canonical_hms h m s) = Ok d
      /\ d = h * 3600 + m * 60 + s
      /\ TimeParser.format_hms d = canonical_hms h m s)
  /\ canonical_hms 8 30 0 = "08:30:00"
  /\ TimeParser.parse_duration "08:30:00" = Ok 30600
  /\ TimeParser.format_hms 30600 = "08:30:00".
Proof.
  intros Hh Hm Hs. split.
  - exists (h * 3600 + m * 60 + s).
    rewrite parse_duration_canonical, format_hms_canonical by assumption.
    auto.
  - repeat split; reflexivity.
Qed.

Lemma format_hms_parse_duration_canonical_witness :
  exists d : Z,
    TimeParser.parse_duration (canonical_hms 123 4 59) = Ok d
    /\ d = 123 * 3600 + 4 * 60 + 59
    /\ TimeParser.format_hms d = canonical_hms 123 4 59.
Proof.
  exact (proj1 (format_hms_parse_duration_canonical 123 4 59
                  ltac:(lia) ltac:(lia) ltac:(lia))).
Defined.

(** ** Stripping white space *)

Section Strip.
Variable p : ascii -> bool.

Lemma lstrip_is_empty (s : string) :
  Str.is_empty (Str.lstrip_with p s) = Str.all_chars p s.
Proof.
  induction s as [|c s IH]; simpl; [reflexivity|].
  destruct (p c); [exact IH | reflexivity].
Qed.

Lemma rstrip_is_empty (s : string) :
  Str.is_empty (Str.rstrip_with p s) = Str.all_chars p s.
Proof.
  induction s as [|c s IH]; simpl; [reflexivity|].
  rewrite IH. destruct (p c), (Str.all_chars p s); reflexivity.
Qed.

Lemma is_empty_true (s : string) : Str.is_empty s = true -> s = "".
Proof. destruct s; [reflexivity | discriminate]. Qed.

Lemma lstrip_all (s : string) :
  Str.all_chars p s = true -> Str.lstrip_with p s = "".
Proof.
  intros H. apply is_empty_true. now rewrite lstrip_is_empty.
Qed.

Lemma rstrip_all (s : string) :
  Str.all_chars p s = true -> Str.rstrip_with p s = "".
Proof.
  intros H. apply is_empty_true. now rewrite rstrip_is_empty.
Qed.

Lemma lstrip_app_stop (s t : string) (c : ascii) :
  p c = false ->
  Str.lstrip_with p (s ++ String c t) = Str.lstrip_with p s ++ String c t.
Proof.
  intros Hc. induction s as [|a s IH]; simpl.
  - now rewrite Hc.
  - destruct (p a); [exact IH | reflexivity].
Qed.

Lemma lstrip_app_all (s t : string) :
  Str.all_chars p s = true ->
  Str.lstrip_with p (s ++ t) = Str.lstrip_with p t.
Proof.
  induction s as [|a s IH]; simpl; [reflexivity|].
  rewrite andb_true_iff. intros [-> Hs]. auto.
Qed.

Lemma lstrip_app_keep (s t : string) :
  Str.all_chars p s = false ->
  Str.lstrip_with p (s ++ t) = Str.lstrip_with p s ++ t.
Proof.
  induction s as [|a s IH]; simpl; [discriminate|].
  destruct (p a); simpl; [exact IH | reflexivity].
Qed.

Lemma lstrip_head (s r : string) (c : ascii) :
  Str.lstrip_with p s = String c r -> p c = false.
Proof.
  induction s as [|a s IH]; simpl; [discriminate|].
  destruct (p a) eqn:E; [exact IH|]. intros [= <- _]. exact E.
Qed.

Lemma rstrip_app_keep (s t : string) :
  Str.is_empty (Str.rstrip_with p t) = false ->
  Str.rstrip_with p (s ++ t) = s ++ Str.rstrip_with p t.
Proof.
  intros Ht. induction s as [|a s IH]; simpl; [reflexivity|].
  rewrite IH, is_empty_app, Ht, !andb_false_r. reflexivity.
Qed.

Lemma rstrip_app_all (s w : string) :
  Str.all_chars p w = true ->
  Str.rstrip_with p (s ++ w) = Str.rstrip_with p s.
Proof.
  intros Hw. induction s as [|a s IH]; simpl.
  - now apply rstrip_all.
  - now rewrite IH.
Qed.

Lemma rstrip_app_last (x : string) (c : ascii) :
  p c = false ->
  Str.rstrip_with p (x ++ String c "") = x ++ String c "".
Proof.
  intros Hc. rewrite rstrip_app_keep; simpl; now rewrite Hc.
Qed.

Lemma rstrip_idem (s : string) :
  Str.rstrip_with p (Str.rstrip_with p s) = Str.rstrip_with p s.
Proof.
  induction s as [|c s IH]; simpl; [reflexivity|].
  destruct (p c && Str.is_empty (Str.rstrip_with p s)) eqn:E;
    [reflexivity|].
  simpl. now rewrite IH, E.
Qed.

Lemma lstrip_rstrip_lstrip (s : string) :
  Str.lstrip_with p (Str.rstrip_with p (Str.lstrip_with p s))
  = Str.rstrip_with p (Str.lstrip_with p s).
Proof.
  destruct (Str.lstrip_with p s) as [|c r] eqn:E; [reflexivity|].
  pose proof (lstrip_head _ _ _ E) as Hc. simpl. now rewrite Hc; simpl; rewrite Hc.
Qed.

Lemma all_chars_lstrip (q : ascii -> bool) (s : string) :
  Str.all_chars q s = true -> Str.all_chars q (Str.lstrip_with p s) = true.
Proof.
  induction s as [|c s IH]; simpl; [reflexivity|].
  rewrite andb_true_iff. intros [Hc Hs].
  destruct (p c); [auto | simpl; now rewrite Hc, Hs].
Qed.

End Strip.

(** Stripping twice changes nothing, and trailing white space is lost. *)
Lemma strip_rstrip_lstrip (s : string) :
  Str.strip (Str.rstrip_with Str.is_space (Str.lstrip_with Str.is_space s))
  = Str.strip s.
Proof.
  unfold Str.strip. now rewrite lstrip_rstrip_lstrip, rstrip_idem.
Qed.

Lemma strip_app_space (s w : string) :
  Str.all_chars Str.is_space w = true -> Str.strip (s ++ w) = Str.strip s.
Proof.
  intros Hw. unfold Str.strip.
  destruct (Str.all_chars Str.is_space s) eqn:E.
  - rewrite lstrip_app_all, (lstrip_all _ w), (lstrip_all _ s) by assumption.
    reflexivity.
  - rewrite lstrip_app_keep by assumption. now apply rstrip_app_all.
Qed.

(** ** The am/pm marker *)

Lemma am_pm_search_eq (s : string) :
  TimeParser.am_pm_search s
  = match TimeParser.am_pm_match_here s with
    | Some g => Some (EmptyString, g)
    | None =>
        match s with
        | EmptyString => None
        | String c s' =>
            match TimeParser.am_pm_search s' with
            | Some (pre, g) => Some (String c pre, g)
            | None => None
            end
        end
    end.
Proof. destruct s; reflexivity. Qed.

Section Marker.
Variables (c1 c2 : ascii) (g : TimeParser.ampm).
Hypothesis c1_letter : Str.is_space c1 = false.
Hypothesis c2_letter : Str.is_space c2 = false.
Hypothesis c1_c2_marker : TimeParser.marker_of c1 c2 = Some g.

Lemma match_here_spaces (w : string) :
  Str.all_chars Str.is_space w = true ->
  TimeParser.am_pm_match_here (w ++ String c1 (String c2 "")) = Some g.
Proof.
  intros Hw. unfold TimeParser.am_pm_match_here.
  rewrite lstrip_app_all by exact Hw. simpl. rewrite c1_letter. simpl.
  exact c1_c2_marker.
Qed.

Lemma match_here_text (z : string) :
  Str.all_chars Str.is_space z = false ->
  TimeParser.am_pm_match_here (z ++ String c1 (String c2 "")) = None.
Proof.
  intros Hz. unfold TimeParser.am_pm_match_here.
  rewrite lstrip_app_stop by exact c1_letter.
  destruct (Str.lstrip_with Str.is_space z) as [|a r] eqn:E.
  - pose proof (lstrip_is_empty Str.is_space z) as H.
    rewrite E, Hz in H. discriminate H.
  - destruct r as [|b r]; simpl.
    + now rewrite c2_letter.
    + now rewrite all_chars_app; simpl; rewrite c1_letter, andb_false_r.
Qed.

(** The search finds the marker, and leaves the text before the white
    space that precedes it. *)
Lemma am_pm_search_marker (y : string) :
  TimeParser.am_pm_search (y ++ String c1 (String c2 ""))
  = Some (Str.rstrip_with Str.is_space y, g).
Proof.
  induction y as [|a y IH].
  - rewrite am_pm_search_eq.
    now rewrite (match_here_spaces "" eq_refl).
  - rewrite am_pm_search_eq.
    destruct (Str.all_chars Str.is_space (String a y)) eqn:E.
    + rewrite (match_here_spaces _ E), rstrip_all by exact E. reflexivity.
    + rewrite (match_here_text _ E).
      cbn [append]. rewrite IH. cbn [Str.rstrip_with].
      rewrite rstrip_is_empty. simpl in E. now rewrite E.
Qed.

(** A text ending with the marker, whatever white space surrounds it, is
    read as a 12-hour time made of the text before the marker. *)
Lemma parse_time_marker (body w1 w2 : string) :
  Str.all_chars Str.is_space w1 = true ->
  Str.all_chars Str.is_space w2 = true ->
  TimeParser.parse_time (body ++ w1 ++ String c1 (String c2 w2))
  = TimeParser.time_of_parts (Some g) (Str.split ":" (Str.strip body)).
Proof.
  intros Hw1 Hw2.
  set (y := Str.lstrip_with Str.is_space (body ++ w1)).
  assert (Hstrip : Str.strip (body ++ w1 ++ String c1 (String c2 w2))
                   = y ++ String c1 (String c2 "")).
  { unfold Str.strip. rewrite <- append_assoc.
    rewrite lstrip_app_stop by exact c1_letter. fold y.
    change (String c1 (String c2 w2))
      with (String c1 (String c2 "") ++ w2).
    rewrite <- append_assoc, rstrip_app_all by exact Hw2.
    assert (Hmk : Str.rstrip_with Str.is_space (String c1 (String c2 ""))
                  = String c1 (String c2 ""))
      by (simpl; rewrite c2_letter; simpl; now rewrite c1_letter).
    rewrite rstrip_app_keep; now rewrite Hmk. }
  unfold TimeParser.parse_time. rewrite Hstrip, is_empty_app, andb_false_r.
  rewrite am_pm_search_marker. subst y.
  rewrite strip_rstrip_lstrip, strip_app_space by exact Hw1.
  reflexivity.
Qed.

End Marker.

Lemma marker_text_chars (mk : string) (g : TimeParser.ampm) :
  marker_text mk = Some g ->
  exists c1 c2 : ascii,
    mk = String c1 (String c2 "")
    /\ Str.is_space c1 = false /\ Str.is_space c2 = false
    /\ TimeParser.marker_of c1 c2 = Some g.
Proof.
  unfold marker_text. cbn [existsb].
  destruct (String.eqb_spec mk "am") as [->|_];
    [intros [= <-]; now exists "a"%char, "m"%char|].
  destruct (String.eqb_spec mk "aM") as [->|_];
    [intros [= <-]; now exists "a"%char, "M"%char|].
  destruct (String.eqb_spec mk "Am") as [->|_];
    [intros [= <-]; now exists "A"%char, "m"%char|].
  destruct (String.eqb_spec mk "AM") as [->|_];
    [intros [= <-]; now exists "A"%char, "M"%char|].
  cbn [orb].
  destruct (String.eqb_spec mk "pm") as [->|_];
    [intros [= <-]; now exists "p"%char, "m"%char|].
  destruct (String.eqb_spec mk "pM") as [->|_];
    [intros [= <-]; now exists "p"%char, "M"%char|].
  destruct (String.eqb_spec mk "Pm") as [->|_];
    [intros [= <-]; now exists "P"%char, "m"%char|].
  destruct (String.eqb_spec mk "PM") as [->|_];
    [intros [= <-]; now exists "P"%char, "M"%char|].
  discriminate.
Qed.

Lemma time_components_hour (parts : list string) (hh mm ss : Z) :
  TimeParser.time_components parts = Some (hh, mm, ss) ->
  Str.int (nth 0 parts "") = Some hh.
Proof.
  unfold TimeParser.time_components.
  destruct (Str.int (nth 0 parts "")) as [h|]; [|discriminate].
  destruct (if _ : bool then _ else _) as [m|]; [|discriminate].
  destruct (if _ : bool then _ else _) as [s|]; [|discriminate].
  now intros [= -> _ _].
Qed.

Lemma time_of_parts_12 (g : TimeParser.ampm) (parts : list string) (t : time) :
  TimeParser.time_of_parts (Some g) parts = Ok t ->
  exists hh : Z,
    Str.int (nth 0 parts "") = Some hh /\ 1 <= hh <= 12
    /\ hour t = hour_of_12 g hh.
Proof.
  unfold TimeParser.time_of_parts.
  destruct (3 <? _)%nat; [discriminate|].
  destruct (TimeParser.time_components parts) as [[[hh mm] ss]|] eqn:E;
    [|discriminate].
  destruct (negb _ || negb _); [discriminate|].
  destruct (negb (in_range hh 1 13)) eqn:Eh; [discriminate|].
  intros [= <-]. exists hh.
  apply negb_false_iff in Eh. unfold in_range in Eh.
  apply andb_true_iff in Eh as [H1 H2].
  apply Z.leb_le in H1. apply Z.ltb_lt in H2.
  split; [now apply time_components_hour in E|].
  split; [lia | reflexivity].
Qed.

Lemma time_of_parts_12_out_of_range (g : TimeParser.ampm)
    (parts : list string) (hh : Z) :
  Str.int (nth 0 parts "") = Some hh -> ~ 1 <= hh <= 12 ->
  is_ok (TimeParser.time_of_parts (Some g) parts) = false.
Proof.
  intros Hint Hout.
  destruct (TimeParser.time_of_parts (Some g) parts) as [t|m] eqn:E;
    [|reflexivity].
  apply time_of_parts_12 in E as (hh' & Hint' & Hin & _).
  rewrite Hint in Hint'. injection Hint' as <-. contradiction.
Qed.

(** ** What a list of components is read as *)

Lemma time_components_eq (parts : list string) :
  (List.length parts <= 3)%nat ->
  TimeParser.time_components parts
  = match Str.int (nth 0 parts ""), component_value (nth 1 parts ""),
          component_value (nth 2 parts "") with
    | Some hh, Some mm, Some ss => Some (hh, mm, ss)
    | _, _, _ => None
    end.
Proof.
  intros Hlen. unfold TimeParser.time_components, component_value.
  destruct parts as [|p0 [|p1 [|p2 [|p3 r]]]];
    cbn [List.length nth Nat.leb Nat.eqb andb negb Str.is_empty] in *;
    try lia.
  - reflexivity.
  - destruct (Str.int p0); reflexivity.
  - destruct (Str.int p0); [|reflexivity].
    destruct (Str.is_empty p1); reflexivity.
  - destruct (Str.int p0); [|reflexivity].
    destruct (Str.is_empty p1), (Str.is_empty p2); reflexivity.
Qed.

Lemma in_range_iff (n lo hi : Z) : in_range n lo hi = true <-> lo <= n < hi.
Proof. unfold in_range. rewrite andb_true_iff, Z.leb_le, Z.ltb_lt. tauto. Qed.

Lemma in_range_false_iff (n lo hi : Z) :
  in_range n lo hi = false <-> ~ lo <= n < hi.
Proof.
  rewrite <- in_range_iff. destruct (in_range n lo hi); split; congruence.
Qed.

(** [time_of_parts] returns the time the components denote, and fails
    when they denote none. *)
Lemma time_of_parts_denotes (ampm : option TimeParser.ampm)
    (parts : list string) (t : time) :
  TimeParser.time_of_parts ampm parts = Ok t <-> denotes ampm parts t.
Proof.
  unfold TimeParser.time_of_parts, denotes.
  destruct (3 <? List.length parts)%nat eqn:Elen.
  - apply Nat.ltb_lt in Elen. split; [discriminate|]. intros [H _]. lia.
  - apply Nat.ltb_ge in Elen. rewrite (time_components_eq parts Elen).
    destruct (Str.int (nth 0 parts "")) as [hh|];
      [|split; [discriminate | intros (_ & ? & ? & ? & H & _); discriminate H]].
    destruct (component_value (nth 1 parts "")) as [mm|];
      [|split; [discriminate
               | intros (_ & ? & ? & ? & _ & H & _); discriminate H]].
    destruct (component_value (nth 2 parts "")) as [ss|];
      [|split; [discriminate
               | intros (_ & ? & ? & ? & _ & _ & H & _); discriminate H]].
    destruct (in_range mm 0 60) eqn:Em; cbn [negb orb];
      [apply in_range_iff in Em
      |apply in_range_false_iff in Em; split; [discriminate|];
       intros (_ & ? & ? & ? & _ & [= <-] & _ & H & _); contradiction].
    destruct (in_range ss 0 60) eqn:Es; cbn [negb];
      [apply in_range_iff in Es
      |apply in_range_false_iff in Es; split; [discriminate|];
       intros (_ & ? & ? & ? & _ & _ & [= <-] & _ & H & _); contradiction].
    destruct ampm as [g|].
    + destruct (in_range hh 1 13) eqn:Eh; cbn [negb].
      * apply in_range_iff in Eh. split.
        -- intros [= <-]. split; [exact Elen|]. exists hh, mm, ss.
           repeat (split; [first [reflexivity | lia]|]).
           unfold hour_of_12. now destruct g.
        -- intros (_ & h' & m' & s' & [= <-] & [= <-] & [= <-] & _ & _ & _ & ->).
           unfold hour_of_12. now destruct g.
      * apply in_range_false_iff in Eh. split; [discriminate|].
        intros (_ & h' & m' & s' & [= <-] & _ & _ & _ & _ & H & _). lia.
    + destruct (in_range hh 0 24) eqn:Eh; cbn [negb].
      * apply in_range_iff in Eh. split.
        -- intros [= <-]. split; [exact Elen|]. exists hh, mm, ss.
           repeat (split; [first [reflexivity | lia]|]).
           reflexivity.
        -- now intros (_ & h' & m' & s' & [= <-] & [= <-] & [= <-] & _ & _ & _ & ->).
      * apply in_range_false_iff in Eh. split; [discriminate|].
        intros (_ & h' & m' & s' & [= <-] & _ & _ & _ & _ & H & _). lia.
Qed.

(** ** A text and its marker *)

Lemma lstrip_decompose (p : ascii -> bool) (s : string) :
  exists w : string,
    s = w ++ Str.lstrip_with p s /\ Str.all_chars p w = true.
Proof.
  induction s as [|c s (w & Hw & Hall)]; [now exists ""|].
  simpl. destruct (p c) eqn:E.
  - exists (String c w). simpl. now rewrite <- Hw, E, Hall.
  - now exists "".
Qed.

Lemma lstrip_idem (p : ascii -> bool) (s : string) :
  Str.lstrip_with p (Str.lstrip_with p s) = Str.lstrip_with p s.
Proof.
  induction s as [|c s IH]; [reflexivity|]. simpl.
  destruct (p c) eqn:E; [exact IH|]. simpl. now rewrite E.
Qed.

Lemma last_two_app (x : string) (c1 c2 : ascii) :
  last_two (x ++ String c1 (String c2 ""))
  = Some (x, String c1 (String c2 "")).
Proof.
  induction x as [|a x IH]; [reflexivity|].
  cbn [append last_two]. now rewrite IH.
Qed.

Lemma last_two_some (s pre mk : string) :
  last_two s = Some (pre, mk) -> s = pre ++ mk.
Proof.
  revert pre. induction s as [|c s IH]; intros pre; [discriminate|].
  cbn [last_two]. destruct (last_two s) as [[pre' mk']|].
  - intros [= <- <-]. simpl. now rewrite (IH pre' eq_refl).
  - destruct s as [|c2 [|c3 s]]; [discriminate | | discriminate].
    now intros [= <- <-].
Qed.

Lemma lower_m (c : ascii) :
  Ascii.eqb (Str.lower c) "m" = true -> c = "m"%char \/ c = "M"%char.
Proof.
  destruct c as [[|] [|] [|] [|] [|] [|] [|] [|]];
    intros H; try discriminate H; auto.
Qed.

Lemma lower_a (c : ascii) :
  Ascii.eqb (Str.lower c) "a" = true -> c = "a"%char \/ c = "A"%char.
Proof.
  destruct c as [[|] [|] [|] [|] [|] [|] [|] [|]];
    intros H; try discriminate H; auto.
Qed.

Lemma lower_p (c : ascii) :
  Ascii.eqb (Str.lower c) "p" = true -> c = "p"%char \/ c = "P"%char.
Proof.
  destruct c as [[|] [|] [|] [|] [|] [|] [|] [|]];
    intros H; try discriminate H; auto.
Qed.

(** The two letters that the pattern takes for a marker are the eight
    spellings of "am" and "pm". *)
Lemma marker_of_text (c1 c2 : ascii) (g : TimeParser.ampm) :
  TimeParser.marker_of c1 c2 = Some g ->
  marker_text (String c1 (String c2 "")) = Some g
  /\ Str.is_space c2 = false.
Proof.
  unfold TimeParser.marker_of.
  destruct (Ascii.eqb (Str.lower c2) "m") eqn:E2; [|discriminate].
  destruct (Ascii.eqb (Str.lower c1) "a") eqn:E1.
  - intros [= <-].
    destruct (lower_m c2 E2) as [-> | ->], (lower_a c1 E1) as [-> | ->];
      split; reflexivity.
  - destruct (Ascii.eqb (Str.lower c1) "p") eqn:E1'; [|discriminate].
    intros [= <-].
    destruct (lower_m c2 E2) as [-> | ->], (lower_p c1 E1') as [-> | ->];
      split; reflexivity.
Qed.

Lemma am_pm_search_some (s pre : string) (g : TimeParser.ampm) :
  TimeParser.am_pm_search s = Some (pre, g) ->
  exists z : string, s = pre ++ z /\ TimeParser.am_pm_match_here z = Some g.
Proof.
  revert pre. induction s as [|c s IH]; intros pre; rewrite am_pm_search_eq.
  - destruct (TimeParser.am_pm_match_here "") as [g'|] eqn:E; [|discriminate].
    intros [= <- <-]. now exists "".
  - destruct (TimeParser.am_pm_match_here (String c s)) as [g'|] eqn:E.
    + intros [= <- <-]. now exists (String c s).
    + destruct (TimeParser.am_pm_search s) as [[pre' g']|]; [|discriminate].
      intros [= <- <-]. destruct (IH pre' eq_refl) as (z & -> & Hz).
      now exists z.
Qed.

(** A text without white space at its end, in which the pattern is
    found, ends with the two letters of a marker. *)
Lemma am_pm_search_stripped (s pre : string) (g : TimeParser.ampm) :
  Str.rstrip_with Str.is_space s = s ->
  TimeParser.am_pm_search s = Some (pre, g) ->
  exists (x : string) (c1 c2 : ascii),
    s = x ++ String c1 (String c2 "")
    /\ marker_text (String c1 (String c2 "")) = Some g.
Proof.
  intros Hs Hsearch.
  destruct (am_pm_search_some s pre g Hsearch) as (z & Hz & Hmatch).
  unfold TimeParser.am_pm_match_here in Hmatch.
  destruct (lstrip_decompose Str.is_space z) as (w & Hw & _).
  destruct (Str.lstrip_with Str.is_space z) as [|c1 [|c2 rest]];
    [discriminate | discriminate |].
  destruct (Str.all_chars Str.is_space rest) eqn:Erest; [|discriminate].
  destruct (marker_of_text c1 c2 g Hmatch) as [Hmk Hc2].
  exists (pre ++ w), c1, c2. split; [|exact Hmk].
  assert (Hshape : s = ((pre ++ w) ++ String c1 (String c2 "")) ++ rest).
  { rewrite Hz, Hw, !append_assoc. reflexivity. }
  rewrite <- Hs, Hshape, rstrip_app_all by exact Erest.
  change (String c1 (String c2 "")) with (String c1 "" ++ String c2 "").
  rewrite <- append_assoc. now apply rstrip_app_last.
Qed.

Lemma strip_idem (s : string) : Str.strip (Str.strip s) = Str.strip s.
Proof. exact (strip_rstrip_lstrip s). Qed.

Lemma rstrip_strip (s : string) :
  Str.rstrip_with Str.is_space (Str.strip s) = Str.strip s.
Proof. unfold Str.strip. apply rstrip_idem. Qed.

(** [parse_time] reads the components that [marker_split] delimits, on
    the clock that the marker tells. *)
Lemma parse_time_marker_split (text : string) :
  TimeParser.parse_time text
  = if Str.is_empty (Str.strip text) then ValueError "Empty time"
    else TimeParser.time_of_parts (fst (marker_split text))
           (time_text_parts text).
Proof.
  unfold time_text_parts, marker_split.
  destruct (Str.is_empty (Str.strip text)) eqn:Eempty.
  - unfold TimeParser.parse_time. now rewrite Eempty.
  - destruct (last_two (Str.strip text)) as [[pre mk]|] eqn:Elast.
    + pose proof (last_two_some _ _ _ Elast) as Hs.
      destruct (marker_text mk) as [g|] eqn:Emk.
      * destruct (marker_text_chars mk g Emk)
          as (c1 & c2 & -> & Hc1 & Hc2 & Hg).
        cbn [fst snd].
        rewrite <- (parse_time_marker c1 c2 g Hc1 Hc2 Hg pre "" ""
                      eq_refl eq_refl).
        cbn [append]. rewrite <- Hs.
        unfold TimeParser.parse_time. now rewrite strip_idem.
      * cbn [fst snd]. unfold TimeParser.parse_time. rewrite Eempty.
        destruct (TimeParser.am_pm_search (Str.strip text))
          as [[pre' g]|] eqn:Esearch; [|reflexivity].
        destruct (am_pm_search_stripped _ _ _ (rstrip_strip text) Esearch)
          as (x & c1 & c2 & Hx & Hmk).
        rewrite Hx, last_two_app in Elast. injection Elast as <- <-.
        rewrite Hmk in Emk. discriminate Emk.
    + cbn [fst snd]. unfold TimeParser.parse_time. rewrite Eempty.
      destruct (TimeParser.am_pm_search (Str.strip text))
        as [[pre' g]|] eqn:Esearch; [|reflexivity].
      destruct (am_pm_search_stripped _ _ _ (rstrip_strip text) Esearch)
        as (x & c1 & c2 & Hx & Hmk).
      rewrite Hx, last_two_app in Elast. discriminate Elast.
Qed.

(** A text is accepted exactly when its components denote a time, which
    is then returned. *)
Lemma parse_time_denotes (text : string) (t : time) :
  TimeParser.parse_time text = Ok t
  <-> denotes (fst (marker_split text)) (time_text_parts text) t.
Proof.
  rewrite parse_time_marker_split.
  destruct (Str.is_empty (Str.strip text)) eqn:Eempty;
    [|apply time_of_parts_denotes].
  split; [discriminate|].
  unfold time_text_parts, marker_split.
  destruct (Str.strip text); [|discriminate].
  cbn. intros (_ & hh & _ & _ & H & _). discriminate H.
Qed.

(** The text before a marker, with any white space around the marker. *)
Lemma marker_split_marker (body w1 mk w2 : string) (g : TimeParser.ampm) :
  Str.all_chars Str.is_space w1 = true ->
  Str.all_chars Str.is_space w2 = true ->
  marker_text mk = Some g ->
  marker_split (body ++ w1 ++ mk ++ w2) = (Some g, Str.strip body).
Proof.
  intros Hw1 Hw2 Hmk.
  destruct (marker_text_chars mk g Hmk) as (c1 & c2 & -> & Hc1 & Hc2 & Hg).
  set (y := Str.lstrip_with Str.is_space (body ++ w1)).
  assert (Hstrip : Str.strip (body ++ w1 ++ String c1 (String c2 "") ++ w2)
                   = y ++ String c1 (String c2 "")).
  { unfold Str.strip. rewrite <- append_assoc.
    cbn [append].
    rewrite lstrip_app_stop by exact Hc1. fold y.
    change (String c1 (String c2 w2))
      with ((String c1 "" ++ String c2 "") ++ w2).
    rewrite <- !append_assoc, rstrip_app_all by exact Hw2.
    rewrite rstrip_app_last by exact Hc2. now rewrite append_assoc. }
  unfold marker_split. rewrite Hstrip, last_two_app, Hmk.
  f_equal. subst y. rewrite <- (strip_app_space body w1 Hw1).
  unfold Str.strip. now rewrite lstrip_idem.
Qed.

Lemma decimal_plain (n : Z) :
  0 <= n ->
  Str.strip (Str.decimal n) = Str.decimal n
  /\ Str.split ":" (Str.decimal n) = [Str.decimal n].
Proof.
  intros Hn. pose proof (decimal_all_digits n Hn) as Hd. split.
  - apply strip_plain. revert Hd. apply all_chars_impl.
    intros c Hc. now destruct (is_digit_plain c Hc) as (-> & _).
  - apply split_no_sep. exact (digits_no_colon _ Hd).
Qed.

Lemma component_value_two_digits (n : Z) :
  0 <= n -> component_value (two_digits n) = Some n.
Proof.
  intros Hn. unfold component_value.
  rewrite two_digits_nonempty. now apply int_two_digits.
Qed.

(** C8.  A text that ends with an am/pm marker, in any letter case and
    with any white space around it, is accepted exactly when the text
    before the marker has an hour from 1 to 12 (and minutes and seconds
    in range); 12 am is hour 0, 12 pm is hour 12 and other pm hours gain
    12, so that "9 am" is hour 9 and "9 pm" hour 21, however the marker
    is spelled.  "25:00", "12:60", "13 am" and the empty text are
    rejected. *)
Theorem parse_time_am_pm (body w1 mk w2 : string) (g : TimeParser.ampm) :
  Str.all_chars Str.is_space w1 = true ->
  Str.all_chars Str.is_space w2 = true ->
  marker_text mk = Some g ->
  let text := body ++ w1 ++ mk ++ w2 in
  let hour_text := nth 0 (Str.split ":" (Str.strip body)) "" in
  (forall t : time,
      TimeParser.parse_time text = Ok t ->
      exists hh : Z,
        Str.int hour_text = Some hh /\ 1 <= hh <= 12
        /\ hour t = hour_of_12 g hh)
  /\ (forall hh : Z,
        Str.int hour_text = Some hh -> ~ 1 <= hh <= 12 ->
        is_ok (TimeParser.parse_time text) = false)
  /\ (forall t : time,
        TimeParser.parse_time text = Ok t
        <-> denotes (Some g) (Str.split ":" (Str.strip body)) t)
  /\ (forall n m s : Z,
        1 <= n <= 12 -> 0 <= m < 60 -> 0 <= s < 60 ->
        TimeParser.parse_time (Str.decimal n ++ w1 ++ mk ++ w2)
        = Ok (mkTime (hour_of_12 g n) 0 0)
        /\ TimeParser.parse_time (canonical_hms n m s ++ w1 ++ mk ++ w2)
           = Ok (mkTime (hour_of_12 g n) m s))
  /\ hour_of_12 TimeParser.AM 12 = 0 /\ hour_of_12 TimeParser.PM 12 = 12
  /\ (forall hh : Z,
        hh <> 12 ->
        hour_of_12 TimeParser.AM hh = hh
        /\ hour_of_12 TimeParser.PM hh = hh + 12)
  /\ TimeParser.parse_time "9 am" = Ok (mkTime 9 0 0)
  /\ TimeParser.parse_time "9 pm" = Ok (mkTime 21 0 0)
  /\ TimeParser.parse_time "12:00 am" = Ok (mkTime 0 0 0)
  /\ TimeParser.parse_time "12:00 pm" = Ok (mkTime 12 0 0)
  /\ TimeParser.parse_time "9 AM" = Ok (mkTime 9 0 0)
  /\ TimeParser.parse_time "9 PM" = Ok (mkTime 21 0 0)
  /\ TimeParser.parse_time "9Pm" = Ok (mkTime 21 0 0)
  /\ TimeParser.parse_time " 12:00:05  aM " = Ok (mkTime 0 0 5)
  /\ is_ok (TimeParser.parse_time "25:00") = false
  /\ is_ok (TimeParser.parse_time "12:60") = false
  /\ is_ok (TimeParser.parse_time "13 am") = false
  /\ is_ok (TimeParser.parse_time "13 PM") = false
  /\ is_ok (TimeParser.parse_time "0 am") = false
  /\ is_ok (TimeParser.parse_time "") = false.
Proof.
  intros Hw1 Hw2 Hmk text hour_text.
  destruct (marker_text_chars mk g Hmk) as (c1 & c2 & -> & Hc1 & Hc2 & Hg).
  assert (Hparse : forall b : string,
             TimeParser.parse_time
               (b ++ w1 ++ String c1 (String c2 "") ++ w2)
             = TimeParser.time_of_parts (Some g)
                 (Str.split ":" (Str.strip b)))
    by (intros b; apply parse_time_marker; assumption).
  split; [|split; [|split; [|split]]].
  - intros t Ht. unfold text in Ht. rewrite Hparse in Ht.
    now apply time_of_parts_12 in Ht.
  - intros hh Hint Hout. unfold text. rewrite Hparse.
    now apply time_of_parts_12_out_of_range with (hh := hh).
  - intros t. unfold text. rewrite Hparse. apply time_of_parts_denotes.
  - intros n m s Hn Hm Hs. split.
    + rewrite Hparse. destruct (decimal_plain n) as [-> ->]; [lia|].
      apply time_of_parts_denotes. split; [simpl; lia|].
      exists n, 0, 0. cbn [nth]. rewrite int_decimal by lia.
      repeat (split; [first [reflexivity | lia]|]). reflexivity.
    + rewrite Hparse.
      rewrite (strip_plain _ (canonical_hms_plain n m s ltac:(lia)
                                (proj1 Hm) (proj1 Hs))).
      rewrite split_canonical_hms by lia.
      apply time_of_parts_denotes. split; [simpl; lia|].
      exists n, m, s. cbn [nth].
      rewrite int_two_digits, !component_value_two_digits by lia.
      repeat (split; [first [reflexivity | lia]|]). reflexivity.
  - split; [reflexivity|]. split; [reflexivity|]. split.
    + intros hh Hne. apply Z.eqb_neq in Hne. unfold hour_of_12.
      now rewrite Hne.
    + repeat split; reflexivity.
Qed.

Lemma parse_time_am_pm_witness :
  (exists hh : Z,
      Str.int (nth 0 (Str.split ":" (Str.strip " 9:15")) "") = Some hh
      /\ 1 <= hh <= 12
      /\ hour (mkTime 21 15 0) = hour_of_12 TimeParser.PM hh)
  /\ TimeParser.parse_time (Str.decimal 11 ++ "  " ++ "Pm" ++ " ")
     = Ok (mkTime (hour_of_12 TimeParser.PM 11) 0 0).
Proof.
  pose (H := parse_time_am_pm " 9:15" "  " "Pm" " " TimeParser.PM
               eq_refl eq_refl eq_refl).
  split.
  - exact (proj1 H (mkTime 21 15 0) eq_refl).
  - exact (proj1 (proj1 (proj2 (proj2 (proj2 H))) 11 30 0
                    ltac:(lia) ltac:(lia) ltac:(lia))).
Defined.

(** ** Empty components *)

Lemma is_digit_not_m (c : ascii) :
  is_digit c = true -> Ascii.eqb (Str.lower c) "m" = false.
Proof.
  destruct c as [[|] [|] [|] [|] [|] [|] [|] [|]];
    intros H; try discriminate H; reflexivity.
Qed.

Lemma string_last (s : string) :
  Str.is_empty s = false -> exists (s' : string) (c : ascii), s = s' ++ String c "".
Proof.
  induction s as [|a s IH]; [discriminate|]. intros _.
  destruct s as [|b s].
  - now exists "", a.
  - destruct (IH eq_refl) as (s' & c & ->). now exists (String a s'), c.
Qed.

Section NoMarker.
Variable c : ascii.
Hypothesis c_not_space : Str.is_space c = false.
Hypothesis c_not_m : Ascii.eqb (Str.lower c) "m" = false.

Lemma match_here_none_last (x : string) :
  TimeParser.am_pm_match_here (x ++ String c "") = None.
Proof.
  unfold TimeParser.am_pm_match_here.
  rewrite lstrip_app_stop by exact c_not_space.
  destruct (Str.lstrip_with Str.is_space x) as [|a [|b r]]; simpl.
  - reflexivity.
  - unfold TimeParser.marker_of. now rewrite c_not_m.
  - now rewrite all_chars_app; simpl; rewrite c_not_space, andb_false_r.
Qed.

(** No marker is found in a text whose last character is neither white
    space nor an [m]. *)
Lemma am_pm_search_none_last (x : string) :
  TimeParser.am_pm_search (x ++ String c "") = None.
Proof.
  induction x as [|a x IH]; rewrite am_pm_search_eq, match_here_none_last.
  - reflexivity.
  - cbn [append]. now rewrite IH.
Qed.

Lemma strip_colon_tail (h r x : string) :
  String ":" r = x ++ String c "" ->
  Str.strip (h ++ String ":" r)
  = Str.lstrip_with Str.is_space h ++ String ":" r.
Proof.
  intros Hr. unfold Str.strip.
  rewrite lstrip_app_stop by reflexivity.
  rewrite Hr, <- append_assoc. now apply rstrip_app_last.
Qed.

Lemma parse_time_colon_tail (h r x : string) :
  String ":" r = x ++ String c "" -> no_colon h ->
  TimeParser.parse_time (h ++ String ":" r)
  = TimeParser.time_of_parts None
      (Str.lstrip_with Str.is_space h :: Str.split ":" r).
Proof.
  intros Hr Hh. unfold TimeParser.parse_time.
  rewrite (strip_colon_tail h r x Hr), is_empty_app, andb_false_r.
  assert (Hnone : TimeParser.am_pm_search
                    (Str.lstrip_with Str.is_space h ++ String ":" r) = None)
    by (rewrite Hr, <- append_assoc; apply am_pm_search_none_last).
  rewrite Hnone, split_app_sep by now apply all_chars_lstrip.
  reflexivity.
Qed.

Lemma parse_duration_colon_tail (h r x : string) :
  String ":" r = x ++ String c "" -> no_colon h ->
  TimeParser.duration_components
    (Str.lstrip_with Str.is_space h :: Str.split ":" r) = None ->
  is_ok (TimeParser.parse_duration (h ++ String ":" r)) = false.
Proof.
  intros Hr Hh Hnone. unfold TimeParser.parse_duration.
  rewrite (strip_colon_tail h r x Hr), is_empty_app, andb_false_r.
  rewrite split_app_sep by now apply all_chars_lstrip.
  rewrite Hnone. now destruct (3 <? _)%nat.
Qed.

End NoMarker.

Lemma duration_components_empty_minute (y : string) (rest : list string) :
  TimeParser.duration_components (y :: "" :: rest) = None.
Proof.
  destruct rest as [|p2 rest]; cbn [TimeParser.duration_components];
    destruct (Str.int y); reflexivity.
Qed.

Lemma duration_components_empty_second (y m : string) (rest : list string) :
  TimeParser.duration_components (y :: m :: "" :: rest) = None.
Proof.
  cbn [TimeParser.duration_components].
  destruct (Str.int y), (Str.int m); reflexivity.
Qed.

Lemma time_of_parts_hour_only (n : Z) (rest : list string) :
  0 <= n < 24 ->
  rest = [""] \/ rest = [""; ""] ->
  TimeParser.time_of_parts None (Str.decimal n :: rest) = Ok (mkTime n 0 0).
Proof.
  intros Hn Hrest. unfold TimeParser.time_of_parts, TimeParser.time_components.
  destruct Hrest as [-> | ->]; cbn [List.length nth Nat.ltb Nat.leb Nat.eqb
    Str.is_empty negb andb]; rewrite int_decimal by lia;
    cbn [in_range Z.leb Z.ltb Z.compare negb orb andb]; unfold in_range;
    replace (0 <=? n) with true by (symmetry; apply Z.leb_le; lia);
    replace (n <? 24) with true by (symmetry; apply Z.ltb_lt; lia);
    reflexivity.
Qed.

(** A text of one of the shapes [h:], [h::], [h:m:] and [h::s] gets from
    [parse_time] the result of the text with "0" in the empty place, and
    is rejected by [parse_duration]. *)
Lemma empty_component_shapes (h m s : string) :
  no_colon h -> no_colon m ->
  Str.all_chars is_digit s = true -> Str.is_empty s = false ->
  (TimeParser.parse_time (h ++ ":") = TimeParser.parse_time (h ++ ":0")
   /\ TimeParser.parse_time (h ++ "::") = TimeParser.parse_time (h ++ ":0:0")
   /\ TimeParser.parse_time (h ++ ":" ++ m ++ ":")
      = TimeParser.parse_time (h ++ ":" ++ m ++ ":0")
   /\ TimeParser.parse_time (h ++ "::" ++ s)
      = TimeParser.parse_time (h ++ ":0:" ++ s))
  /\ (is_ok (TimeParser.parse_duration (h ++ ":")) = false
      /\ is_ok (TimeParser.parse_duration (h ++ "::")) = false
      /\ is_ok (TimeParser.parse_duration (h ++ ":" ++ m ++ ":")) = false
      /\ is_ok (TimeParser.parse_duration (h ++ "::" ++ s)) = false)
  /\ (forall n : Z,
        0 <= n < 24 ->
        TimeParser.parse_time (Str.decimal n ++ ":") = Ok (mkTime n 0 0)
        /\ TimeParser.parse_time (Str.decimal n ++ "::") = Ok (mkTime n 0 0))
  /\ TimeParser.parse_time "9:" = Ok (mkTime 9 0 0)
  /\ TimeParser.parse_time "9::" = Ok (mkTime 9 0 0)
  /\ TimeParser.parse_duration "9:"
     = ValueError "Non-numeric duration component"
  /\ TimeParser.parse_duration "9::"
     = ValueError "Non-numeric duration component".
Proof.
  intros Hh Hm Hs Hne.
  destruct (string_last s Hne) as (s' & d & ->).
  assert (Hd : is_digit d = true).
  { rewrite all_chars_app in Hs. apply andb_true_iff in Hs as [_ Hd].
    simpl in Hd. now rewrite andb_true_r in Hd. }
  pose proof (digits_no_colon _ Hs) as Hns.
  destruct (is_digit_plain d Hd) as (Hdsp & _).
  pose proof (is_digit_not_m d Hd) as Hdm.
  set (y := Str.lstrip_with Str.is_space h).
  (* the parts of each text *)
  assert (Pc : forall r x, String ":" r = x ++ ":" ->
             TimeParser.parse_time (h ++ String ":" r)
             = TimeParser.time_of_parts None (y :: Str.split ":" r))
    by (intros r x Hr;
        now apply (parse_time_colon_tail ":" eq_refl eq_refl h r x)).
  assert (P0 : forall r x, String ":" r = x ++ "0" ->
             TimeParser.parse_time (h ++ String ":" r)
             = TimeParser.time_of_parts None (y :: Str.split ":" r))
    by (intros r x Hr;
        now apply (parse_time_colon_tail "0" eq_refl eq_refl h r x)).
  assert (Pd : forall r x, String ":" r = x ++ String d "" ->
             TimeParser.parse_time (h ++ String ":" r)
             = TimeParser.time_of_parts None (y :: Str.split ":" r))
    by (intros r x Hr; now apply (parse_time_colon_tail d Hdsp Hdm h r x)).
  assert (Sm1 : Str.split ":" (m ++ ":") = [m; ""])
    by (now rewrite (split_app_sep ":" m "" Hm)).
  assert (Sm2 : Str.split ":" (m ++ ":0") = [m; "0"])
    by (now rewrite (split_app_sep ":" m "0" Hm)).
  assert (Ss1 : Str.split ":" (String ":" (s' ++ String d ""))
                = [""; s' ++ String d ""])
    by (change (String ":" (s' ++ String d ""))
          with ("" ++ String ":" (s' ++ String d ""));
        now rewrite (split_app_sep ":" "" _ eq_refl), (split_no_sep ":" _ Hns)).
  assert (Ss2 : Str.split ":" (String "0" (String ":" (s' ++ String d "")))
                = ["0"; s' ++ String d ""])
    by (change (String "0" (String ":" (s' ++ String d "")))
          with ("0" ++ String ":" (s' ++ String d ""));
        now rewrite (split_app_sep ":" "0" _ eq_refl), (split_no_sep ":" _ Hns)).
  split; [|split; [|split]].
  - repeat split.
    + rewrite (Pc "" "" eq_refl), (P0 "0" ":" eq_refl). reflexivity.
    + rewrite (Pc ":" ":" eq_refl), (P0 "0:0" ":0:" eq_refl). reflexivity.
    + change (h ++ ":" ++ m ++ ":") with (h ++ String ":" (m ++ ":")).
      change (h ++ ":" ++ m ++ ":0") with (h ++ String ":" (m ++ ":0")).
      rewrite (Pc (m ++ ":") (String ":" m) eq_refl).
      rewrite (P0 (m ++ ":0") (String ":" (m ++ ":")))
        by (simpl; now rewrite append_assoc).
      rewrite Sm1, Sm2. reflexivity.
    + change (h ++ "::" ++ s' ++ String d "")
        with (h ++ String ":" (String ":" (s' ++ String d ""))).
      change (h ++ ":0:" ++ s' ++ String d "")
        with (h ++ String ":" (String "0" (String ":" (s' ++ String d "")))).
      rewrite (Pd (String ":" (s' ++ String d ""))
                 (String ":" (String ":" s')) eq_refl).
      rewrite (Pd (String "0" (String ":" (s' ++ String d "")))
                 (String ":" (String "0" (String ":" s'))) eq_refl).
      rewrite Ss1, Ss2. reflexivity.
  - repeat split.
    + apply (parse_duration_colon_tail ":" eq_refl h "" "" eq_refl Hh).
      apply duration_components_empty_minute.
    + apply (parse_duration_colon_tail ":" eq_refl h ":" ":" eq_refl Hh).
      apply duration_components_empty_minute.
    + change (h ++ ":" ++ m ++ ":") with (h ++ String ":" (m ++ ":")).
      apply (parse_duration_colon_tail ":" eq_refl h (m ++ ":") (String ":" m)
               eq_refl Hh).
      rewrite Sm1. apply duration_components_empty_second.
    + change (h ++ "::" ++ s' ++ String d "")
        with (h ++ String ":" (String ":" (s' ++ String d ""))).
      apply (parse_duration_colon_tail d Hdsp h
               (String ":" (s' ++ String d "")) (String ":" (String ":" s'))
               eq_refl Hh).
      rewrite Ss1. apply duration_components_empty_minute.
  - intros n Hn.
    pose proof (decimal_all_digits n (proj1 Hn)) as Hdig.
    assert (Hstrip : Str.lstrip_with Str.is_space (Str.decimal n)
                     = Str.decimal n).
    { apply lstrip_with_none. revert Hdig. apply all_chars_impl.
      intros c Hc. now destruct (is_digit_plain c Hc) as (-> & _). }
    split.
    + rewrite (parse_time_colon_tail ":" eq_refl eq_refl _ "" "" eq_refl
                 (digits_no_colon _ Hdig)), Hstrip.
      apply time_of_parts_hour_only; auto.
    + rewrite (parse_time_colon_tail ":" eq_refl eq_refl _ ":" ":" eq_refl
                 (digits_no_colon _ Hdig)), Hstrip.
      apply time_of_parts_hour_only; auto.
  - repeat split; reflexivity.
Qed.

(** ** Durations with a letter or an empty component *)

Section LastCharacter.
Variable c : ascii.
Hypothesis c_not_digit : Str.digit_of c = None.
Hypothesis c_not_underscore : Ascii.eqb c "_" = false.
Hypothesis c_not_int_space : Str.is_int_space c = false.
Hypothesis c_not_colon : Ascii.eqb c ":" = false.

Lemma int_digits_none_last (x : string) (acc : Z) (prev : bool) :
  Str.int_digits (x ++ String c "") acc prev = None.
Proof.
  revert acc prev. induction x as [|a x IH]; intros acc prev; simpl.
  - now rewrite c_not_underscore, c_not_digit.
  - destruct (Ascii.eqb a "_"); [destruct prev; [apply IH | reflexivity]|].
    destruct (Str.digit_of a); [apply IH | reflexivity].
Qed.

(** [int] rejects a text whose last character is such a character. *)
Lemma int_none_last (x : string) : Str.int (x ++ String c "") = None.
Proof.
  unfold Str.int.
  rewrite lstrip_app_stop, rstrip_app_last by exact c_not_int_space.
  destruct (Str.lstrip_with Str.is_int_space x) as [|a y]; cbn [append].
  - destruct (Ascii.eqb c "-"); [reflexivity|].
    destruct (Ascii.eqb c "+"); [reflexivity|].
    apply (int_digits_none_last "").
  - destruct (Ascii.eqb a "-");
      [now rewrite int_digits_none_last|].
    destruct (Ascii.eqb a "+"); [apply int_digits_none_last|].
    apply (int_digits_none_last (String a y)).
Qed.

Lemma split_last (x : string) :
  exists (init : list string) (l : string),
    Str.split ":" (x ++ String c "")
    = (init ++ [(l ++ String c "")%string])%list.
Proof.
  induction x as [|a x (init & l & IH)].
  - exists [], "". simpl. now rewrite c_not_colon.
  - cbn [append Str.split]. rewrite IH. destruct (Ascii.eqb a ":").
    + now exists ("" :: init)%list, l.
    + destruct init as [|i0 init]; cbn [app].
      * now exists [], (String a l).
      * now exists (String a i0 :: init)%list, l.
Qed.

Lemma parse_duration_last (text x : string) :
  Str.strip text = x ++ String c "" ->
  is_ok (TimeParser.parse_duration text) = false.
Proof.
  intros Hs. unfold TimeParser.parse_duration. rewrite Hs.
  rewrite is_empty_app, andb_false_r.
  destruct (split_last x) as (init & l & ->).
  pose proof (int_none_last l) as Hl.
  destruct init as [|p0 [|p1 [|p2 init]]];
    cbn [app List.length Nat.ltb Nat.leb TimeParser.duration_components].
  - now rewrite Hl.
  - rewrite Hl. now destruct (Str.int p0).
  - rewrite Hl. now destruct (Str.int p0), (Str.int p1).
  - rewrite length_app. cbn [List.length].
    now replace (List.length init + 1)%nat with (S (List.length init)) by lia.
Qed.

End LastCharacter.

Lemma duration_components_empty (parts : list string) :
  empty_component parts -> (List.length parts <= 3)%nat ->
  TimeParser.duration_components parts = None.
Proof.
  unfold empty_component. intros Hempty Hlen.
  destruct parts as [|p0 [|p1 [|p2 [|p3 r]]]];
    cbn [List.length nth] in *; try lia.
  - destruct Hempty as [[_ ->]|[H _]]; [|lia].
    apply duration_components_empty_minute.
  - destruct Hempty as [[_ ->]|[_ ->]].
    + apply duration_components_empty_minute.
    + apply duration_components_empty_second.
Qed.

(** [parse_duration] rejects a text that ends with a marker, and a text
    with an empty minute or second component. *)
Lemma parse_duration_empty_component (text : string) :
  empty_component (time_text_parts text)
  \/ empty_component (Str.split ":" (Str.strip text)) ->
  is_ok (TimeParser.parse_duration text) = false.
Proof.
  unfold time_text_parts, marker_split.
  assert (Hplain : empty_component (Str.split ":" (Str.strip text)) ->
                   is_ok (TimeParser.parse_duration text) = false).
  { intros Hempty. unfold TimeParser.parse_duration.
    destruct (Str.is_empty (Str.strip text)); [reflexivity|].
    destruct (3 <? _)%nat eqn:Elen; [reflexivity|].
    apply Nat.ltb_ge in Elen.
    now rewrite (duration_components_empty _ Hempty Elen). }
  intros [Hempty|Hempty]; [|exact (Hplain Hempty)]. revert Hempty.
  destruct (last_two (Str.strip text)) as [[pre mk]|] eqn:Elast;
    [|exact Hplain].
  destruct (marker_text mk) as [g|] eqn:Emk; [|exact Hplain].
  intros _. apply last_two_some in Elast.
  destruct (marker_text_chars mk g Emk) as (c1 & c2 & -> & _ & _ & Hg).
  unfold TimeParser.marker_of in Hg.
  destruct (Ascii.eqb (Str.lower c2) "m") eqn:E2; [|discriminate Hg].
  change (String c1 (String c2 "")) with (String c1 "" ++ String c2 "")
    in Elast.
  rewrite <- append_assoc in Elast.
  destruct (lower_m c2 E2) as [-> | ->].
  - exact (parse_duration_last "m" eq_refl eq_refl eq_refl eq_refl _ _ Elast).
  - exact (parse_duration_last "M" eq_refl eq_refl eq_refl eq_refl _ _ Elast).
Qed.

Lemma denotes_empty_component (ampm : option TimeParser.ampm)
    (parts : list string) (t : time) :
  denotes ampm parts t ->
  (nth 1 parts "" = "" -> minute t = 0)
  /\ (nth 2 parts "" = "" -> second t = 0).
Proof.
  intros (_ & hh & mm & ss & _ & Hm & Hs & _ & _ & Ht).
  assert (Et : minute t = mm /\ second t = ss)
    by (destruct ampm; destruct Ht as [_ ->]; split; reflexivity).
  destruct Et as [-> ->].
  split; intros E; [rewrite E in Hm | rewrite E in Hs]; cbn in *; congruence.
Qed.

Lemma hour_colons_plain (n : Z) :
  0 <= n ->
  (Str.strip (Str.decimal n ++ ":") = Str.decimal n ++ ":"
   /\ Str.split ":" (Str.decimal n ++ ":") = [Str.decimal n; ""])
  /\ (Str.strip (Str.decimal n ++ "::") = Str.decimal n ++ "::"
      /\ Str.split ":" (Str.decimal n ++ "::") = [Str.decimal n; ""; ""]).
Proof.
  intros Hn. pose proof (decimal_all_digits n Hn) as Hd.
  assert (Hplain : Str.all_chars (fun c => negb (Str.is_space c))
                     (Str.decimal n) = true).
  { revert Hd. apply all_chars_impl.
    intros c Hc. now destruct (is_digit_plain c Hc) as (-> & _). }
  pose proof (digits_no_colon _ Hd) as Hnc.
  repeat split.
  - apply strip_plain. now rewrite all_chars_app, Hplain.
  - now rewrite (split_app_sep ":" _ "" Hnc).
  - apply strip_plain. now rewrite all_chars_app, Hplain.
  - now rewrite (split_app_sep ":" _ ":" Hnc).
Qed.

(** C10, as it holds.  Whatever the text, with or without a marker and
    white space, when a minute or second component of it is there and
    empty (among the components before the marker, or among those of the
    whole text) [parse_time] reads that component as 0: the text is
    accepted exactly when the hour and the components given are valid,
    and the time returned has 0 for each empty component; so an hour
    followed by ":" or "::" is accepted ("9:" is 09:00:00, "9::30 pm" is
    21:00:30), and a text of the shapes [h:], [h::], [h:m:], [h::s] gets
    the result of the text with "0" in the empty place.  [parse_duration]
    rejects every such text. *)
Theorem parse_time_empty_component_is_zero :
  (forall text : string,
      let ampm := fst (marker_split text) in
      let parts := time_text_parts text in
      empty_component parts
      \/ empty_component (Str.split ":" (Str.strip text)) ->
      (forall t : time,
          TimeParser.parse_time text = Ok t <-> denotes ampm parts t)
      /\ (forall t : time,
            TimeParser.parse_time text = Ok t ->
            (nth 1 parts "" = "" -> minute t = 0)
            /\ (nth 2 parts "" = "" -> second t = 0))
      /\ is_ok (TimeParser.parse_duration text) = false)
  /\ (forall (body w1 mk w2 : string) (g : TimeParser.ampm),
        Str.all_chars Str.is_space w1 = true ->
        Str.all_chars Str.is_space w2 = true ->
        marker_text mk = Some g ->
        marker_split (body ++ w1 ++ mk ++ w2) = (Some g, Str.strip body))
  /\ (forall h m s : string,
        no_colon h -> no_colon m ->
        Str.all_chars is_digit s = true -> Str.is_empty s = false ->
        (TimeParser.parse_time (h ++ ":") = TimeParser.parse_time (h ++ ":0")
         /\ TimeParser.parse_time (h ++ "::")
            = TimeParser.parse_time (h ++ ":0:0")
         /\ TimeParser.parse_time (h ++ ":" ++ m ++ ":")
            = TimeParser.parse_time (h ++ ":" ++ m ++ ":0")
         /\ TimeParser.parse_time (h ++ "::" ++ s)
            = TimeParser.parse_time (h ++ ":0:" ++ s))
        /\ (is_ok (TimeParser.parse_duration (h ++ ":")) = false
            /\ is_ok (TimeParser.parse_duration (h ++ "::")) = false
            /\ is_ok (TimeParser.parse_duration (h ++ ":" ++ m ++ ":")) = false
            /\ is_ok (TimeParser.parse_duration (h ++ "::" ++ s)) = false))
  /\ (forall n : Z,
        0 <= n < 24 ->
        TimeParser.parse_time (Str.decimal n ++ ":") = Ok (mkTime n 0 0)
        /\ TimeParser.parse_time (Str.decimal n ++ "::") = Ok (mkTime n 0 0))
  /\ (forall (n : Z) (w1 mk w2 : string) (g : TimeParser.ampm),
        1 <= n <= 12 ->
        Str.all_chars Str.is_space w1 = true ->
        Str.all_chars Str.is_space w2 = true ->
        marker_text mk = Some g ->
        TimeParser.parse_time ((Str.decimal n ++ ":") ++ w1 ++ mk ++ w2)
        = Ok (mkTime (hour_of_12 g n) 0 0)
        /\ TimeParser.parse_time ((Str.decimal n ++ "::") ++ w1 ++ mk ++ w2)
           = Ok (mkTime (hour_of_12 g n) 0 0))
  /\ TimeParser.parse_time "9:" = Ok (mkTime 9 0 0)
  /\ TimeParser.parse_time "9::" = Ok (mkTime 9 0 0)
  /\ TimeParser.parse_duration "9:"
     = ValueError "Non-numeric duration component"
  /\ TimeParser.parse_duration "9::"
     = ValueError "Non-numeric duration component"
  /\ (marker_split "9::30 pm" = (Some TimeParser.PM, "9::30")
      /\ time_text_parts "9::30 pm" = ["9"; ""; "30"]
      /\ TimeParser.parse_time "9::30 pm" = Ok (mkTime 21 0 30)
      /\ TimeParser.parse_duration "9::30 pm"
         = ValueError "Non-numeric duration component")
  /\ (marker_split "9:: 30" = (None, "9:: 30")
      /\ time_text_parts "9:: 30" = ["9"; ""; " 30"]
      /\ TimeParser.parse_time "9:: 30" = Ok (mkTime 9 0 30)
      /\ TimeParser.parse_duration "9:: 30"
         = ValueError "Non-numeric duration component")
  /\ (time_text_parts " 12: AM " = ["12"; ""]
      /\ TimeParser.parse_time " 12: AM " = Ok (mkTime 0 0 0)
      /\ TimeParser.parse_duration " 12: AM "
         = ValueError "Non-numeric duration component").
Proof.
  split; [|split; [|split; [|split; [|split]]]].
  - intros text ampm parts Hempty. split; [|split].
    + intros t. apply parse_time_denotes.
    + intros t Ht. apply parse_time_denotes in Ht.
      exact (denotes_empty_component _ _ _ Ht).
    + now apply parse_duration_empty_component.
  - exact marker_split_marker.
  - intros h m s Hh Hm Hs Hne.
    destruct (empty_component_shapes h m s Hh Hm Hs Hne) as (H1 & H2 & _).
    split; assumption.
  - exact (proj1 (proj2 (proj2 (empty_component_shapes "" "" "0"
                                  eq_refl eq_refl eq_refl eq_refl)))).
  - intros n w1 mk w2 g Hn Hw1 Hw2 Hmk.
    destruct (hour_colons_plain n ltac:(lia)) as [[S1 P1] [S2 P2]].
    destruct (marker_text_chars mk g Hmk) as (c1 & c2 & -> & Hc1 & Hc2 & Hg).
    rewrite !(parse_time_marker c1 c2 g Hc1 Hc2 Hg _ w1 w2 Hw1 Hw2).
    rewrite S1, S2, P1, P2.
    split; apply time_of_parts_denotes; (split; [simpl; lia|]);
      exists n, 0, 0; cbn [nth]; rewrite int_decimal by lia;
      (repeat (split; [first [reflexivity | lia]|])); reflexivity.
  - repeat split; reflexivity.
Qed.

Lemma parse_time_empty_component_is_zero_witness :
  ((forall t : time,
       TimeParser.parse_time " 9::30  Pm "  = Ok t
       <-> denotes (fst (marker_split " 9::30  Pm "))
             (time_text_parts " 9::30  Pm ") t)
   /\ (forall t : time,
         TimeParser.parse_time " 9::30  Pm " = Ok t ->
         (nth 1 (time_text_parts " 9::30  Pm ") "" = "" -> minute t = 0)
         /\ (nth 2 (time_text_parts " 9::30  Pm ") "" = ""
             -> second t = 0))
   /\ is_ok (TimeParser.parse_duration " 9::30  Pm ") = false)
  /\ TimeParser.parse_time ("7" ++ "::" ++ "30")
     = TimeParser.parse_time ("7" ++ ":0:" ++ "30")
  /\ TimeParser.parse_time ((Str.decimal 11 ++ ":") ++ " " ++ "pM" ++ "")
     = Ok (mkTime (hour_of_12 TimeParser.PM 11) 0 0).
Proof.
  pose (H := parse_time_empty_component_is_zero).
  split; [|split].
  - apply (proj1 H " 9::30  Pm ").
    left. left. split; [vm_compute; lia | reflexivity].
  - exact (proj2 (proj2 (proj2 (proj1
             (proj1 (proj2 (proj2 H)) "7" "15" "30"
                eq_refl eq_refl eq_refl eq_refl))))).
  - exact (proj1 (proj1 (proj2 (proj2 (proj2 (proj2 H))))
                    11 " " "pM" "" TimeParser.PM
                    ltac:(lia) eq_refl eq_refl eq_refl)).
Defined.

(** C10 as it is worded fails on "25:": its minute component is empty,
    and [parse_time] rejects it for its hour. *)
Lemma parse_time_empty_minute_rejected :
  Str.split ":" (Str.strip "25:") = ["25"; ""]
  /\ TimeParser.parse_time "25:"
     = ValueError "Hour out of range for 24-hour time".
Proof. split; reflexivity. Qed.

(** ** Parsed times are times of day *)

Lemma time_of_parts_wf (ampm : option TimeParser.ampm) (parts : list string)
    (t : time) :
  TimeParser.time_of_parts ampm parts = Ok t -> Datetime.time_wf t.
Proof.
  unfold TimeParser.time_of_parts, Datetime.time_wf.
  destruct (3 <? _)%nat; [discriminate|].
  destruct (TimeParser.time_components parts) as [[[hh mm] ss]|];
    [|discriminate].
  destruct (negb (in_range mm 0 60) || negb (in_range ss 0 60)) eqn:E;
    [discriminate|].
  apply orb_false_iff in E as [Em Es]. apply negb_false_iff in Em, Es.
  unfold in_range in Em, Es.
  apply andb_true_iff in Em as [Em1 Em2], Es as [Es1 Es2].
  apply Z.leb_le in Em1, Es1. apply Z.ltb_lt in Em2, Es2.
  destruct ampm as [g|].
  - destruct (negb (in_range hh 1 13)) eqn:Eh; [discriminate|].
    apply negb_false_iff in Eh. unfold in_range in Eh.
    apply andb_true_iff in Eh as [Eh1 Eh2].
    apply Z.leb_le in Eh1. apply Z.ltb_lt in Eh2.
    intros [= <-]; simpl.
    destruct g; destruct (hh =? 12) eqn:E12;
      try apply Z.eqb_neq in E12; lia.
  - destruct (negb (in_range hh 0 24)) eqn:Eh; [discriminate|].
    apply negb_false_iff in Eh. unfold in_range in Eh.
    apply andb_true_iff in Eh as [Eh1 Eh2].
    apply Z.leb_le in Eh1. apply Z.ltb_lt in Eh2.
    intros [= <-]; simpl. lia.
Qed.

Lemma parse_time_wf (text : string) (t : time) :
  TimeParser.parse_time text = Ok t -> Datetime.time_wf t.
Proof.
  unfold TimeParser.parse_time.
  destruct (Str.is_empty _); [discriminate|].
  destruct (TimeParser.am_pm_search _) as [[pre g]|];
    apply time_of_parts_wf.
Qed.

(** * Further properties of the code *)

(** ** The parsers *)

(** X1.  A time that [parse_time] returns is a time of day: hour 0-23,
    minute and second 0-59, with or without a marker in the text. *)
Theorem parse_time_time_of_day (text : string) (t : time) :
  TimeParser.parse_time text = Ok t ->
  0 <= hour t < 24 /\ 0 <= minute t < 60 /\ 0 <= second t < 60.
Proof.
  intros H. exact (parse_time_wf text t H).
Qed.

Lemma parse_time_time_of_day_witness :
  0 <= hour (mkTime 23 59 1) < 24 /\ 0 <= minute (mkTime 23 59 1) < 60
  /\ 0 <= second (mkTime 23 59 1) < 60.
Proof.
  exact (parse_time_time_of_day "11:59:01 PM" (mkTime 23 59 1) eq_refl).
Defined.

Lemma strip_surround (w1 s w2 : string) :
  Str.all_chars Str.is_space w1 = true ->
  Str.all_chars Str.is_space w2 = true ->
  Str.strip (w1 ++ s ++ w2) = Str.strip s.
Proof.
  intros H1 H2. rewrite <- (strip_app_space s w2 H2).
  unfold Str.strip. now rewrite lstrip_app_all.
Qed.

(** X2.  White space around a text never matters to the two parsers. *)
Theorem parsers_ignore_surrounding_space (w1 text w2 : string) :
  Str.all_chars Str.is_space w1 = true ->
  Str.all_chars Str.is_space w2 = true ->
  TimeParser.parse_time (w1 ++ text ++ w2) = TimeParser.parse_time text
  /\ TimeParser.parse_duration (w1 ++ text ++ w2)
     = TimeParser.parse_duration text.
Proof.
  intros H1 H2. unfold TimeParser.parse_time, TimeParser.parse_duration.
  now rewrite (strip_surround w1 text w2 H1 H2).
Qed.

Lemma parsers_ignore_surrounding_space_witness :
  TimeParser.parse_time (" " ++ "9:15 pm" ++ "  ")
  = TimeParser.parse_time "9:15 pm"
  /\ TimeParser.parse_duration (" " ++ "9:15 pm" ++ "  ")
     = TimeParser.parse_duration "9:15 pm".
Proof.
  exact (parsers_ignore_surrounding_space " " "9:15 pm" "  " eq_refl eq_refl).
Defined.

Lemma two_digits_last (n : Z) :
  0 <= n ->
  exists (x : string) (c : ascii),
    two_digits n = x ++ String c "" /\ is_digit c = true.
Proof.
  intros Hn.
  destruct (string_last _ (two_digits_nonempty n)) as (x & c & E).
  exists x, c. split; [exact E|].
  pose proof (two_digits_all_digits n Hn) as Hd.
  rewrite E, all_chars_app in Hd. apply andb_true_iff in Hd as [_ Hd].
  simpl in Hd. now rewrite andb_true_r in Hd.
Qed.

Lemma parse_time_canonical (h m s : Z) :
  0 <= h < 24 -> 0 <= m < 60 -> 0 <= s < 60 ->
  TimeParser.parse_time (canonical_hms h m s) = Ok (mkTime h m s).
Proof.
  intros Hh Hm Hs. unfold TimeParser.parse_time.
  rewrite (strip_plain _ (canonical_hms_plain h m s (proj1 Hh) (proj1 Hm)
                            (proj1 Hs))).
  assert (Hne : Str.is_empty (canonical_hms h m s) = false)
    by (unfold canonical_hms; now rewrite is_empty_app, two_digits_nonempty).
  rewrite Hne.
  assert (Hnone : TimeParser.am_pm_search (canonical_hms h m s) = None).
  { destruct (two_digits_last s (proj1 Hs)) as (x & c & E & Hc).
    unfold canonical_hms. rewrite E, <- !append_assoc.
    apply am_pm_search_none_last.
    - now destruct (is_digit_plain c Hc) as (-> & _).
    - now apply is_digit_not_m. }
  rewrite Hnone, split_canonical_hms by lia.
  unfold TimeParser.time_of_parts, TimeParser.time_components.
  cbn [List.length nth Nat.ltb Nat.leb Nat.eqb].
  rewrite !two_digits_nonempty, !int_two_digits by lia.
  cbn [negb andb]. unfold in_range.
  replace (0 <=? m) with true by (symmetry; apply Z.leb_le; lia).
  replace (m <? 60) with true by (symmetry; apply Z.ltb_lt; lia).
  replace (0 <=? s) with true by (symmetry; apply Z.leb_le; lia).
  replace (s <? 60) with true by (symmetry; apply Z.ltb_lt; lia).
  replace (0 <=? h) with true by (symmetry; apply Z.leb_le; lia).
  replace (h <? 24) with true by (symmetry; apply Z.ltb_lt; lia).
  reflexivity.
Qed.

Lemma strftime_canonical (dt : datetime) :
  Datetime.wf dt ->
  Datetime.strftime_HMS dt
  = canonical_hms (hour (dt_time dt)) (minute (dt_time dt))
      (second (dt_time dt)).
Proof.
  intros (Hh & Hm & Hs). unfold Datetime.strftime_HMS, canonical_hms.
  now rewrite !format_02d_two_digits by lia.
Qed.

(** X3.  [parse_time] reads back what [strftime('%H:%M:%S')] writes: the
    text of a moment parses to its time of day. *)
Theorem parse_time_strftime (dt : datetime) :
  Datetime.wf dt ->
  TimeParser.parse_time (Datetime.strftime_HMS dt) = Ok (dt_time dt).
Proof.
  intros Hwf. rewrite (strftime_canonical dt Hwf).
  destruct Hwf as (Hh & Hm & Hs).
  rewrite parse_time_canonical by assumption.
  now destruct (dt_time dt).
Qed.

Lemma parse_time_strftime_witness :
  TimeParser.parse_time
    (Datetime.strftime_HMS (mkDatetime 739621 (mkTime 7 5 9)))
  = Ok (mkTime 7 5 9).
Proof.
  refine (parse_time_strftime (mkDatetime 739621 (mkTime 7 5 9)) _).
  unfold Datetime.wf, Datetime.time_wf; simpl. lia.
Defined.

Lemma format_hms_nonneg (d : Z) :
  0 <= d ->
  TimeParser.format_hms d
  = canonical_hms (d / 3600) ((d mod 3600) / 60) (d mod 60).
Proof.
  intros Hd. unfold TimeParser.format_hms, canonical_hms.
  replace (d <? 0) with false by (symmetry; apply Z.ltb_ge; lia).
  rewrite Z.abs_eq by lia.
  pose proof (Z.mod_pos_bound d 3600 ltac:(lia)).
  pose proof (Z.mod_pos_bound d 60 ltac:(lia)).
  rewrite !format_02d_two_digits; try lia; try (apply Z.div_pos; lia).
  reflexivity.
Qed.

Lemma hms_of_seconds (d : Z) :
  d / 3600 * 3600 + d mod 3600 / 60 * 60 + d mod 60 = d.
Proof.
  pose proof (Z.div_mod d 3600 ltac:(lia)) as H1.
  pose proof (Z.div_mod (d mod 3600) 60 ltac:(lia)) as H2.
  assert (H3 : (d mod 3600) mod 60 = d mod 60)
    by (apply Z.mod_mod_divide; exists 60; reflexivity).
  lia.
Qed.

Lemma hms_ranges (d : Z) :
  0 <= d ->
  0 <= d / 3600 /\ 0 <= d mod 3600 / 60 < 60 /\ 0 <= d mod 60 < 60.
Proof.
  intros Hd.
  pose proof (Z.mod_pos_bound d 3600 ltac:(lia)) as H1.
  pose proof (Z.mod_pos_bound d 60 ltac:(lia)) as H2.
  split; [apply Z.div_pos; lia|]. split; [|lia].
  split; [apply Z.div_pos; lia|].
  apply Z.div_lt_upper_bound; lia.
Qed.

(** X4.  [parse_duration] reads back what [format_hms] writes for a
    non-negative number of seconds, however many hours it holds. *)
Theorem parse_duration_format_hms (d : Z) :
  0 <= d -> TimeParser.parse_duration (TimeParser.format_hms d) = Ok d.
Proof.
  intros Hd. rewrite format_hms_nonneg by exact Hd.
  destruct (hms_ranges d Hd) as (Hh & Hm & Hs).
  rewrite parse_duration_canonical by assumption.
  now rewrite hms_of_seconds.
Qed.

Lemma parse_duration_format_hms_witness :
  TimeParser.parse_duration (TimeParser.format_hms 360061) = Ok 360061.
Proof.
  exact (parse_duration_format_hms 360061 ltac:(lia)).
Defined.

Lemma int_digits_two_digits (n : Z) :
  0 <= n -> Str.int_digits (two_digits n) 0 false = Some n.
Proof.
  intros Hn. pose proof (int_two_digits n Hn) as H.
  rewrite int_of_digits in H by now apply two_digits_all_digits.
  pose proof (two_digits_nonempty n) as Hne.
  now destruct (two_digits n).
Qed.

Lemma int_minus_two_digits (n : Z) :
  0 <= n -> Str.int (String "-" (two_digits n)) = Some (- n).
Proof.
  intros Hn. unfold Str.int.
  assert (Hplain : Str.all_chars (fun c => negb (Str.is_int_space c))
                     (String "-" (two_digits n)) = true).
  { simpl. apply (all_chars_impl is_digit); [|now apply two_digits_all_digits].
    intros c Hc. now destruct (is_digit_plain c Hc) as (_ & -> & _). }
  rewrite (lstrip_with_none _ _ Hplain), (rstrip_with_none _ _ Hplain).
  cbn [Ascii.eqb Bool.eqb]. rewrite int_digits_two_digits by exact Hn.
  reflexivity.
Qed.

(** X5.  [format_hms] marks a negative number of seconds with "-", and
    [parse_duration] does not read that text back: under one hour the
    sign is lost (the hours read as [-0]), from one hour on the text is
    rejected for its negative hours. *)
Theorem parse_duration_format_hms_negative (d : Z) :
  d < 0 ->
  TimeParser.format_hms d = String "-" (TimeParser.format_hms (- d))
  /\ (- 3600 < d -> TimeParser.parse_duration (TimeParser.format_hms d)
                    = Ok (- d))
  /\ (d <= - 3600 -> TimeParser.parse_duration (TimeParser.format_hms d)
                     = ValueError "Invalid duration values").
Proof.
  intros Hd.
  assert (Hfmt : TimeParser.format_hms d
                 = String "-" (TimeParser.format_hms (- d))).
  { unfold TimeParser.format_hms.
    replace (d <? 0) with true by (symmetry; apply Z.ltb_lt; lia).
    replace (- d <? 0) with false by (symmetry; apply Z.ltb_ge; lia).
    now rewrite Z.abs_opp. }
  split; [exact Hfmt|].
  set (h := - d / 3600). set (m := - d mod 3600 / 60). set (s := - d mod 60).
  destruct (hms_ranges (- d) ltac:(lia)) as (Hh & Hm & Hs).
  fold h m s in Hh, Hm, Hs.
  pose proof (hms_of_seconds (- d)) as Hsum. fold h m s in Hsum.
  assert (Hparse : TimeParser.parse_duration (TimeParser.format_hms d)
                   = if - h <? 0 then ValueError "Invalid duration values"
                     else Ok (- h * 3600 + m * 60 + s)).
  { rewrite Hfmt, format_hms_nonneg by lia. fold h m s.
    unfold TimeParser.parse_duration.
    assert (Hplain : Str.all_chars (fun c => negb (Str.is_space c))
                       (String "-" (canonical_hms h m s)) = true)
      by (simpl; apply canonical_hms_plain; lia).
    rewrite (strip_plain _ Hplain). cbn [Str.is_empty].
    unfold canonical_hms.
    change (String "-" (two_digits h ++ ":" ++ two_digits m ++ ":"
                        ++ two_digits s))
      with (String "-" (two_digits h)
            ++ String ":" (two_digits m ++ String ":" (two_digits s))).
    rewrite (split_app_sep ":" (String "-" (two_digits h)))
      by (simpl; apply digits_no_colon, two_digits_all_digits; lia).
    rewrite (split_app_sep ":" (two_digits m))
      by (apply digits_no_colon, two_digits_all_digits; lia).
    rewrite (split_no_sep ":" (two_digits s))
      by (apply digits_no_colon, two_digits_all_digits; lia).
    cbn [List.length Nat.ltb Nat.leb TimeParser.duration_components].
    rewrite int_minus_two_digits, !int_two_digits by lia.
    unfold in_range.
    replace (0 <=? m) with true by (symmetry; apply Z.leb_le; lia).
    replace (m <? 60) with true by (symmetry; apply Z.ltb_lt; lia).
    replace (0 <=? s) with true by (symmetry; apply Z.leb_le; lia).
    replace (s <? 60) with true by (symmetry; apply Z.ltb_lt; lia).
    cbn [negb orb andb]. now rewrite !orb_false_r. }
  split; intros Hrange; rewrite Hparse.
  - assert (h = 0) by (apply Z.div_small; lia).
    replace (- h <? 0) with false by (symmetry; apply Z.ltb_ge; lia).
    f_equal. lia.
  - assert (1 <= h) by (apply Z.div_le_lower_bound; lia).
    replace (- h <? 0) with true by (symmetry; apply Z.ltb_lt; lia).
    reflexivity.
Qed.

Lemma parse_duration_format_hms_negative_witness :
  TimeParser.parse_duration (TimeParser.format_hms (- 5)) = Ok (- - 5).
Proof.
  exact (proj1 (proj2 (parse_duration_format_hms_negative (- 5) ltac:(lia)))
           ltac:(lia)).
Defined.

(** ** Counting separators *)

Lemma split_length (sep : ascii) (s : string) :
  List.length (Str.split sep s) = S (count_char sep s).
Proof.
  induction s as [|a s IH]; simpl; [reflexivity|].
  destruct (Ascii.eqb a sep); simpl; [now rewrite IH|].
  destruct (Str.split sep s); simpl in *; lia.
Qed.

Lemma count_char_all (p : ascii -> bool) (c : ascii) (s : string) :
  p c = false -> Str.all_chars p s = true -> count_char c s = 0%nat.
Proof.
  intros Hc. induction s as [|a s IH]; simpl; [reflexivity|].
  rewrite andb_true_iff. intros [Ha Hs].
  destruct (Ascii.eqb_spec a c) as [->|_]; [congruence|]. now apply IH.
Qed.

Lemma count_char_lstrip (p : ascii -> bool) (c : ascii) (s : string) :
  p c = false -> count_char c (Str.lstrip_with p s) = count_char c s.
Proof.
  intros Hc. induction s as [|a s IH]; simpl; [reflexivity|].
  destruct (p a) eqn:Ha; [|reflexivity].
  destruct (Ascii.eqb_spec a c) as [->|_]; [congruence | exact IH].
Qed.

Lemma count_char_rstrip (p : ascii -> bool) (c : ascii) (s : string) :
  p c = false -> count_char c (Str.rstrip_with p s) = count_char c s.
Proof.
  intros Hc. induction s as [|a s IH]; simpl; [reflexivity|].
  destruct (p a && Str.is_empty (Str.rstrip_with p s)) eqn:E.
  - apply andb_true_iff in E as [Ha He].
    apply is_empty_true in He. rewrite He in IH. simpl in IH.
    destruct (Ascii.eqb_spec a c) as [->|_]; [congruence | exact IH].
  - simpl. now rewrite IH.
Qed.

Lemma count_char_strip (s : string) :
  count_char ":" (Str.strip s) = count_char ":" s.
Proof.
  unfold Str.strip.
  now rewrite count_char_rstrip, count_char_lstrip.
Qed.

Lemma marker_of_not_colon (c1 c2 : ascii) (g : TimeParser.ampm) :
  TimeParser.marker_of c1 c2 = Some g ->
  Ascii.eqb c1 ":" = false /\ Ascii.eqb c2 ":" = false.
Proof.
  intros H. split.
  - destruct (Ascii.eqb_spec c1 ":") as [->|_]; [|reflexivity].
    unfold TimeParser.marker_of in H.
    destruct (Ascii.eqb (Str.lower c2) "m"); discriminate H.
  - destruct (Ascii.eqb_spec c2 ":") as [->|_]; [|reflexivity].
    discriminate H.
Qed.

Lemma match_here_no_colon (s : string) (g : TimeParser.ampm) :
  TimeParser.am_pm_match_here s = Some g -> count_char ":" s = 0%nat.
Proof.
  unfold TimeParser.am_pm_match_here. intros H.
  rewrite <- (count_char_lstrip Str.is_space ":" s eq_refl).
  destruct (Str.lstrip_with Str.is_space s) as [|c1 [|c2 rest]];
    try discriminate H.
  destruct (Str.all_chars Str.is_space rest) eqn:E; [|discriminate H].
  destruct (marker_of_not_colon c1 c2 g H) as [H1 H2].
  simpl. rewrite H1, H2.
  now rewrite (count_char_all Str.is_space ":" rest eq_refl E).
Qed.

Lemma am_pm_search_colons (s : string) :
  forall pre g,
    TimeParser.am_pm_search s = Some (pre, g) ->
    count_char ":" pre = count_char ":" s.
Proof.
  induction s as [|c s IH]; intros pre g; rewrite am_pm_search_eq.
  - destruct (TimeParser.am_pm_match_here ""); [|discriminate].
    now intros [= <- _].
  - destruct (TimeParser.am_pm_match_here (String c s)) as [g'|] eqn:E.
    + intros [= <- _]. now rewrite (match_here_no_colon _ _ E).
    + destruct (TimeParser.am_pm_search s) as [[pre' g']|]; [|discriminate].
      intros [= <- _]. simpl. now rewrite (IH pre' g' eq_refl).
Qed.

Lemma parse_time_parts_length (text : string) :
  Str.is_empty (Str.strip text) = false ->
  exists (ampm : option TimeParser.ampm) (parts : list string),
    TimeParser.parse_time text = TimeParser.time_of_parts ampm parts
    /\ List.length parts = S (count_char ":" text).
Proof.
  intros Hne. unfold TimeParser.parse_time. rewrite Hne.
  destruct (TimeParser.am_pm_search (Str.strip text)) as [[pre g]|] eqn:E.
  - exists (Some g), (Str.split ":" (Str.strip pre)). split; [reflexivity|].
    rewrite split_length, count_char_strip.
    now rewrite (am_pm_search_colons _ _ _ E), count_char_strip.
  - exists None, (Str.split ":" (Str.strip text)). split; [reflexivity|].
    now rewrite split_length, count_char_strip.
Qed.

(** X6.  Each parser answers "Too many ':' ..." exactly for the texts
    that hold three or more [':'], wherever they stand and whatever else
    the text holds. *)
Theorem parsers_too_many_colons (text : string) :
  (TimeParser.parse_time text = ValueError "Too many ':' in time"
   <-> (3 <= count_char ":" text)%nat)
  /\ (TimeParser.parse_duration text = ValueError "Too many ':' in duration"
      <-> (3 <= count_char ":" text)%nat).
Proof.
  destruct (Str.is_empty (Str.strip text)) eqn:Hne.
  - (* a blank text holds no colon and is "Empty" *)
    assert (Hz : count_char ":" text = 0%nat).
    { rewrite <- count_char_strip. apply is_empty_true in Hne.
      now rewrite Hne. }
    unfold TimeParser.parse_time, TimeParser.parse_duration.
    rewrite Hne, Hz. split; split; try discriminate; lia.
  - split.
    + destruct (parse_time_parts_length text Hne) as (ampm & parts & -> & Hl).
      unfold TimeParser.time_of_parts. rewrite Hl.
      destruct (3 <? S (count_char ":" text))%nat eqn:E.
      * apply Nat.ltb_lt in E. split; [lia | reflexivity].
      * apply Nat.ltb_ge in E. split; [|lia].
        destruct (TimeParser.time_components parts) as [[[hh mm] ss]|];
          [|discriminate].
        destruct (negb _ || negb _); [discriminate|].
        destruct ampm; destruct (negb _); discriminate.
    + unfold TimeParser.parse_duration. rewrite Hne.
      rewrite split_length, count_char_strip.
      destruct (3 <? S (count_char ":" text))%nat eqn:E.
      * apply Nat.ltb_lt in E. split; [lia | reflexivity].
      * apply Nat.ltb_ge in E. split; [|lia].
        destruct (TimeParser.duration_components _) as [[[h m] sec]|];
          [|discriminate].
        destruct (_ || _ || _); discriminate.
Qed.

(** X7.  A time read with an am marker is a morning hour, 0 to 11, and
    one read with a pm marker an afternoon hour, 12 to 23. *)
Theorem parse_time_am_pm_halves (body w1 mk w2 : string) (t : time) :
  Str.all_chars Str.is_space w1 = true ->
  Str.all_chars Str.is_space w2 = true ->
  TimeParser.parse_time (body ++ w1 ++ mk ++ w2) = Ok t ->
  (marker_text mk = Some TimeParser.AM -> 0 <= hour t <= 11)
  /\ (marker_text mk = Some TimeParser.PM -> 12 <= hour t <= 23).
Proof.
  intros Hw1 Hw2 Ht.
  assert (Hg : forall g, marker_text mk = Some g ->
             exists hh, 1 <= hh <= 12 /\ hour t = hour_of_12 g hh).
  { intros g Hmk.
    destruct (marker_text_chars mk g Hmk) as (c1 & c2 & -> & Hc1 & Hc2 & Hm).
    change (String c1 (String c2 "") ++ w2) with (String c1 (String c2 w2))
      in Ht.
    rewrite (parse_time_marker c1 c2 g Hc1 Hc2 Hm body w1 w2 Hw1 Hw2) in Ht.
    apply time_of_parts_12 in Ht as (hh & _ & Hr & Hh). now exists hh. }
  split; intros Hmk; destruct (Hg _ Hmk) as (hh & Hr & ->); unfold hour_of_12;
    destruct (hh =? 12) eqn:E; try apply Z.eqb_neq in E; lia.
Qed.

Lemma parse_time_am_pm_halves_witness :
  (marker_text "pm" = Some TimeParser.AM -> 0 <= hour (mkTime 12 30 0) <= 11)
  /\ (marker_text "pm" = Some TimeParser.PM
      -> 12 <= hour (mkTime 12 30 0) <= 23).
Proof.
  exact (parse_time_am_pm_halves "12:30" " " "pm" "" (mkTime 12 30 0)
           eq_refl eq_refl eq_refl).
Defined.

(** ** The validator and the aggregator *)

Lemma end_msgs_count (d : date) (now_dt : datetime) (its : list TimeInterval) :
  count_occ string_dec (end_msgs d now_dt its) msg_end_after_start
  = List.length (filter (not_after_start d now_dt) its).
Proof.
  induction its as [|it its IH]; [reflexivity|].
  unfold end_msgs in *. cbn [flat_map filter]. unfold not_after_start at 1.
  destruct (Datetime.leb _ _).
  - cbn [app]. rewrite count_occ_cons_eq by reflexivity.
    cbn [List.length]. now rewrite IH.
  - exact IH.
Qed.

Lemma filter_length_perm {A : Type} (f : A -> bool) (l1 l2 : list A) :
  Permutation l1 l2 ->
  List.length (filter f l1) = List.length (filter f l2).
Proof.
  induction 1 as [|x l1 l2 _ IH|x y l|l1 l2 l3 _ IH1 _ IH2]; simpl.
  - reflexivity.
  - destruct (f x); simpl; congruence.
  - destruct (f x), (f y); reflexivity.
  - congruence.
Qed.

Lemma end_msgs_nil_iff (d : date) (now_dt : datetime)
    (its : list TimeInterval) :
  end_msgs d now_dt its = []
  <-> forall it, In it its -> not_after_start d now_dt it = false.
Proof.
  split; [apply end_msgs_nil|].
  induction its as [|it its IH]; intros H; [reflexivity|].
  unfold end_msgs in *. cbn [flat_map].
  pose proof (H it (or_introl eq_refl)) as Hit.
  unfold not_after_start in Hit. rewrite Hit. cbn [app].
  apply IH. intros x Hx. apply H. now right.
Qed.

(** X8.  [validate] returns no message exactly for a schedule with at
    most one open interval, whose intervals all end after their start,
    and whose list in the order of the starts has no adjacent pair with
    the later start before the earlier end. *)
Theorem validate_accepts_iff (self : DaySchedule) (now_dt : datetime) :
  Schedule.validate self now_dt = []
  <-> (List.length (filter is_open (intervals self)) <= 1)%nat
      /\ (forall it, In it (intervals self) ->
            not_after_start (on_date self) now_dt it = false)
      /\ ~ adjacent_overlap (Schedule.effective self now_dt).
Proof.
  rewrite validate_eq, <- overlapping_iff.
  fold (Schedule.open_count self).
  assert (Hperm : forall it,
             In it (Schedule.sorted_intervals self) <-> In it (intervals self)).
  { intros it. split; apply Permutation_in;
      [|apply Permutation_sym]; apply sorted_perm. }
  split.
  - intros H. apply app_eq_nil in H as [H1 H]. apply app_eq_nil in H as [H2 H3].
    split; [|split].
    + destruct (1 <? Schedule.open_count self)%nat eqn:E; [discriminate H1|].
      now apply Nat.ltb_ge in E.
    + intros it Hin. apply (proj1 (end_msgs_nil_iff _ _ _) H2).
      now apply Hperm.
    + destruct (overlapping _); [discriminate H3 | discriminate].
  - intros (H1 & H2 & H3).
    replace (1 <? Schedule.open_count self)%nat with false
      by (symmetry; now apply Nat.ltb_ge).
    rewrite (proj2 (end_msgs_nil_iff _ _ _))
      by (intros it Hin; apply H2; now apply Hperm).
    destruct (overlapping _); [now contradiction H3 | reflexivity].
Qed.

(** X9.  [validate] writes "End must be after Start ..." once for each
    interval that does not end after its start, an open interval being
    judged against [now_dt]. *)
Theorem validate_end_message_per_interval
    (self : DaySchedule) (now_dt : datetime) :
  count_occ string_dec (Schedule.validate self now_dt) msg_end_after_start
  = List.length
      (filter (not_after_start (on_date self) now_dt) (intervals self)).
Proof.
  rewrite validate_eq, !count_occ_app, end_msgs_count.
  rewrite (filter_length_perm _ _ _
             (sorted_perm start Datetime.time_ltb (intervals self))).
  assert (H1 : count_occ string_dec
                 (if (1 <? Schedule.open_count self)%nat
                  then [Schedule.msg_one_open] else []) msg_end_after_start
               = 0%nat) by (now destruct (1 <? _)%nat).
  assert (H2 : count_occ string_dec
                 (if overlapping (Schedule.effective self now_dt)
                  then [Schedule.msg_overlap] else []) msg_end_after_start
               = 0%nat) by (now destruct (overlapping _)).
  rewrite H1, H2. unfold Schedule.sorted_intervals. lia.
Qed.

Section SortedAgain.
Context {A K : Type} (key : A -> K) (ltb : K -> K -> bool).

(** A list already in order is left as it is. *)
Lemma sorted_of_Sorted (l : list A) :
  Sorted (fun a b => ltb (key b) (key a) = false) l -> sorted key ltb l = l.
Proof.
  induction 1 as [|x l Hs IH Hhd]; [reflexivity|].
  cbn [sorted fold_right]. fold (sorted key ltb l). rewrite IH.
  destruct Hhd as [|y l Hxy]; simpl; [reflexivity|]. now rewrite Hxy.
Qed.
End SortedAgain.

Lemma sorted_intervals_Sorted (self : DaySchedule) :
  Sorted by_start_time (Schedule.sorted_intervals self).
Proof.
  apply (sorted_Sorted start Datetime.time_ltb time_ltb_asym).
Qed.

Lemma resolve_Sorted (d : date) (now_dt : datetime) (l : list TimeInterval) :
  Sorted by_start_time l -> Sorted by_start (map (resolve d now_dt) l).
Proof.
  induction 1 as [|x l Hs IH Hhd]; simpl; constructor; [exact IH|].
  destruct Hhd as [|y l Hxy]; simpl; constructor.
  unfold by_start, resolve, Datetime.combine; simpl.
  now rewrite ltb_same_date.
Qed.

(** X10.  [sorted_intervals] is the intervals rearranged in the order of
    their starts, and the second sort of [validate] changes nothing: the
    list the overlap check walks is that rearrangement, resolved interval
    by interval. *)
Theorem effective_is_resolved_sorted_intervals
    (self : DaySchedule) (now_dt : datetime) :
  Permutation (Schedule.sorted_intervals self) (intervals self)
  /\ Sorted by_start_time (Schedule.sorted_intervals self)
  /\ Schedule.effective self now_dt
     = map (resolve (on_date self) now_dt) (Schedule.sorted_intervals self).
Proof.
  split; [apply sorted_perm|]. split; [apply sorted_intervals_Sorted|].
  rewrite effective_eq. apply sorted_of_Sorted.
  apply resolve_Sorted, sorted_intervals_Sorted.
Qed.

Lemma fold_durations_error (d : date) (now_dt : datetime)
    (its : list TimeInterval) (m : string) :
  fold_left
    (fun total it =>
       match total with
       | ValueError m => ValueError m
       | Ok t =>
           match duration_seconds it d now_dt with
           | Ok x => Ok (t + x)
           | ValueError m => ValueError m
           end
       end) its (ValueError m)
  = ValueError m.
Proof. induction its as [|it its IH]; [reflexivity | exact IH]. Qed.

Lemma fold_durations_eq (d : date) (now_dt : datetime)
    (its : list TimeInterval) :
  forall acc,
    fold_left
      (fun total it =>
         match total with
         | ValueError m => ValueError m
         | Ok t =>
             match duration_seconds it d now_dt with
             | Ok x => Ok (t + x)
             | ValueError m => ValueError m
             end
         end) its (Ok acc)
    = if existsb (not_after_start d now_dt) its
      then ValueError msg_end_after_start
      else Ok (acc + sum_of_durations d now_dt its).
Proof.
  induction its as [|it its IH]; intros acc;
    cbn [fold_left existsb sum_of_durations].
  - f_equal. lia.
  - rewrite duration_seconds_resolve. unfold not_after_start at 1.
    destruct (Datetime.leb _ _); cbn [orb].
    + apply fold_durations_error.
    + rewrite IH. destruct (existsb _ its); [reflexivity|]. f_equal. lia.
Qed.

(** X11.  [total_worked_seconds] looks at each interval on its own: it
    raises exactly when some interval does not end after its start, and
    otherwise adds up all the durations, overlapping intervals and
    several open intervals included. *)
Theorem total_worked_seconds_eq (self : DaySchedule) (now_dt : datetime) :
  Schedule.total_worked_seconds self now_dt
  = if existsb (not_after_start (on_date self) now_dt) (intervals self)
    then ValueError msg_end_after_start
    else Ok (sum_of_durations (on_date self) now_dt (intervals self)).
Proof.
  unfold Schedule.total_worked_seconds. rewrite fold_durations_eq.
  destruct (existsb _ _); [reflexivity|]. f_equal; lia.
Qed.

(** ** A validated day *)

Lemma ltb_negb_leb (a b : datetime) :
  Datetime.ltb a b = negb (Datetime.leb b a).
Proof.
  unfold Datetime.ltb, Datetime.leb. rewrite (compare_antisym a b).
  now destruct (Datetime.compare a b).
Qed.

Lemma sub_same_date (a b : datetime) :
  dt_date a = dt_date b ->
  Datetime.sub a b
  = Datetime.seconds_of_day (dt_time a) - Datetime.seconds_of_day (dt_time b).
Proof. intros H. unfold Datetime.sub. rewrite H. lia. Qed.

Lemma seconds_of_day_range (t : time) :
  Datetime.time_wf t -> 0 <= Datetime.seconds_of_day t <= 86399.
Proof.
  unfold Datetime.time_wf, Datetime.seconds_of_day. lia.
Qed.

Lemma sum_of_durations_perm (d : date) (now_dt : datetime)
    (l1 l2 : list TimeInterval) :
  Permutation l1 l2 ->
  sum_of_durations d now_dt l1 = sum_of_durations d now_dt l2.
Proof.
  induction 1 as [|x l1 l2 _ IH|x y l|l1 l2 l3 _ IH1 _ IH2];
    cbn [sum_of_durations]; lia.
Qed.

Section ValidDay.
Variables (d : date) (now_dt : datetime).
Hypothesis now_wf : Datetime.wf now_dt.
Hypothesis now_today : dt_date now_dt = d.

Let sec_start (it : TimeInterval) : Z := Datetime.seconds_of_day (start it).
Let sec_end (it : TimeInterval) : Z :=
  Datetime.seconds_of_day (dt_time (snd (resolve d now_dt it))).

Lemma resolve_same_day (it : TimeInterval) :
  interval_wf it ->
  dt_date (fst (resolve d now_dt it)) = d
  /\ dt_date (snd (resolve d now_dt it)) = d
  /\ Datetime.wf (fst (resolve d now_dt it))
  /\ Datetime.wf (snd (resolve d now_dt it)).
Proof.
  intros [Hs He]. unfold resolve, Datetime.combine, Datetime.wf; simpl.
  destruct (end_ it); simpl; auto.
Qed.

Lemma duration_positive (it : TimeInterval) :
  interval_wf it -> not_after_start d now_dt it = false ->
  Datetime.sub (snd (resolve d now_dt it)) (fst (resolve d now_dt it))
  = sec_end it - sec_start it
  /\ 0 <= sec_start it < sec_end it /\ sec_end it <= 86399.
Proof.
  intros Hwf Hv. destruct (resolve_same_day it Hwf) as (D1 & D2 & W1 & W2).
  unfold not_after_start in Hv. rewrite (leb_sub _ _ W2 W1) in Hv.
  apply Z.leb_gt in Hv.
  rewrite sub_same_date in * by congruence.
  pose proof (seconds_of_day_range _ W1). pose proof (seconds_of_day_range _ W2).
  change (dt_time (fst (resolve d now_dt it))) with (start it) in *.
  unfold sec_start, sec_end. lia.
Qed.

Lemma next_not_before (a b : TimeInterval) :
  interval_wf a -> interval_wf b ->
  Datetime.ltb (fst (resolve d now_dt b)) (snd (resolve d now_dt a)) = false ->
  sec_end a <= sec_start b.
Proof.
  intros Ha Hb H.
  destruct (resolve_same_day a Ha) as (_ & D2 & _ & W2).
  destruct (resolve_same_day b Hb) as (D1 & _ & W1 & _).
  rewrite ltb_negb_leb in H. apply negb_false_iff in H.
  rewrite (leb_sub _ _ W2 W1) in H. apply Z.leb_le in H.
  rewrite sub_same_date in H by congruence.
  change (dt_time (fst (resolve d now_dt b))) with (start b) in H.
  unfold sec_start, sec_end. lia.
Qed.

(** Intervals in the order of their starts, each ending after its start
    and none starting before the previous one ends, fit between the first
    start and the end of the day. *)
Lemma chain_bound (its : list TimeInterval) :
  forall lo : Z,
    Forall interval_wf its ->
    (forall it, In it its -> not_after_start d now_dt it = false) ->
    overlapping (map (resolve d now_dt) its) = false ->
    match its with [] => True | it :: _ => lo <= sec_start it end ->
    lo <= 86399 ->
    0 <= sum_of_durations d now_dt its <= 86399 - lo.
Proof.
  induction its as [|a its IH]; intros lo Hwf Hv Hov Hlo Hmax;
    cbn [sum_of_durations]; [lia|].
  apply Forall_cons_iff in Hwf as [Ha Hits].
  destruct (duration_positive a Ha (Hv a (or_introl eq_refl)))
    as (-> & Hpos & Hend).
  assert (Hrest : 0 <= sum_of_durations d now_dt its <= 86399 - sec_end a).
  { apply IH; try assumption.
    - intros it Hin. apply Hv. now right.
    - destruct its as [|b its]; [reflexivity|].
      cbn [map overlapping] in Hov |- *.
      now apply orb_false_iff in Hov as [_ Hov].
    - destruct its as [|b its]; [exact I|].
      cbn [map overlapping] in Hov. apply orb_false_iff in Hov as [Hab _].
      apply Forall_cons_iff in Hits as [Hb _]. now apply next_not_before. }
  lia.
Qed.

End ValidDay.

Lemma validated_day_total_below_a_day_aux
    (self : DaySchedule) (now_dt : datetime) :
  Schedule.validate self now_dt = [] ->
  Forall interval_wf (intervals self) ->
  Datetime.wf now_dt -> dt_date now_dt = on_date self ->
  exists w : Z,
    Schedule.total_worked_seconds self now_dt = Ok w /\ 0 <= w <= 86399.
Proof.
  intros Hv Hwf Hnow Hdate.
  exists (sum_of_durations (on_date self) now_dt (intervals self)).
  split; [now apply total_worked_seconds_valid|].
  pose proof (sorted_perm start Datetime.time_ltb (intervals self)) as Hperm.
  fold (Schedule.sorted_intervals self) in Hperm.
  rewrite <- (sum_of_durations_perm _ _ _ _ Hperm).
  assert (Hov : overlapping
                  (map (resolve (on_date self) now_dt)
                     (Schedule.sorted_intervals self)) = false).
  { rewrite validate_eq in Hv.
    apply app_eq_nil in Hv as [_ Hv]. apply app_eq_nil in Hv as [_ Hv].
    rewrite effective_eq in Hv.
    rewrite (sorted_of_Sorted fst Datetime.ltb) in Hv
      by apply resolve_Sorted, sorted_intervals_Sorted.
    destruct (overlapping _); [discriminate Hv | reflexivity]. }
  assert (Hvalid : forall it, In it (Schedule.sorted_intervals self) ->
             not_after_start (on_date self) now_dt it = false).
  { rewrite validate_eq in Hv.
    apply app_eq_nil in Hv as [_ Hv]. apply app_eq_nil in Hv as [Hv _].
    now apply end_msgs_nil_iff. }
  assert (Hwf' : Forall interval_wf (Schedule.sorted_intervals self)).
  { rewrite Forall_forall in *. intros it Hin. apply Hwf.
    now apply (Permutation_in it Hperm). }
  pose proof (chain_bound (on_date self) now_dt Hnow Hdate
                (Schedule.sorted_intervals self) 0 Hwf' Hvalid Hov) as Hb.
  assert (Hfirst : match Schedule.sorted_intervals self with
                   | [] => True
                   | it :: _ => 0 <= Datetime.seconds_of_day (start it)
                   end).
  { destruct (Schedule.sorted_intervals self) as [|it l]; [exact I|].
    apply Forall_cons_iff in Hwf' as [[Hs _] _].
    now apply seconds_of_day_range. }
  specialize (Hb Hfirst). lia.
Qed.

(** X12.  A schedule of times of day that [validate] accepts at a moment
    of its own date totals less than a day: [total_worked_seconds]
    returns a number from 0 to 86399. *)
Theorem validated_day_total_below_a_day
    (self : DaySchedule) (now_dt : datetime) :
  Schedule.validate self now_dt = [] ->
  Forall interval_wf (intervals self) ->
  Datetime.wf now_dt -> dt_date now_dt = on_date self ->
  exists w : Z,
    Schedule.total_worked_seconds self now_dt = Ok w /\ 0 <= w <= 86399.
Proof.
  exact (validated_day_total_below_a_day_aux self now_dt).
Qed.

Lemma validated_day_total_below_a_day_witness :
  exists w : Z,
    Schedule.total_worked_seconds
      (mkDaySchedule 739621
         [mkTimeInterval (mkTime 13 0 0) None;
          mkTimeInterval (mkTime 9 0 0) (Some (mkTime 12 0 0))] 30600)
      (mkDatetime 739621 (mkTime 14 0 0)) = Ok w
    /\ 0 <= w <= 86399.
Proof.
  refine (validated_day_total_below_a_day
            (mkDaySchedule 739621
               [mkTimeInterval (mkTime 13 0 0) None;
                mkTimeInterval (mkTime 9 0 0) (Some (mkTime 12 0 0))] 30600)
            (mkDatetime 739621 (mkTime 14 0 0)) eq_refl _ _ eq_refl).
  - repeat constructor; simpl; lia.
  - unfold Datetime.wf, Datetime.time_wf; simpl. lia.
Defined.

(** ** Rows *)

Lemma leb_false_time_ltb (d : date) (s e : time) :
  Datetime.leb (Datetime.combine d e) (Datetime.combine d s) = false ->
  Datetime.time_ltb s e = true.
Proof.
  unfold Datetime.combine. rewrite leb_same_date.
  unfold Datetime.time_ltb. rewrite (time_compare_antisym e s).
  now destruct (Datetime.time_compare e s).
Qed.

Lemma get_interval_or_error_spec (self : IntervalRow) (today : date) :
  match get_interval_or_error self today with
  | (None, None) =>
      Str.strip (var_start self) = "" /\ Str.strip (var_end self) = ""
  | (None, Some e) =>
      Str.is_empty e = false
      /\ (Str.strip (var_start self) <> "" \/ Str.strip (var_end self) <> "")
  | (Some it, None) =>
      interval_wf it
      /\ TimeParser.parse_time (Str.strip (var_start self)) = Ok (start it)
      /\ match end_ it with
         | None => Str.strip (var_end self) = ""
         | Some e =>
             TimeParser.parse_time (Str.strip (var_end self)) = Ok e
             /\ Datetime.time_ltb (start it) e = true
         end
  | (Some _, Some _) => False
  end.
Proof.
  unfold get_interval_or_error, interval_wf.
  destruct (Str.strip (var_start self)) as [|c s] eqn:Es;
    destruct (Str.strip (var_end self)) as [|c' s'] eqn:Ee;
    cbn [Str.is_empty andb].
  - auto.
  - split; [reflexivity|]. right. discriminate.
  - destruct (TimeParser.parse_time (String c s)) as [st|m] eqn:Ps.
    + cbn [start end_]. pose proof (parse_time_wf _ _ Ps). auto.
    + split; [reflexivity|]. left. discriminate.
  - destruct (TimeParser.parse_time (String c s)) as [st|m] eqn:Ps.
    + destruct (TimeParser.parse_time (String c' s')) as [et|m] eqn:Pe.
      * destruct (Datetime.leb _ _) eqn:El.
        -- split; [reflexivity|]. left. discriminate.
        -- cbn [start end_].
           pose proof (parse_time_wf _ _ Ps). pose proof (parse_time_wf _ _ Pe).
           pose proof (leb_false_time_ltb today st et El). auto.
      * split; [reflexivity|]. left. discriminate.
    + split; [reflexivity|]. left. discriminate.
Qed.

(** X13.  What a row yields.  A row is passed over without an error
    exactly when both fields are blank; an error text is never empty; an
    interval comes without an error, is made of the two parsed times of
    day, is open exactly when the end is blank, and a closed one starts
    strictly before it ends. *)
Theorem get_interval_or_error_cases (self : IntervalRow) (today : date) :
  match get_interval_or_error self today with
  | (None, None) =>
      Str.strip (var_start self) = "" /\ Str.strip (var_end self) = ""
  | (None, Some e) =>
      Str.is_empty e = false
      /\ (Str.strip (var_start self) <> "" \/ Str.strip (var_end self) <> "")
  | (Some it, None) =>
      interval_wf it
      /\ TimeParser.parse_time (Str.strip (var_start self)) = Ok (start it)
      /\ match end_ it with
         | None => Str.strip (var_end self) = ""
         | Some e =>
             TimeParser.parse_time (Str.strip (var_end self)) = Ok e
             /\ Datetime.time_ltb (start it) e = true
         end
  | (Some _, Some _) => False
  end.
Proof.
  exact (get_interval_or_error_spec self today).
Qed.

(** An interval that a row can yield. *)
Lemma get_interval_checked (self : IntervalRow) (today : date)
    (it : TimeInterval) (err : option string) :
  get_interval_or_error self today = (Some it, err) ->
  interval_wf it
  /\ match end_ it with
     | None => True
     | Some e => Datetime.time_ltb (start it) e = true
     end.
Proof.
  intros H. pose proof (get_interval_or_error_spec self today) as Hc.
  rewrite H in Hc. destruct err; [contradiction|].
  destruct Hc as (Hwf & _ & He). split; [exact Hwf|].
  destruct (end_ it); [apply He | exact I].
Qed.

Lemma collect_rows_spec (today : date) (P : TimeInterval -> Prop)
    (rows : list IntervalRow) :
  (forall row it err,
      get_interval_or_error row today = (Some it, err) -> P it) ->
  forall its b,
    Forall P its ->
    Forall P (fst (GuiController.collect_rows rows today its b))
    /\ snd (GuiController.collect_rows rows today its b)
       = b || existsb
                (fun row => truthy (snd (get_interval_or_error row today)))
                rows.
Proof.
  intros HP. induction rows as [|row rows IH]; intros its b Hits;
    cbn [GuiController.collect_rows existsb].
  - split; [exact Hits | now rewrite orb_false_r].
  - destruct (get_interval_or_error row today) as [it err] eqn:E.
    cbn [snd]. destruct (truthy err).
    + destruct (IH its true Hits) as [H1 H2]. split; [exact H1|].
      rewrite H2. now rewrite orb_true_r.
    + destruct it as [it|].
      * assert (Hits' : Forall P (its ++ [it])%list).
        { apply Forall_app. split; [exact Hits|].
          constructor; [|constructor]. exact (HP row it err E). }
        destruct (IH (its ++ [it])%list b Hits') as [H1 H2].
        split; [exact H1 | exact H2].
      * destruct (IH its b Hits) as [H1 H2]. split; [exact H1 | exact H2].
Qed.

Lemma collect_schedule_intervals (rows : list IntervalRow)
    (now_dt : datetime) (today : date) :
  let sch := fst (GuiController._collect_schedule rows now_dt today) in
  on_date sch = today
  /\ Forall (fun it =>
               interval_wf it
               /\ match end_ it with
                  | None => True
                  | Some e => Datetime.time_ltb (start it) e = true
                  end) (intervals sch).
Proof.
  rewrite collect_schedule_eq. cbn [fst on_date intervals].
  split; [reflexivity|].
  apply (collect_rows_spec today _ rows); [|constructor].
  intros row it err. apply get_interval_checked.
Qed.

(** A closed interval that ends after its start is never at fault, and
    an open one is at fault exactly from its start backwards. *)
Lemma not_after_start_cases (today : date) (now_dt : datetime)
    (it : TimeInterval) :
  match end_ it with
  | Some e =>
      Datetime.time_ltb (start it) e = true ->
      not_after_start today now_dt it = false
  | None =>
      not_after_start today now_dt it
      = Datetime.leb now_dt (Datetime.combine today (start it))
  end.
Proof.
  unfold not_after_start, resolve. cbn [fst snd].
  destruct (end_ it) as [e|]; [|reflexivity].
  intros Hend. unfold Datetime.combine. rewrite leb_same_date.
  unfold Datetime.time_ltb in Hend.
  rewrite (time_compare_antisym (start it) e).
  destruct (Datetime.time_compare (start it) e);
    first [discriminate Hend | reflexivity].
Qed.

Lemma collected_not_after_start (rows : list IntervalRow)
    (now_dt : datetime) (today : date) (it : TimeInterval) :
  In it (intervals (fst (GuiController._collect_schedule rows now_dt today))) ->
  forall moment : datetime,
    not_after_start today moment it
    = is_open it
      && Datetime.leb moment (Datetime.combine today (start it)).
Proof.
  intros Hin moment.
  destruct (collect_schedule_intervals rows now_dt today) as [_ Hall].
  rewrite Forall_forall in Hall. destruct (Hall it Hin) as [_ Hend].
  pose proof (not_after_start_cases today moment it) as Hcases.
  unfold is_open. destruct (end_ it) as [e|]; [now apply Hcases | exact Hcases].
Qed.

(** X14.  In the schedule collected from the rows every closed interval
    ends after its start, whatever the moment, so that each "End must be
    after Start ..." of [validate] stands for an open interval whose
    start is not before the moment of evaluation: the intervals at fault
    are exactly those, and the messages are as many. *)
Theorem collected_end_message_is_open_interval
    (rows : list IntervalRow) (now_dt : datetime) (today : date) :
  let sch := fst (GuiController._collect_schedule rows now_dt today) in
  let open_from_now (it : TimeInterval) :=
    is_open it && Datetime.leb now_dt (Datetime.combine today (start it)) in
  on_date sch = today
  /\ (forall (it : TimeInterval) (e : time),
        In it (intervals sch) -> end_ it = Some e ->
        Datetime.time_ltb (start it) e = true
        /\ forall moment : datetime,
             not_after_start (on_date sch) moment it = false)
  /\ (forall it : TimeInterval,
        In it (intervals sch) ->
        (not_after_start (on_date sch) now_dt it = true
         <-> end_ it = None
             /\ Datetime.leb now_dt (Datetime.combine today (start it))
                = true))
  /\ count_occ string_dec (Schedule.validate sch now_dt) msg_end_after_start
     = List.length (filter open_from_now (intervals sch))
  /\ (In msg_end_after_start (Schedule.validate sch now_dt)
      <-> exists it : TimeInterval,
            In it (intervals sch) /\ end_ it = None
            /\ Datetime.leb now_dt (Datetime.combine today (start it))
               = true).
Proof.
  intros sch open_from_now.
  destruct (collect_schedule_intervals rows now_dt today) as [Hd Hall].
  fold sch in Hd, Hall. rewrite Forall_forall in Hall.
  assert (Hfault : forall it moment,
             In it (intervals sch) ->
             not_after_start (on_date sch) moment it
             = is_open it
               && Datetime.leb moment (Datetime.combine today (start it)))
    by (intros it moment Hin; rewrite Hd;
        now apply (collected_not_after_start rows now_dt today)).
  assert (Hopen : forall it,
             open_from_now it = true
             <-> end_ it = None
                 /\ Datetime.leb now_dt (Datetime.combine today (start it))
                    = true).
  { intros it. unfold open_from_now, is_open. rewrite andb_true_iff.
    destruct (end_ it); split; intros [H1 H2]; split;
      first [assumption | reflexivity | discriminate]. }
  assert (Hcount :
            count_occ string_dec (Schedule.validate sch now_dt)
              msg_end_after_start
            = List.length (filter open_from_now (intervals sch))).
  { rewrite validate_eq, !count_occ_app, end_msgs_count.
    rewrite (filter_length_perm _ _ _
               (sorted_perm start Datetime.time_ltb (intervals sch))).
    assert (H1 : count_occ string_dec
                   (if (1 <? Schedule.open_count sch)%nat
                    then [Schedule.msg_one_open] else []) msg_end_after_start
                 = 0%nat) by (now destruct (1 <? _)%nat).
    assert (H2 : count_occ string_dec
                   (if overlapping (Schedule.effective sch now_dt)
                    then [Schedule.msg_overlap] else []) msg_end_after_start
                 = 0%nat) by (now destruct (overlapping _)).
    rewrite H1, H2. unfold Schedule.sorted_intervals.
    rewrite (filter_ext_in (not_after_start (on_date sch) now_dt)
               open_from_now (intervals sch))
      by (intros it Hin; now apply Hfault).
    lia. }
  split; [exact Hd|]. split; [|split; [|split; [exact Hcount|]]].
  - intros it e Hin He. destruct (Hall it Hin) as [_ Hend].
    rewrite He in Hend. split; [exact Hend|].
    intros moment. rewrite (Hfault it moment Hin).
    unfold is_open. now rewrite He.
  - intros it Hin. rewrite (Hfault it now_dt Hin). apply Hopen.
  - rewrite (count_occ_In string_dec), Hcount. split.
    + intros Hpos.
      destruct (filter open_from_now (intervals sch)) as [|it l] eqn:E;
        [simpl in Hpos; lia|].
      assert (Hit : In it (filter open_from_now (intervals sch)))
        by (rewrite E; now left).
      apply filter_In in Hit as [Hin Hit]. apply Hopen in Hit.
      exists it. tauto.
    + intros (it & Hin & Hnone & Hleb).
      assert (Hit : In it (filter open_from_now (intervals sch)))
        by (apply filter_In; split; [exact Hin | now apply Hopen]).
      destruct (filter open_from_now (intervals sch)); [contradiction|].
      simpl. lia.
Qed.

(** X15.  The messages [_collect_schedule] returns are empty exactly when
    no row is in error and [validate] accepts the schedule; the errors of
    the rows show as "Fix invalid rows." only when [validate] has nothing
    to say, and otherwise the messages are those of [validate]. *)
Theorem collect_schedule_messages
    (rows : list IntervalRow) (now_dt : datetime) (today : date) :
  let sch := fst (GuiController._collect_schedule rows now_dt today) in
  let msgs := snd (GuiController._collect_schedule rows now_dt today) in
  let row_error :=
    existsb (fun row => truthy (snd (get_interval_or_error row today))) rows in
  (msgs = [] <-> row_error = false /\ Schedule.validate sch now_dt = [])
  /\ (Schedule.validate sch now_dt <> [] ->
      msgs = Schedule.validate sch now_dt)
  /\ (Schedule.validate sch now_dt = [] -> row_error = true ->
      msgs = ["Fix invalid rows."]).
Proof.
  intros sch msgs row_error. subst sch msgs.
  rewrite collect_schedule_eq. cbn [fst snd].
  destruct (collect_rows_spec today (fun _ => True) rows
              (fun _ _ _ _ => I) [] false (Forall_nil _)) as [_ Herr].
  rewrite Herr. cbn [orb]. fold row_error.
  set (v := Schedule.validate _ now_dt).
  destruct row_error, v as [|m v]; cbn [List.length Nat.eqb andb].
  - split; [split; [discriminate | intros [H _]; discriminate H]|].
    split; [congruence | reflexivity].
  - split; [split; [discriminate | intros [H _]; discriminate H]|].
    split; [reflexivity | discriminate].
  - split; [split; auto|]. split; [congruence | discriminate].
  - split; [split; [discriminate | intros [_ H]; discriminate H]|].
    split; [reflexivity | discriminate].
Qed.

(** X16.  With the clock read on the day of the schedule, what
    [recalculate] shows is never negative and never a day or more of
    work; remaining and overtime are never both positive, and
    [worked + remaining = target + overtime]. *)
Theorem recalculate_totals_ranges
    (utcoffset : Z -> Z) (rows : list IntervalRow) (var_target : string)
    (now_dt : datetime) (today : date) :
  Datetime.wf now_dt -> dt_date now_dt = today ->
  let r := GuiController.recalculate utcoffset rows var_target
             now_dt now_dt today in
  0 <= worked r <= 86399 /\ 0 <= target r
  /\ 0 <= remaining r /\ 0 <= overtime r
  /\ (remaining r = 0 \/ overtime r = 0)
  /\ worked r + remaining r = target r + overtime r.
Proof.
  intros Hnow Hdate r.
  pose proof (recalculate_fields utcoffset rows var_target now_dt now_dt today)
    as (Hw & Htg & Hr & Ho & _).
  fold r in Hw, Htg, Hr, Ho.
  pose proof (recalculate_target_nonneg var_target) as Hpos.
  rewrite <- Htg in Hpos.
  assert (Hworked : 0 <= worked r <= 86399).
  { rewrite Hw.
    destruct (snd (GuiController._collect_schedule rows now_dt today))
      as [|m msgs] eqn:E; cbn [List.length Nat.eqb]; [|lia].
    destruct (collect_schedule_no_msgs rows now_dt today E) as [Hv Hd].
    destruct (collect_schedule_intervals rows now_dt today) as [_ Hall].
    destruct (validated_day_total_below_a_day_aux _ now_dt Hv) as (w & -> & Hb);
      [|exact Hnow|congruence|exact Hb].
    revert Hall. apply Forall_impl. now intros it [H _]. }
  lia.
Qed.

Lemma collected_end_message_is_open_interval_witness :
  (Datetime.time_ltb (mkTime 9 0 0) (mkTime 12 0 0) = true
   /\ forall moment : datetime,
        not_after_start
          (on_date
             (fst (GuiController._collect_schedule
                     [mkIntervalRow "9" "12"; mkIntervalRow "15:00" ""]
                     (mkDatetime 739621 (mkTime 14 0 0)) 739621)))
          moment (mkTimeInterval (mkTime 9 0 0) (Some (mkTime 12 0 0)))
        = false)
  /\ exists it : TimeInterval,
       In it (intervals
                (fst (GuiController._collect_schedule
                        [mkIntervalRow "9" "12"; mkIntervalRow "15:00" ""]
                        (mkDatetime 739621 (mkTime 14 0 0)) 739621)))
       /\ end_ it = None
       /\ Datetime.leb (mkDatetime 739621 (mkTime 14 0 0))
            (Datetime.combine 739621 (start it)) = true.
Proof.
  pose (H := collected_end_message_is_open_interval
               [mkIntervalRow "9" "12"; mkIntervalRow "15:00" ""]
               (mkDatetime 739621 (mkTime 14 0 0)) 739621).
  split.
  - apply (proj1 (proj2 H)
             (mkTimeInterval (mkTime 9 0 0) (Some (mkTime 12 0 0)))
             (mkTime 12 0 0)); [vm_compute; left | ]; reflexivity.
  - apply (proj1 (proj2 (proj2 (proj2 (proj2 H))))).
    vm_compute. left. reflexivity.
Defined.

Lemma collect_schedule_messages_witness :
  snd (GuiController._collect_schedule
         [mkIntervalRow "9" "12"; mkIntervalRow "" "13"]
         (mkDatetime 739621 (mkTime 14 0 0)) 739621)
  = ["Fix invalid rows."].
Proof.
  exact (proj2 (proj2 (collect_schedule_messages
           [mkIntervalRow "9" "12"; mkIntervalRow "" "13"]
           (mkDatetime 739621 (mkTime 14 0 0)) 739621)) eq_refl eq_refl).
Defined.

Lemma recalculate_totals_ranges_witness :
  let r := GuiController.recalculate GuiController.utc
             [mkIntervalRow "8" "12"; mkIntervalRow "12:30" ""] "4:00"
             (mkDatetime 739621 (mkTime 18 0 0))
             (mkDatetime 739621 (mkTime 18 0 0)) 739621 in
  0 <= worked r <= 86399 /\ 0 <= target r
  /\ 0 <= remaining r /\ 0 <= overtime r
  /\ (remaining r = 0 \/ overtime r = 0)
  /\ worked r + remaining r = target r + overtime r.
Proof.
  refine (recalculate_totals_ranges GuiController.utc
            [mkIntervalRow "8" "12"; mkIntervalRow "12:30" ""] "4:00"
            (mkDatetime 739621 (mkTime 18 0 0)) 739621 _ eq_refl).
  unfold Datetime.wf, Datetime.time_wf; simpl. lia.
Defined.

(** ** The status line *)

Lemma fromkeys_spec (l : list string) :
  forall seen,
    NoDup (fromkeys l seen)
    /\ (forall x, In x (fromkeys l seen) <-> In x l /\ ~ In x seen).
Proof.
  induction l as [|a l IH]; intros seen; cbn [fromkeys].
  - split; [constructor|]. intros x. simpl. tauto.
  - destruct (existsb (String.eqb a) seen) eqn:E.
    + apply existsb_exists in E as (y & Hy & Heq).
      apply String.eqb_eq in Heq. subst y.
      destruct (IH seen) as [Hnd Hin]. split; [exact Hnd|].
      intros x. rewrite Hin. simpl. split; [tauto|].
      intros [[<-|Hx] Hns]; [contradiction | tauto].
    + assert (Hna : ~ In a seen).
      { intros Ha. assert (existsb (String.eqb a) seen = true); [|congruence].
        apply existsb_exists. exists a. split; [exact Ha|].
        apply String.eqb_refl. }
      destruct (IH (a :: seen)) as [Hnd Hin]. split.
      * constructor; [|exact Hnd]. rewrite Hin. simpl. tauto.
      * intros x. simpl. rewrite Hin. simpl.
        destruct (string_dec a x) as [->|Hne]; tauto.
Qed.

Lemma recalculate_status (utcoffset : Z -> Z) (rows : list IntervalRow)
    (var_target : string) (now_dt now_collect : datetime) (today : date) :
  let sm := GuiController._collect_schedule rows now_collect today in
  var_status (GuiController.recalculate utcoffset rows var_target
                now_dt now_collect today)
  = if Nat.eqb (List.length (snd sm)) 0 then
      match Schedule.total_worked_seconds (fst sm) now_dt with
      | Ok _ => "OK."
      | ValueError e => "Error computing totals: " ++ e
      end
    else Str.join " ; " (fromkeys (snd sm) []).
Proof.
  intros sm. unfold GuiController.recalculate. fold sm.
  destruct sm as [schedule val_msgs].
  cbn [fst snd].
  destruct (TimeParser.parse_duration var_target) as [t|e];
    rewrite total_worked_seconds_set_target;
    destruct (Nat.eqb (List.length val_msgs) 0);
    try destruct (Schedule.total_worked_seconds schedule now_dt);
    cbn [negb];
    destruct (GuiController._set_milestone_message _ _ _ _);
    reflexivity.
Qed.

(** X17.  The status line of [recalculate].  When there are messages it
    shows each distinct one once, joined by " ; "; when there are none
    and the two readings of the clock agree it says "OK.". *)
Theorem recalculate_status_line
    (utcoffset : Z -> Z) (rows : list IntervalRow) (var_target : string)
    (now_dt now_collect : datetime) (today : date) :
  let msgs := snd (GuiController._collect_schedule rows now_collect today) in
  let r := GuiController.recalculate utcoffset rows var_target
             now_dt now_collect today in
  (msgs <> [] ->
   exists shown : list string,
     var_status r = Str.join " ; " shown /\ NoDup shown
     /\ (forall m, In m shown <-> In m msgs))
  /\ (msgs = [] -> now_dt = now_collect -> var_status r = "OK.").
Proof.
  intros msgs r. subst r. rewrite recalculate_status. fold msgs. split.
  - intros Hne. exists (fromkeys msgs []).
    destruct msgs as [|m msgs']; [contradiction|]. cbn [List.length Nat.eqb].
    destruct (fromkeys_spec (m :: msgs') []) as [Hnd Hin].
    split; [reflexivity|]. split; [exact Hnd|].
    intros x. rewrite Hin. simpl. tauto.
  - intros Hnil ->. rewrite Hnil. cbn [List.length Nat.eqb].
    destruct (collect_schedule_no_msgs rows now_collect today Hnil) as [Hv _].
    now rewrite (total_worked_seconds_valid _ _ Hv).
Qed.

Lemma recalculate_status_line_witness :
  var_status
    (GuiController.recalculate GuiController.utc
       [mkIntervalRow "9" "12"; mkIntervalRow "13" ""] "8:30"
       (mkDatetime 739621 (mkTime 14 0 0))
       (mkDatetime 739621 (mkTime 14 0 0)) 739621)
  = "OK.".
Proof.
  exact (proj2 (recalculate_status_line GuiController.utc
                  [mkIntervalRow "9" "12"; mkIntervalRow "13" ""] "8:30"
                  (mkDatetime 739621 (mkTime 14 0 0))
                  (mkDatetime 739621 (mkTime 14 0 0)) 739621)
           eq_refl eq_refl).
Defined.

(** ** Milestones *)

(** X18.  For a positive overtime, [_ceil_to_next_hour] is the least
    number of seconds that brings it to a whole number of hours; for an
    overtime of zero or less it is 0. *)
Theorem ceil_to_next_hour_least (seconds : Z) :
  (0 < seconds ->
   let r := GuiController._ceil_to_next_hour seconds in
   0 <= r < 3600 /\ (seconds + r) mod 3600 = 0
   /\ (forall k, 0 <= k < r -> (seconds + k) mod 3600 <> 0))
  /\ (seconds <= 0 -> GuiController._ceil_to_next_hour seconds = 0).
Proof.
  split.
  - intros Hs r. subst r. unfold GuiController._ceil_to_next_hour.
    replace (seconds <=? 0) with false by (symmetry; apply Z.leb_gt; lia).
    pose proof (Z.mod_pos_bound seconds 3600 ltac:(lia)) as Hm.
    pose proof (Z.div_mod seconds 3600 ltac:(lia)) as Hdm.
    destruct (seconds mod 3600 =? 0) eqn:E.
    + apply Z.eqb_eq in E. split; [lia|]. split; [now rewrite Z.add_0_r|].
      intros k Hk. lia.
    + apply Z.eqb_neq in E. split; [lia|]. split.
      * replace (seconds + (3600 - seconds mod 3600))
          with ((seconds / 3600 + 1) * 3600) by lia.
        apply Z.mod_mul. lia.
      * intros k Hk.
        assert (Hk' : (seconds + k) mod 3600 = seconds mod 3600 + k)
          by (symmetry; apply (Z.mod_unique _ _ (seconds / 3600)); lia).
        lia.
  - intros Hs. unfold GuiController._ceil_to_next_hour.
    now replace (seconds <=? 0) with true by (symmetry; apply Z.leb_le; lia).
Qed.

Lemma ceil_to_next_hour_least_witness :
  let r := GuiController._ceil_to_next_hour 4000 in
  0 <= r < 3600 /\ (4000 + r) mod 3600 = 0
  /\ (forall k, 0 <= k < r -> (4000 + k) mod 3600 <> 0).
Proof.
  exact (proj1 (ceil_to_next_hour_least 4000) ltac:(lia)).
Defined.

(** X19.  [_seconds_to_timedelta] returns [seconds] shifted by the change
    of the local UTC offset between POSIX time 0 and POSIX time
    [seconds]: it is the plain number of seconds exactly when the two
    offsets agree. *)
Theorem seconds_to_timedelta_offset (utcoffset : Z -> Z) (seconds : Z) :
  GuiController._seconds_to_timedelta utcoffset seconds
  = seconds + (utcoffset seconds - utcoffset 0)
  /\ (GuiController._seconds_to_timedelta utcoffset seconds = seconds
      <-> utcoffset seconds = utcoffset 0).
Proof.
  rewrite seconds_to_timedelta_eq. split; [reflexivity | lia].
Qed.

(** ** Sorting the rows *)

Lemma time_ltb_iff (a b : time) :
  Datetime.time_ltb a b = true
  <-> hour a < hour b
      \/ (hour a = hour b
          /\ (minute a < minute b
              \/ (minute a = minute b /\ second a < second b))).
Proof.
  unfold Datetime.time_ltb, Datetime.time_compare.
  destruct (Z.compare_spec (hour a) (hour b)),
           (Z.compare_spec (minute a) (minute b)),
           (Z.compare_spec (second a) (second b));
    split; intros; try discriminate; try reflexivity; lia.
Qed.

Lemma time_le_trans (a b c : time) :
  Datetime.time_ltb b a = false -> Datetime.time_ltb c b = false ->
  Datetime.time_ltb c a = false.
Proof.
  intros H1 H2.
  destruct (Datetime.time_ltb c a) eqn:E; [|reflexivity].
  apply time_ltb_iff in E.
  assert (N1 : ~ Datetime.time_ltb b a = true) by congruence.
  assert (N2 : ~ Datetime.time_ltb c b = true) by congruence.
  rewrite time_ltb_iff in N1, N2. lia.
Qed.

Lemma keyf_time_of_day (r : IntervalRow) :
  Datetime.time_wf (GuiActions.keyf r).
Proof.
  unfold GuiActions.keyf.
  destruct (Str.is_empty _); [unfold Datetime.time_wf; simpl; lia|].
  destruct (TimeParser.parse_time _) as [t|m] eqn:E.
  - exact (parse_time_wf _ _ E).
  - unfold Datetime.time_wf; simpl; lia.
Qed.

Section SortedOrder.
Context {A : Type} (key : A -> time).

Let R (a b : A) : Prop := Datetime.time_ltb (key b) (key a) = false.

Lemma sorted_StronglySorted (l : list A) :
  StronglySorted R (sorted key Datetime.time_ltb l).
Proof.
  apply Sorted_StronglySorted.
  - intros a b c Hab Hbc. unfold R in *. now apply (time_le_trans _ (key b)).
  - apply (sorted_Sorted key Datetime.time_ltb time_ltb_asym).
Qed.

Lemma sorted_idempotent (l : list A) :
  sorted key Datetime.time_ltb (sorted key Datetime.time_ltb l)
  = sorted key Datetime.time_ltb l.
Proof.
  apply sorted_of_Sorted.
  apply (sorted_Sorted key Datetime.time_ltb time_ltb_asym).
Qed.

End SortedOrder.

(** X20.  [sort_by_start] rearranges the rows so that every row comes
    before the rows of a later key, a blank or unreadable start counting
    as 23:59:59 and so never before a readable one; rows already in order
    stay as they are, and sorting twice is sorting once. *)
Theorem sort_by_start_order (rows : list SelectableRow) :
  Permutation (GuiActions.sort_by_start rows) rows
  /\ StronglySorted by_key (GuiActions.sort_by_start rows)
  /\ (forall r : IntervalRow,
        Datetime.time_ltb (mkTime 23 59 59) (GuiActions.keyf r) = false)
  /\ (Sorted by_key rows -> GuiActions.sort_by_start rows = rows)
  /\ GuiActions.sort_by_start (GuiActions.sort_by_start rows)
     = GuiActions.sort_by_start rows.
Proof.
  unfold GuiActions.sort_by_start.
  split; [apply sorted_perm|].
  split; [apply (sorted_StronglySorted (fun r => GuiActions.keyf (row_text r)))|].
  split; [|split].
  - intros r. destruct (keyf_time_of_day r) as (Hh & Hm & Hs).
    destruct (Datetime.time_ltb _ _) eqn:E; [|reflexivity].
    apply time_ltb_iff in E. simpl in E. lia.
  - intros Hs.
    now apply (sorted_of_Sorted (fun r => GuiActions.keyf (row_text r))).
  - apply sorted_idempotent.
Qed.

Lemma sort_by_start_order_witness :
  GuiActions.sort_by_start
    [mkSelectableRow (mkIntervalRow "9" "12") false;
     mkSelectableRow (mkIntervalRow "1 pm" "") true;
     mkSelectableRow (mkIntervalRow "" "") false]
  = [mkSelectableRow (mkIntervalRow "9" "12") false;
     mkSelectableRow (mkIntervalRow "1 pm" "") true;
     mkSelectableRow (mkIntervalRow "" "") false].
Proof.
  refine (proj1 (proj2 (proj2 (proj2 (sort_by_start_order _)))) _).
  repeat constructor.
Defined.

Section SortedFilterMap.
Context {A B : Type} (keyA : A -> time) (keyB : B -> time)
        (g : A -> option B).
Hypothesis key_agrees : forall a b, g a = Some b -> keyA a = keyB b.

Let fm (l : list A) : list B :=
  flat_map (fun a => match g a with Some b => [b] | None => [] end) l.

Lemma insert_by_front (b : B) (l : list B) :
  Forall (fun h => Datetime.time_ltb (keyB h) (keyB b) = false) l ->
  insert_by keyB Datetime.time_ltb b l = b :: l.
Proof.
  destruct l as [|h l]; [reflexivity|]. intros H.
  apply Forall_cons_iff in H as [H _]. simpl. now rewrite H.
Qed.

Lemma fm_keys_after (x : A) (b : B) (l : list A) :
  g x = Some b ->
  Forall (fun z => Datetime.time_ltb (keyA z) (keyA x) = false) l ->
  Forall (fun h => Datetime.time_ltb (keyB h) (keyB b) = false) (fm l).
Proof.
  intros Hx. induction 1 as [|z l Hz _ IH]; [constructor|].
  unfold fm in *. cbn [flat_map].
  destruct (g z) as [bz|] eqn:Ez; [|exact IH].
  constructor; [|exact IH].
  now rewrite <- (key_agrees z bz Ez), <- (key_agrees x b Hx).
Qed.

(** Taking the kept elements of a sorted list with one more element
    inserted is inserting what is kept of that element. *)
Lemma fm_insert_by (x : A) (l : list A) :
  StronglySorted (fun a b => Datetime.time_ltb (keyA b) (keyA a) = false) l ->
  fm (insert_by keyA Datetime.time_ltb x l)
  = match g x with
    | None => fm l
    | Some b => insert_by keyB Datetime.time_ltb b (fm l)
    end.
Proof.
  induction 1 as [|y l Hs IH Hy]; cbn [insert_by].
  - unfold fm. cbn [flat_map]. now destruct (g x).
  - destruct (Datetime.time_ltb (keyA y) (keyA x)) eqn:E.
    + change (fm (y :: insert_by keyA Datetime.time_ltb x l))
        with ((match g y with Some b => [b] | None => [] end)
              ++ fm (insert_by keyA Datetime.time_ltb x l))%list.
      change (fm (y :: l))
        with ((match g y with Some b => [b] | None => [] end) ++ fm l)%list.
      rewrite IH. destruct (g x) as [b|] eqn:Ex; [|reflexivity].
      destruct (g y) as [b'|] eqn:Ey; [|reflexivity].
      cbn [app insert_by].
      now rewrite <- (key_agrees y b' Ey), <- (key_agrees x b Ex), E.
    + change (fm (x :: y :: l))
        with ((match g x with Some b => [b] | None => [] end)
              ++ fm (y :: l))%list.
      destruct (g x) as [b|] eqn:Ex; [|reflexivity].
      cbn [app]. symmetry. apply insert_by_front.
      apply (fm_keys_after x b (y :: l) Ex).
      constructor; [exact E|].
      revert Hy. apply Forall_impl. intros z Hz.
      now apply (time_le_trans _ (keyA y)).
Qed.

Lemma fm_sorted (l : list A) :
  fm (sorted keyA Datetime.time_ltb l)
  = sorted keyB Datetime.time_ltb (fm l).
Proof.
  induction l as [|x l IH]; [reflexivity|].
  cbn [sorted fold_right]. fold (sorted keyA Datetime.time_ltb l).
  rewrite fm_insert_by by apply sorted_StronglySorted.
  rewrite IH. unfold fm. cbn [flat_map].
  destruct (g x) as [b|]; reflexivity.
Qed.

End SortedFilterMap.

Lemma sorted_map {A B K : Type} (f : A -> B) (key : B -> K)
    (ltb : K -> K -> bool) (l : list A) :
  map f (sorted (fun a => key (f a)) ltb l) = sorted key ltb (map f l).
Proof.
  induction l as [|x l IH]; [reflexivity|].
  cbn [sorted fold_right map].
  fold (sorted (fun a => key (f a)) ltb l). fold (sorted key ltb (map f l)).
  rewrite <- IH. generalize (sorted (fun a => key (f a)) ltb l) as s.
  induction s as [|y s IHs]; [reflexivity|]. simpl.
  destruct (ltb (key (f y)) (key (f x))); simpl; [now rewrite IHs | reflexivity].
Qed.

Lemma row_interval_key (today : date) (row : IntervalRow) (it : TimeInterval) :
  row_interval today row = Some it -> GuiActions.keyf row = start it.
Proof.
  unfold row_interval. intros H.
  pose proof (get_interval_or_error_spec row today) as Hc.
  destruct (get_interval_or_error row today) as [[it'|] [e|]];
    try contradiction.
  - simpl in H. injection H as ->. destruct Hc as (_ & Hp & _).
    unfold GuiActions.keyf.
    destruct (Str.strip (var_start row)) eqn:Es; [discriminate Hp|].
    cbn [Str.is_empty]. now rewrite Hp.
  - simpl in H. destruct (negb _); discriminate H.
  - discriminate H.
Qed.

Lemma collect_rows_eq (today : date) (rows : list IntervalRow) :
  forall its b,
    GuiController.collect_rows rows today its b
    = ((its ++ collected today rows)%list,
       b || existsb
              (fun row => truthy (snd (get_interval_or_error row today)))
              rows).
Proof.
  induction rows as [|row rows IH]; intros its b;
    cbn [GuiController.collect_rows collected flat_map existsb].
  - now rewrite app_nil_r, orb_false_r.
  - unfold row_interval at 1.
    destruct (get_interval_or_error row today) as [it err]. cbn [snd].
    destruct (truthy err).
    + rewrite IH. cbn [app]. now rewrite orb_true_r.
    + rewrite orb_false_l. destruct it as [it|]; rewrite IH.
      * now rewrite <- app_assoc.
      * reflexivity.
Qed.

Lemma existsb_perm {A : Type} (f : A -> bool) (l1 l2 : list A) :
  Permutation l1 l2 -> existsb f l1 = existsb f l2.
Proof.
  induction 1 as [|x l1 l2 _ IH|x y l|l1 l2 l3 _ IH1 _ IH2]; simpl.
  - reflexivity.
  - now rewrite IH.
  - destruct (f x), (f y); reflexivity.
  - congruence.
Qed.

(** [validate] and [total_worked_seconds] see the intervals only through
    their number of open ones, their order of starts and their sum. *)
Lemma validate_sorted_intervals (d : date) (t t' : Z)
    (l l' : list TimeInterval) (now_dt : datetime) :
  Permutation l l' ->
  sorted start Datetime.time_ltb l = sorted start Datetime.time_ltb l' ->
  Schedule.validate (mkDaySchedule d l t) now_dt
  = Schedule.validate (mkDaySchedule d l' t') now_dt
  /\ Schedule.total_worked_seconds (mkDaySchedule d l t) now_dt
     = Schedule.total_worked_seconds (mkDaySchedule d l' t') now_dt.
Proof.
  intros Hperm Hsorted. split.
  - rewrite !validate_eq, !effective_eq.
    unfold Schedule.sorted_intervals, Schedule.open_count.
    cbn [intervals on_date].
    now rewrite Hsorted, (filter_length_perm is_open l l' Hperm).
  - unfold Schedule.total_worked_seconds. cbn [intervals on_date].
    rewrite !fold_durations_eq.
    now rewrite (existsb_perm _ l l' Hperm),
                (sum_of_durations_perm d now_dt l l' Hperm).
Qed.

Lemma recalculate_eq (utcoffset : Z -> Z) (rows : list IntervalRow)
    (var_target : string) (now_dt now_collect : datetime) (today : date) :
  let sm := GuiController._collect_schedule rows now_collect today in
  let tgt := match TimeParser.parse_duration var_target with
             | Ok t => t
             | ValueError _ => 8 * 3600 + 30 * 60
             end in
  let total := Schedule.total_worked_seconds (fst sm) now_dt in
  let w := if Nat.eqb (List.length (snd sm)) 0 then
             match total with Ok w => w | ValueError _ => 0 end
           else 0 in
  let status :=
    if Nat.eqb (List.length (snd sm)) 0 then
      match total with
      | Ok _ => "OK."
      | ValueError e => "Error computing totals: " ++ e
      end
    else Str.join " ; " (fromkeys (snd sm) []) in
  GuiController.recalculate utcoffset rows var_target now_dt now_collect today
  = mkRecalculated w tgt (Z.max 0 (tgt - w)) (Z.max 0 (w - tgt)) status
      (TimeParser.format_hms w) (TimeParser.format_hms (Z.max 0 (tgt - w)))
      (TimeParser.format_hms (Z.max 0 (w - tgt)))
      (fst (GuiController._set_milestone_message utcoffset w tgt now_dt))
      (snd (GuiController._set_milestone_message utcoffset w tgt now_dt)).
Proof.
  intros sm tgt total w status. subst total w status tgt.
  unfold GuiController.recalculate. fold sm.
  destruct sm as [schedule val_msgs]. cbn [fst snd].
  destruct (TimeParser.parse_duration var_target) as [t|e];
    rewrite total_worked_seconds_set_target;
    destruct (Nat.eqb (List.length val_msgs) 0);
    try destruct (Schedule.total_worked_seconds schedule now_dt);
    cbn [negb target_seconds Schedule.set_target_seconds];
    destruct (GuiController._set_milestone_message _ _ _ _);
    reflexivity.
Qed.

(** X21.  Sorting the rows by start changes nothing of what
    [recalculate] shows: totals, status and milestone are those of the
    rows in their former order. *)
Theorem recalculate_after_sort_by_start
    (utcoffset : Z -> Z) (rows : list SelectableRow) (var_target : string)
    (now_dt now_collect : datetime) (today : date) :
  GuiController.recalculate utcoffset
    (map row_text (GuiActions.sort_by_start rows)) var_target
    now_dt now_collect today
  = GuiController.recalculate utcoffset (map row_text rows) var_target
      now_dt now_collect today.
Proof.
  unfold GuiActions.sort_by_start.
  rewrite (sorted_map row_text GuiActions.keyf Datetime.time_ltb rows).
  set (R := map row_text rows).
  set (R' := sorted GuiActions.keyf Datetime.time_ltb R).
  assert (Hperm : Permutation R' R) by apply sorted_perm.
  assert (Hcol : collected today R'
                 = sorted start Datetime.time_ltb (collected today R))
    by (apply (fm_sorted GuiActions.keyf start (row_interval today));
        intros a b; apply row_interval_key).
  assert (Hsch : forall X,
             GuiController._collect_schedule X now_collect today
             = let sch := mkDaySchedule today (collected today X) 30600 in
               (sch,
                if existsb
                     (fun row => truthy (snd (get_interval_or_error row today)))
                     X
                   && Nat.eqb (List.length (Schedule.validate sch now_collect)) 0
                then ["Fix invalid rows."]
                else Schedule.validate sch now_collect)).
  { intros X. rewrite collect_schedule_eq, collect_rows_eq. reflexivity. }
  assert (Hpi : Permutation (collected today R') (collected today R))
    by (rewrite Hcol; apply sorted_perm).
  assert (Hss : sorted start Datetime.time_ltb (collected today R')
                = sorted start Datetime.time_ltb (collected today R))
    by (rewrite Hcol; apply sorted_idempotent).
  rewrite !recalculate_eq, !Hsch. cbn [fst snd].
  destruct (validate_sorted_intervals today 30600 30600 _ _ now_collect Hpi Hss)
    as [-> _].
  destruct (validate_sorted_intervals today 30600 30600 _ _ now_dt Hpi Hss)
    as [_ ->].
  now rewrite (existsb_perm _ R' R Hperm).
Qed.

(** ** End = Now *)

Lemma parse_time_strip (text : string) :
  TimeParser.parse_time (Str.strip text) = TimeParser.parse_time text.
Proof.
  assert (H : Str.strip (Str.strip text) = Str.strip text)
    by apply (strip_rstrip_lstrip text).
  unfold TimeParser.parse_time. now rewrite H.
Qed.

Lemma strftime_strip (dt : datetime) :
  Datetime.wf dt ->
  Str.strip (Datetime.strftime_HMS dt) = Datetime.strftime_HMS dt
  /\ Str.is_empty (Datetime.strftime_HMS dt) = false.
Proof.
  intros Hwf. rewrite (strftime_canonical dt Hwf).
  destruct Hwf as (Hh & Hm & Hs). split.
  - apply strip_plain, canonical_hms_plain; lia.
  - unfold canonical_hms. now rewrite is_empty_app, two_digits_nonempty.
Qed.

(** X22.  [end_now_for_selected] keeps the number and the order of the
    rows and touches only the selected rows that have a start and a blank
    end: their end becomes a text that [parse_time] reads as the time of
    the clock, so that the open interval becomes the closed interval from
    its start to now when the start is before now, and an error row
    otherwise. *)
Theorem end_now_for_selected_row
    (rows : list SelectableRow) (now_dt : datetime) (i : nat)
    (r : SelectableRow) :
  Datetime.wf now_dt -> nth_error rows i = Some r ->
  exists r' : SelectableRow,
    nth_error (GuiActions.end_now_for_selected rows now_dt) i = Some r'
    /\ var_select r' = var_select r
    /\ var_start (row_text r') = var_start (row_text r)
    /\ if var_select r
          && negb (Str.is_empty (Str.strip (var_start (row_text r))))
          && Str.is_empty (Str.strip (var_end (row_text r)))
       then
         TimeParser.parse_time (var_end (row_text r')) = Ok (dt_time now_dt)
         /\ forall (today : date) (st : time),
              TimeParser.parse_time (Str.strip (var_start (row_text r)))
              = Ok st ->
              get_interval_or_error (row_text r') today
              = if Datetime.time_ltb st (dt_time now_dt)
                then (Some (mkTimeInterval st (Some (dt_time now_dt))), None)
                else (None,
                      Some "End must be after Start (no cross-midnight)")
       else r' = r.
Proof.
  intros Hwf Hnth. unfold GuiActions.end_now_for_selected.
  rewrite nth_error_map, Hnth. cbn [option_map].
  eexists. split; [reflexivity|].
  destruct r as [[s e] sel]. cbn [row_text var_select var_start var_end].
  destruct sel; cbn [andb]; [|auto].
  destruct (Str.is_empty (Str.strip s)) eqn:Es; cbn [negb andb]; [auto|].
  destruct (Str.is_empty (Str.strip e)) eqn:Ee; [|auto].
  cbn [row_text var_select var_start var_end].
  split; [reflexivity|]. split; [reflexivity|].
  destruct (strftime_strip now_dt Hwf) as [Hstrip Hne].
  split; [now apply parse_time_strftime|].
  intros today st Hst. unfold get_interval_or_error.
  cbn [var_start var_end]. rewrite Hstrip, Es, Hne. cbn [andb].
  rewrite Hst, (parse_time_strftime now_dt Hwf).
  unfold Datetime.combine. rewrite leb_same_date.
  unfold Datetime.time_ltb. rewrite (time_compare_antisym st (dt_time now_dt)).
  now destruct (Datetime.time_compare st (dt_time now_dt)).
Qed.

Lemma end_now_for_selected_row_witness :
  exists r' : SelectableRow,
    nth_error
      (GuiActions.end_now_for_selected
         [mkSelectableRow (mkIntervalRow "9" "12") true;
          mkSelectableRow (mkIntervalRow "13:00" " ") true]
         (mkDatetime 739621 (mkTime 14 5 0))) 1
    = Some r'
    /\ var_select r' = true
    /\ var_start (row_text r') = "13:00"
    /\ (TimeParser.parse_time (var_end (row_text r')) = Ok (mkTime 14 5 0)
        /\ forall (today : date) (st : time),
             TimeParser.parse_time (Str.strip "13:00") = Ok st ->
             get_interval_or_error (row_text r') today
             = if Datetime.time_ltb st (mkTime 14 5 0)
               then (Some (mkTimeInterval st (Some (mkTime 14 5 0))), None)
               else (None,
                     Some "End must be after Start (no cross-midnight)")).
Proof.
  refine (end_now_for_selected_row
            [mkSelectableRow (mkIntervalRow "9" "12") true;
             mkSelectableRow (mkIntervalRow "13:00" " ") true]
            (mkDatetime 739621 (mkTime 14 5 0)) 1
            (mkSelectableRow (mkIntervalRow "13:00" " ") true) _ eq_refl).
  unfold Datetime.wf, Datetime.time_wf; simpl. lia.
Defined.


(** ** The summary *)

Lemma interval_lines_in (rows : list IntervalRow) (row : IntervalRow)
    (today : date) (it : TimeInterval) :
  In row rows -> row_interval today row = Some it ->
  In ("  - " ++ Str.strip (var_start row) ++ " → "
        ++ match end_ it with
           | None => "(open)"
           | Some _ => Str.strip (var_end row)
           end)
     (GuiSummary.interval_lines rows).
Proof.
  intros Hin Hrow. unfold GuiSummary.interval_lines.
  apply in_flat_map. exists row. split; [exact Hin|].
  unfold row_interval in Hrow.
  pose proof (get_interval_or_error_spec row today) as Hc.
  destruct (get_interval_or_error row today) as [[it'|] [e|]];
    try contradiction.
  - simpl in Hrow. injection Hrow as ->. destruct Hc as (_ & Hp & He).
    destruct (Str.strip (var_start row)) as [|c s] eqn:Es;
      [discriminate Hp|].
    cbn [Str.is_empty negb orb].
    destruct (end_ it) as [et|].
    + destruct He as [Pe _].
      destruct (Str.strip (var_end row)) as [|c' s'] eqn:Ee;
        [discriminate Pe|].
      left. reflexivity.
    + rewrite He. left. reflexivity.
  - simpl in Hrow. destruct (negb _); discriminate Hrow.
  - discriminate Hrow.
Qed.

(** X23.  The summary agrees with the display: for the same rows, target
    and readings of the clock, its Target, Worked, Remaining and Overtime
    lines carry the values that [recalculate] shows; when there are
    messages its Validation line carries the status line of
    [recalculate]; and every row that gives an interval has its line,
    ending in "(open)" when the interval is open. *)
Theorem copy_summary_agrees_with_recalculate
    (isoformat : date -> string) (utcoffset : Z -> Z)
    (rows : list IntervalRow) (var_target m1 m2 : string)
    (now_dt now_collect : datetime) (today : date) :
  let lines := GuiSummary.copy_summary_lines isoformat rows var_target m1 m2
                 now_dt now_collect today in
  let r := GuiController.recalculate utcoffset rows var_target
             now_dt now_collect today in
  let msgs := snd (GuiController._collect_schedule rows now_collect today) in
  In ("Target: " ++ TimeParser.format_hms (target r)) lines
  /\ In ("Worked: " ++ var_worked r) lines
  /\ In ("Remaining: " ++ var_remaining r) lines
  /\ In ("Overtime: " ++ var_overtime r) lines
  /\ (msgs <> [] -> In ("Validation: " ++ var_status r) lines)
  /\ (forall row it,
        In row rows -> row_interval today row = Some it ->
        In ("  - " ++ Str.strip (var_start row) ++ " → "
              ++ match end_ it with
                 | None => "(open)"
                 | Some _ => Str.strip (var_end row)
                 end) lines).
Proof.
  intros lines r msgs. subst lines r msgs.
  rewrite recalculate_eq.
  cbn [target var_worked var_remaining var_overtime var_status].
  unfold GuiSummary.copy_summary_lines.
  destruct (GuiController._collect_schedule rows now_collect today)
    as [schedule val_msgs].
  cbn [fst snd].
  assert (Htgt : target_seconds
                   match TimeParser.parse_duration var_target with
                   | Ok t => Schedule.set_target_seconds schedule t
                   | ValueError _ =>
                       Schedule.set_target_seconds schedule (8 * 3600 + 30 * 60)
                   end
                 = match TimeParser.parse_duration var_target with
                   | Ok t => t
                   | ValueError _ => 8 * 3600 + 30 * 60
                   end)
    by (now destruct (TimeParser.parse_duration var_target)).
  assert (Htot : Schedule.total_worked_seconds
                   match TimeParser.parse_duration var_target with
                   | Ok t => Schedule.set_target_seconds schedule t
                   | ValueError _ =>
                       Schedule.set_target_seconds schedule (8 * 3600 + 30 * 60)
                   end now_dt
                 = Schedule.total_worked_seconds schedule now_dt)
    by (now destruct (TimeParser.parse_duration var_target)).
  rewrite Htgt, Htot.
  repeat split.
  - rewrite in_app_iff. left. simpl. tauto.
  - rewrite !in_app_iff. right. right. right. left. simpl. tauto.
  - rewrite !in_app_iff. right. right. right. left. simpl. tauto.
  - rewrite !in_app_iff. right. right. right. left. simpl. tauto.
  - intros Hne. destruct val_msgs as [|m msgs]; [contradiction|].
    cbn [List.length Nat.eqb negb].
    rewrite !in_app_iff. right. right. left. left. reflexivity.
  - intros row it Hin Hrow. rewrite !in_app_iff. right. left.
    now apply (interval_lines_in rows row today it).
Qed.

Lemma copy_summary_agrees_with_recalculate_witness :
  In ("Validation: "
        ++ var_status
             (GuiController.recalculate GuiController.utc
                [mkIntervalRow "9" "12:30"; mkIntervalRow "12" "13"] "8:30"
                (mkDatetime 739621 (mkTime 14 0 0))
                (mkDatetime 739621 (mkTime 14 0 0)) 739621))
     (GuiSummary.copy_summary_lines (fun _ => "2026-01-05")
        [mkIntervalRow "9" "12:30"; mkIntervalRow "12" "13"] "8:30" "" ""
        (mkDatetime 739621 (mkTime 14 0 0))
        (mkDatetime 739621 (mkTime 14 0 0)) 739621).
Proof.
  refine (proj1 (proj2 (proj2 (proj2 (proj2
            (copy_summary_agrees_with_recalculate (fun _ => "2026-01-05")
               GuiController.utc
               [mkIntervalRow "9" "12:30"; mkIntervalRow "12" "13"] "8:30"
               "" "" (mkDatetime 739621 (mkTime 14 0 0))
               (mkDatetime 739621 (mkTime 14 0 0)) 739621))))) _).
  vm_compute. discriminate.
Defined.
